(** * py-template: the wiki scraper and the script template

    A shallow embedding of [example_wiki_scraper.py] and
    [script_template.py].  The functions of the two scripts are translated
    statement by statement into a small state-and-exception monad over a
    store of DataFrame objects and a log.  The third-party collaborators
    (pandas, numpy, requests, bs4, matplotlib) are reached through
    interfaces (type classes); where a property depends on what a
    collaborator computes, a reference instance following the
    collaborator's documented behaviour is given. *)

From Stdlib Require Import ZArith List String Ascii Bool Lia.
From Stdlib Require Import Floats DecimalString.
From stdpp Require Import base option list gmap strings.

Local Open Scope Z_scope.
Local Open Scope string_scope.

(* ===================================================================== *)
(** ** Python exceptions and results *)
(* ===================================================================== *)

(** An instance of a subclass of Python's [Exception]: its class name and
    [str e]. *)
Record PyException : Type := mkExc { exc_class : string; exc_msg : string }.

Definition hex_digit (n : nat) : ascii :=
  ascii_of_nat (if Nat.ltb n 10 then 48 + n else 87 + n).

(** One character inside [repr] of a str quoted with [quote]: the quote
    and the backslash are escaped, tab, newline and carriage return are
    written by name, any other control character by its code. *)
Definition repr_char (quote c : ascii) : string :=
  let n := nat_of_ascii c in
  if Ascii.eqb c quote || Ascii.eqb c "\"%char then String "\" (String c "")
  else if Nat.eqb n 9 then "\t"
  else if Nat.eqb n 10 then "\n"
  else if Nat.eqb n 13 then "\r"
  else if Nat.ltb n 32 || Nat.eqb n 127
       then String "\" (String "x" (String (hex_digit (n / 16))
                                        (String (hex_digit (n mod 16)) "")))
  else String c "".

(** [repr(s)] for a str: in single quotes, unless the text has a single
    quote and no double quote.  (Text outside ASCII is taken as
    printable.) *)
Definition py_repr (s : string) : string :=
  let chars := list_ascii_of_string s in
  let quote :=
    if existsb (Ascii.eqb "'"%char) chars
       && negb (existsb (Ascii.eqb "034"%char) chars)
    then "034"%char else "'"%char in
  String quote
    (fold_right (fun c acc => repr_char quote c ++ acc) (String quote "") chars).

(** [KeyError(key)]: [str] of a KeyError is the [repr] of its key. *)
Definition KeyError (key : string) : PyException :=
  mkExc "KeyError" (py_repr key).
Definition ValueError (m : string) : PyException := mkExc "ValueError" m.
Definition TypeError (m : string) : PyException := mkExc "TypeError" m.
Definition IndexError (m : string) : PyException := mkExc "IndexError" m.
Definition OverflowError (m : string) : PyException := mkExc "OverflowError" m.
Definition MemoryError (m : string) : PyException := mkExc "MemoryError" m.

(** The outcome of a call: a value, or a raised exception. *)
Inductive result (A : Type) : Type :=
| Ok (a : A)
| Raise (e : PyException).
Arguments Ok {A} a.
Arguments Raise {A} e.

Definition result_bind {A B} (r : result A) (f : A -> result B) : result B :=
  match r with
  | Ok a => f a
  | Raise e => Raise e
  end.

(* ===================================================================== *)
(** ** Values, columns and tables *)
(* ===================================================================== *)

(** A Python object stored in a column of dtype [object]. *)
Inductive pyobj : Type :=
| PyInt (z : Z)
| PyFloat (x : float)
| PyStr (s : string)
| PyBool (b : bool)
| PyNone.

(** Storage widths of the numeric dtypes. *)
Inductive IntWidth : Type := I8 | I16 | I32 | I64 | U64.
Inductive FloatWidth : Type := F32 | F64.

(** A pandas Series over the default positional index, by dtype.  A
    float32 value is kept as the double it widens to (widening is exact).
    A datetime64 value is kept as its count of nanoseconds. *)
Inductive Series : Type :=
| IntSeries (w : IntWidth) (vals : list Z)
| FloatSeries (w : FloatWidth) (vals : list float)
| BoolSeries (vals : list bool)
| DatetimeSeries (vals : list Z)
| ObjectSeries (vals : list pyobj).

(** A DataFrame: the length of its index and its columns in order.  Column
    labels are strings and may repeat. *)
Record DataFrame : Type := mkDF {
  index_len : nat;
  columns : list (string * Series)
}.

(** What [df[key]] evaluates to: one column when the label occurs once, a
    sub-frame of all its occurrences when the label repeats. *)
Inductive Selection : Type :=
| OneColumn (s : Series)
| SubFrame (n : nat) (cols : list (string * Series)).

(** A value of a column, whatever the width it is stored with. *)
Inductive value : Type :=
| VInt (z : Z)
| VFloat (x : float)
| VBool (b : bool)
| VTime (t : Z)
| VObj (o : pyobj).

(** The values of a column. *)
Definition series_values (s : Series) : list value :=
  match s with
  | IntSeries _ v => map VInt v
  | FloatSeries _ v => map VFloat v
  | BoolSeries v => map VBool v
  | DatetimeSeries v => map VTime v
  | ObjectSeries v => map VObj v
  end.

(** The column values of a table: label and values of each column. *)
Definition frame_values (df : DataFrame) : list (string * list value) :=
  map (fun c => (fst c, series_values (snd c))) (columns df).

Definition series_len (s : Series) : nat :=
  match s with
  | IntSeries _ v => length v
  | FloatSeries _ v => length v
  | BoolSeries v => length v
  | DatetimeSeries v => length v
  | ObjectSeries v => length v
  end.

Definition column_labels (df : DataFrame) : list string :=
  map fst (columns df).

(** The columns of [df] labelled [key], in order. *)
Definition columns_named (key : string) (cols : list (string * Series))
  : list (string * Series) :=
  List.filter (fun c => String.eqb (fst c) key) cols.

(** [df[key]]. *)
Definition getitem (df : DataFrame) (key : string) : result Selection :=
  match columns_named key (columns df) with
  | [] => Raise (KeyError key)
  | [(_, s)] => Ok (OneColumn s)
  | cs => Ok (SubFrame (index_len df) cs)
  end.

(* ===================================================================== *)
(** ** The store, the log and the monad of the scripts *)
(* ===================================================================== *)

Inductive LogLevel : Type := INFO | ERROR.

(** One call on the module's [logger]. *)
Record LogRecord : Type := mkLog { log_level : LogLevel; log_message : string }.

(** The part of the interpreter's state the scripts touch: the DataFrame
    objects, addressed by identity; the calls made on the logger, oldest
    first; and how many samples numpy's global generator has handed out. *)
Record World : Type := mkWorld {
  heap : gmap nat DataFrame;
  log : list LogRecord;
  rng_pos : nat
}.

(** A computation: it runs on a world and leaves a world, whether it
    returns or raises. *)
Definition M (A : Type) : Type := World -> result A * World.

Definition ret {A} (a : A) : M A := fun w => (Ok a, w).

Definition raise {A} (e : PyException) : M A := fun w => (Raise e, w).

Definition bind {A B} (m : M A) (f : A -> M B) : M B :=
  fun w =>
    match m w with
    | (Ok a, w') => f a w'
    | (Raise e, w') => (Raise e, w')
    end.

(** [lift r]: the outcome of a call that does not touch the world. *)
Definition lift {A} (r : result A) : M A := fun w => (r, w).

(** [try: body except Exception as e: handler e]. *)
Definition try_except {A} (body : M A) (handler : PyException -> M A) : M A :=
  fun w =>
    match body w with
    | (Ok a, w') => (Ok a, w')
    | (Raise e, w') => handler e w'
    end.

Declare Scope py_scope.
Delimit Scope py_scope with py.
Notation "'let*' x := m 'in' k" := (bind m (fun x => k))
  (at level 10, x name, m at level 100, k at level 200) : py_scope.
Notation "'do' m 'then' k" := (bind m (fun _ => k))
  (at level 10, m at level 100, k at level 200) : py_scope.
Local Open Scope py_scope.

(** [for x in xs: body x]. *)
Fixpoint for_each {A} (xs : list A) (body : A -> M unit) : M unit :=
  match xs with
  | [] => ret tt
  | x :: xs' => do body x then for_each xs' body
  end.

(** The world after one more call on the logger. *)
Definition logged (w : World) (l : LogLevel) (msg : string) : World :=
  mkWorld (heap w) (log w ++ [mkLog l msg]) (rng_pos w).

Definition logger_error (msg : string) : M unit :=
  fun w => (Ok tt, logged w ERROR msg).

Definition logger_info (msg : string) : M unit :=
  fun w => (Ok tt, logged w INFO msg).

(** Reading the object a reference points to.  A Python name always refers
    to a live object; the dangling case is here only to make the function
    total. *)
Definition deref (r : nat) : M DataFrame :=
  fun w =>
    match heap w !! r with
    | Some df => (Ok df, w)
    | None => (Raise (mkExc "ReferenceError" "no such object"), w)
    end.

(** In-place update of the object at [r]. *)
Definition store (r : nat) (df : DataFrame) : M unit :=
  fun w => (Ok tt, mkWorld (<[r := df]> (heap w)) (log w) (rng_pos w)).

(** A new object, at an identity no live object has. *)
Definition alloc (df : DataFrame) : M nat :=
  fun w =>
    let r := fresh (dom (heap w)) in
    (Ok r, mkWorld (<[r := df]> (heap w)) (log w) (rng_pos w)).

(** [w'] has the objects of [w], all as they were except maybe the one at
    [r]; nothing was drawn from the generator. *)
Definition only_changes (r : nat) (w w' : World) : Prop :=
  dom (heap w') = dom (heap w)
  /\ (forall r', r' <> r -> heap w' !! r' = heap w !! r')
  /\ rng_pos w' = rng_pos w.

(* ===================================================================== *)
(** ** The pandas interface *)
(* ===================================================================== *)

Inductive Downcast : Type := DowncastInteger | DowncastFloat.

(** The pandas calls of the two scripts.  Each may raise, except the two
    dtype predicates, which answer [False] on anything they do not
    recognise. *)
Class Pandas : Type := {
  (** [pandas.api.types.infer_dtype(x)] *)
  infer_dtype : Selection -> result string;
  (** [pd.to_numeric(x, downcast=...)] *)
  to_numeric : Selection -> Downcast -> result Selection;
  (** [x.astype(str)] *)
  astype_str : Selection -> result Selection;
  (** [is_numeric_dtype(x)] *)
  is_numeric_dtype : Selection -> bool;
  (** [is_string_dtype(x)] *)
  is_string_dtype : Selection -> bool;
  (** [df[key] = value], as the frame it leaves *)
  setitem : DataFrame -> string -> Selection -> result DataFrame;
  (** [pd.to_datetime(x)] *)
  to_datetime : Selection -> result Selection;
  (** [x / n] *)
  truediv : Selection -> Z -> result Selection;
  (** [df.to_string()] *)
  to_string : DataFrame -> result string;
  (** [pd.read_html(markup)] *)
  read_html : string -> result (list DataFrame)
}.

(* ===================================================================== *)
(** ** Markup: the bs4 tree and [find] *)
(* ===================================================================== *)

(** A parsed document: tags with their name, the tokens of their [class]
    attribute and their children, and text. *)
Inductive node : Type :=
| Tag (name : string) (classes : list string) (children : list node)
| NavigableString (text : string).

(** The descendants of a node in document order: each child, then that
    child's own descendants, before the next child. *)
Fixpoint descendants (n : node) : list node :=
  match n with
  | Tag _ _ children =>
      (fix go (cs : list node) : list node :=
         match cs with
         | [] => []
         | c :: cs' => c :: descendants c ++ go cs'
         end) children
  | NavigableString _ => []
  end.

Fixpoint join_with (sep : string) (l : list string) : string :=
  match l with
  | [] => ""
  | [x] => x
  | x :: l' => x ++ sep ++ join_with sep l'
  end.

(** bs4's match of a tag against a name and [{'class': cls}]: the name is
    equal, and [cls] is one of the tag's class tokens or is the whole
    attribute. *)
Definition tag_matches (name cls : string) (n : node) : bool :=
  match n with
  | Tag nm classes _ =>
      String.eqb nm name
      && (existsb (String.eqb cls) classes
          || (negb (Nat.eqb (length classes) 0)
              && String.eqb (join_with " " classes) cls))
  | NavigableString _ => false
  end.

(** [soup.find(name, {'class': cls})]: the first matching descendant, or
    [None]. *)
Definition find (soup : node) (name cls : string) : option node :=
  List.find (tag_matches name cls) (descendants soup).

(* ===================================================================== *)
(** ** The other collaborators *)
(* ===================================================================== *)

(** requests and bs4: the fetch, the parser and [str(tag)]. *)
Class Web : Type := {
  (** [requests.get(url).content] *)
  requests_get : string -> result string;
  (** [BeautifulSoup(content, 'html.parser')] *)
  BeautifulSoup : string -> string -> result node;
  (** [str(tag)] *)
  tag_str : node -> result string
}.

(** matplotlib.pyplot: every call may raise. *)
Class Pyplot : Type := {
  plt_figure : Z * Z -> result unit;
  plt_plot : Selection -> Selection -> string -> result unit;
  plt_title : string -> result unit;
  plt_xlabel : string -> result unit;
  plt_ylabel : string -> result unit;
  plt_grid : bool -> result unit;
  plt_xticks : Z -> result unit;
  plt_tight_layout : result unit;
  plt_show : result unit
}.

(* ===================================================================== *)
(** ** example_wiki_scraper.py *)
(* ===================================================================== *)

Module WikiScraper.

(** A Python [dict] with string keys: assigning to a key that is present
    keeps the key's place and replaces its value; a new key goes last. *)
Fixpoint dict_set (d : list (string * string)) (k v : string)
  : list (string * string) :=
  match d with
  | [] => [(k, v)]
  | (k', v') :: d' =>
      if String.eqb k' k then (k', v) :: d' else (k', v') :: dict_set d' k v
  end.

(** [pd.DataFrame(items, columns=[c1, c2])] for a list of pairs of
    strings: one row per pair, two columns of dtype object. *)
Definition frame_of_items (items : list (string * string)) (c1 c2 : string)
  : DataFrame :=
  mkDF (length items)
       [(c1, ObjectSeries (map (fun kv => PyStr (fst kv)) items));
        (c2, ObjectSeries (map (fun kv => PyStr (snd kv)) items))].

(** The labels of [l] without their repetitions, each at its first place. *)
Fixpoint first_occurrences (l : list string) : list string :=
  match l with
  | [] => []
  | x :: l' =>
      x :: List.filter (fun y => negb (String.eqb y x)) (first_occurrences l')
  end.

Section Body.
Context `{PD : Pandas} `{WB : Web} `{PLT : Pyplot}.

(** The branch of [infer_data_types] for one column. *)
Definition inferred_type_of (sel : Selection) : string :=
  if is_numeric_dtype sel then "Numeric"
  else if is_string_dtype sel then "String"
  else "Object".

(** The loop of [infer_data_types], threading the dict. *)
Fixpoint infer_loop (df : nat) (cols : list string)
    (inferred_types : list (string * string)) : M (list (string * string)) :=
  match cols with
  | [] => ret inferred_types
  | column :: cols' =>
      let* d := deref df in
      let* sel := lift (getitem d column) in
      infer_loop df cols' (dict_set inferred_types column (inferred_type_of sel))
  end.

(** The type the loop assigns to the label [column] of the table [d]. *)
Definition type_of (d : DataFrame) (column : string) : string :=
  match getitem d column with
  | Ok sel => inferred_type_of sel
  | Raise _ => ""
  end.

(** The dict the loop builds, as a function of the table. *)
Definition inferred_items (d : DataFrame) (cols : list string)
    (acc : list (string * string)) : list (string * string) :=
  fold_left (fun acc column =>
               match getitem d column with
               | Ok sel => dict_set acc column (inferred_type_of sel)
               | Raise _ => acc
               end) cols acc.

Definition infer_data_types (df : nat) : M nat :=
  let* d := deref df in
  let* inferred_types := infer_loop df (column_labels d) [] in
  alloc (frame_of_items inferred_types "Column" "Inferred Type").

(** The body of the [try] in [apply_inferred_types], for one column. *)
Definition convert_column (df : nat) (column : string) : M unit :=
  let* d := deref df in
  let* sel := lift (getitem d column) in
  let* inferred_type := lift (infer_dtype sel) in
  if String.eqb inferred_type "integer" then
    let* d := deref df in
    let* sel := lift (getitem d column) in
    let* v := lift (to_numeric sel DowncastInteger) in
    let* d' := lift (setitem d column v) in
    store df d'
  else if String.eqb inferred_type "floating" then
    let* d := deref df in
    let* sel := lift (getitem d column) in
    let* v := lift (to_numeric sel DowncastFloat) in
    let* d' := lift (setitem d column v) in
    store df d'
  else if String.eqb inferred_type "string" then
    let* d := deref df in
    let* sel := lift (getitem d column) in
    let* v := lift (astype_str sel) in
    let* d' := lift (setitem d column v) in
    store df d'
  else ret tt.

(** The frame the body of the [try] assigns, as a function of the frame
    it reads. *)
Definition converted (d : DataFrame) (column : string) : result DataFrame :=
  result_bind (getitem d column) (fun sel =>
  result_bind (infer_dtype sel) (fun inferred_type =>
  if String.eqb inferred_type "integer" then
    result_bind (to_numeric sel DowncastInteger) (setitem d column)
  else if String.eqb inferred_type "floating" then
    result_bind (to_numeric sel DowncastFloat) (setitem d column)
  else if String.eqb inferred_type "string" then
    result_bind (astype_str sel) (setitem d column)
  else Ok d)).

(** One turn of the loop, on the frame: the assignment, or nothing when
    the body raises. *)
Definition step_frame (d : DataFrame) (column : string) : DataFrame :=
  match converted d column with
  | Ok d' => d'
  | Raise _ => d
  end.

Definition convert_error (column : string) (e : PyException) : string :=
  "Could not convert column " ++ column ++ ". Error: " ++ exc_msg e.

(** The loop of [apply_inferred_types] over the labels [cols]. *)
Definition coerce_loop (df : nat) (cols : list string) : M unit :=
  for_each cols (fun column =>
    try_except (convert_column df column)
               (fun e => logger_error (convert_error column e))).

Definition apply_inferred_types (df : nat) : M nat :=
  let* d := deref df in
  do coerce_loop df (column_labels d) then
  ret df.

Definition thousands : string := "World Population (in thousands)".
Definition millions : string := "World Population (in millions)".

Definition plot_world_population (df : nat) : M unit :=
  let* d := deref df in
  let* year := lift (getitem d "Year") in
  let* year_str := lift (astype_str year) in
  let* year_dt := lift (to_datetime year_str) in
  let* d' := lift (setitem d "Year" year_dt) in
  do store df d' then
  let* d := deref df in
  let* pop := lift (getitem d thousands) in
  let* pop_m := lift (truediv pop 1000) in
  let* d' := lift (setitem d millions pop_m) in
  do store df d' then
  do lift (plt_figure (12, 6)) then
  let* d := deref df in
  let* x := lift (getitem d "Year") in
  let* y := lift (getitem d millions) in
  do lift (plt_plot x y "o") then
  do lift (plt_title "World Population Over the Years") then
  do lift (plt_xlabel "Year") then
  do lift (plt_ylabel "Population (in millions)") then
  do lift (plt_grid true) then
  do lift (plt_xticks 45) then
  do lift plt_tight_layout then
  lift plt_show.

Definition scrape_error (e : PyException) : string :=
  "An error occurred while scraping: " ++ exc_msg e.

(** The body of the [try] in [scrape_wikipedia_demographics]: [Some r] when
    it reaches its [return], [None] when it falls through. *)
Definition scrape_try (url : string) : M (option nat) :=
  let* content := lift (requests_get url) in
  let* soup := lift (BeautifulSoup content "html.parser") in
  match find soup "table" "wikitable" with
  | Some table =>
      let* markup := lift (tag_str table) in
      let* frames := lift (read_html markup) in
      match frames with
      | d :: _ => let* r := alloc d in ret (Some r)
      | [] => raise (IndexError "list index out of range")
      end
  | None => ret None
  end.

Definition scrape_wikipedia_demographics (url : string) : M (option nat) :=
  let* returned :=
    try_except (scrape_try url)
               (fun e => do logger_error (scrape_error e) then ret None) in
  match returned with
  | Some r => ret (Some r)
  | None => ret None
  end.

Definition url : string :=
  "https://en.wikipedia.org/wiki/Demographics_of_the_world".

Definition main : M Z :=
  do logger_info "Starting script." then
  let* df := scrape_wikipedia_demographics url in
  do match df with
     | Some r =>
         let* r := apply_inferred_types r in
         do plot_world_population r then
         let* d := deref r in
         let* s := lift (to_string d) in
         logger_info ("Demographics DataFrame:" ++ String "010" s)
     | None => ret tt
     end
  then ret 0.

End Body.
End WikiScraper.

(* ===================================================================== *)
(** ** script_template.py *)
(* ===================================================================== *)

(** [str(z)] for a Python int. *)
Definition str_of_int (z : Z) : string := NilZero.string_of_int (Z.to_int z).

(** [range(n)]. *)
Definition range (n : Z) : list Z := map Z.of_nat (seq 0 (Z.to_nat n)).


(** numpy on the platform: the [i]-th sample its global generator hands
    out; the largest buffer, in bytes, its allocator grants (a platform the
    scripts run on grants a kilobyte); the text of the MemoryError for an
    array of a shape. *)
Class Numpy : Type := {
  random_sample : nat -> float;
  memory_limit : Z;
  memory_floor : (1024 <=? memory_limit)%Z = true;
  memory_error_text : Z -> Z -> string
}.

(** The range of numpy's index type, on a 64-bit platform. *)
Definition INTP_MIN : Z := - 2 ^ 63.
Definition INTP_MAX : Z := 2 ^ 63 - 1.

(** One dimension in the size check of [np.empty], [nbytes] being the size
    of the dimensions before it: an empty dimension is passed over, a
    negative one is refused, and so is a size beyond the index type. *)
Definition check_dim (nbytes dim : Z) : result Z :=
  if (dim =? 0)%Z then Ok nbytes
  else if (dim <? 0)%Z
  then Raise (ValueError "negative dimensions are not allowed")
  else if (INTP_MAX <? nbytes * dim)%Z
  then Raise (ValueError
         "array is too big; `arr.size * arr.dtype.itemsize` is larger than the maximum possible size.")
  else Ok (nbytes * dim).

Module ScriptTemplate.

Section Body.
Context `{PD : Pandas} `{NP : Numpy}.

(** [np.empty((rows, cols), np.float64)], as the size of its buffer in
    bytes: the counts must be index values, then each dimension is
    checked in turn, then the buffer is allocated (an array without
    entries needs none). *)
Definition np_empty (rows cols : Z) : result Z :=
  if ((rows <? INTP_MIN)%Z || (INTP_MAX <? rows)%Z
      || (cols <? INTP_MIN)%Z || (INTP_MAX <? cols)%Z)%bool
  then Raise (ValueError "Maximum allowed dimension exceeded")
  else
    result_bind (check_dim 8 rows) (fun n =>
    result_bind (check_dim n cols) (fun n =>
    let bytes := if ((rows =? 0)%Z || (cols =? 0)%Z)%bool then 0 else n in
    if (memory_limit <? bytes)%Z
    then Raise (MemoryError (memory_error_text rows cols))
    else Ok bytes)).

(** [np.random.rand(rows, cols)]: the array is created, then filled row by
    row with the next samples. *)
Definition np_random_rand (rows cols : Z) : M (list (list float)) :=
  fun w =>
    match np_empty rows cols with
    | Raise e => (Raise e, w)
    | Ok _ =>
        let r := Z.to_nat rows in
        let c := Z.to_nat cols in
        (Ok (map (fun i => map (fun j => random_sample (rng_pos w + i * c + j)%nat)
                               (seq 0 c))
                 (seq 0 r)),
         mkWorld (heap w) (log w) (rng_pos w + r * c)%nat)
    end.

(** [pd.DataFrame(data, columns=names)] for a two-dimensional float array:
    the [j]-th column holds the [j]-th entry of every row; a number of
    names other than the array's width raises. *)
Definition frame_of_array (rows cols : nat) (data : list (list float))
    (names : list string) : result DataFrame :=
  if Nat.eqb (length names) cols
  then Ok (mkDF rows
             (imap (fun j name =>
                      (name, FloatSeries F64
                               (map (fun row => nth j row 0%float) data)))
                   names))
  else Raise (ValueError "Shape of passed values does not match indices").

Definition generate_random_dataframe (rows cols : option Z) : M nat :=
  let rows := default 5 rows in
  let cols := default 5 cols in
  let* data := np_random_rand rows cols in
  let* dataframe :=
    lift (frame_of_array (Z.to_nat rows) (Z.to_nat cols) data
            (map (fun i => "Column" ++ str_of_int (i + 1)) (range cols))) in
  alloc dataframe.

Definition log_dataframe (df : nat) : M unit :=
  let* d := deref df in
  let* df_string := lift (to_string d) in
  logger_info ("DataFrame contents:" ++ String "010" df_string).

Definition main : M Z :=
  do logger_info "Hello world." then
  let* random_df := generate_random_dataframe None None in
  do log_dataframe random_df then
  ret 0.

End Body.
End ScriptTemplate.

(* ===================================================================== *)
(** ** A reference instance of the pandas interface *)
(* ===================================================================== *)

(** The documented behaviour of the pandas calls on the Series and frames
    of this file (pandas 2.x).  What pandas leaves to the platform's
    floating point (the cast to float32, [np.allclose], the printing of a
    float) and to its parsers (dates, tables, the rendering of a frame) is
    taken as a variable.  On arguments the two scripts never pass, the
    instance raises. *)
Module PandasRef.

(** [float(z)] and numpy's conversion of an integer to float64: the nearest
    double, ties to even. *)
Definition float_of_Z (z : Z) : float :=
  SF2Prim (binary_normalize prec emax z 0 false).

(** [float(z)] for a Python int raises when the int is too large. *)
Definition float_of_int (z : Z) : result float :=
  let x := float_of_Z z in
  if PrimFloat.is_infinity x
  then Raise (OverflowError "int too large to convert to float")
  else Ok x.

(** [z / n] for Python ints, [n] not zero: the exact quotient rounded once
    (the quotient is cut below the last bit that can matter and a sticky
    bit records what was cut). *)
Definition int_truediv (z n : Z) : result float :=
  let k := 1100 in
  let a := Z.abs z * 2 ^ k in
  let q := a / Z.abs n in
  let sticky := if (a mod Z.abs n =? 0)%Z then 0 else 1 in
  let m := 2 * q + sticky in
  let neg := xorb (z <? 0)%Z (n <? 0)%Z in
  let x := SF2Prim (binary_normalize prec emax (if neg then - m else m)
                                     (- k - 1) false) in
  if PrimFloat.is_infinity x
  then Raise (OverflowError "integer division result too large for a float")
  else Ok x.

Definition nan : float := PrimFloat.nan.

Definition Z_of_bool (b : bool) : Z := if b then 1 else 0.

Definition str_of_bool (b : bool) : string := if b then "True" else "False".

(** [mapM] for [result]. *)
Fixpoint map_result {A B} (f : A -> result B) (l : list A) : result (list B) :=
  match l with
  | [] => Ok []
  | a :: l' =>
      result_bind (f a) (fun b =>
      result_bind (map_result f l') (fun bs => Ok (b :: bs)))
  end.

(** *** Kinds of objects *)

Definition is_int (o : pyobj) : bool :=
  match o with PyInt _ => true | _ => false end.
Definition is_float (o : pyobj) : bool :=
  match o with PyFloat _ => true | _ => false end.
Definition is_str (o : pyobj) : bool :=
  match o with PyStr _ => true | _ => false end.
Definition is_bool (o : pyobj) : bool :=
  match o with PyBool _ => true | _ => false end.
Definition is_none (o : pyobj) : bool :=
  match o with PyNone => true | _ => false end.

(** [isna]: [None] and NaN. *)
Definition is_missing (o : pyobj) : bool :=
  match o with
  | PyNone => true
  | PyFloat x => PrimFloat.is_nan x
  | _ => false
  end.

(** *** [infer_dtype] (with its default [skipna=True]) *)

(** On an object array: the answer follows the first value that is not
    missing, then whether all the values are of its kind.  Missing values
    pass for every kind but the floating one, which takes floats only
    (NaN among them). *)
Definition infer_dtype_objects (vals : list pyobj) : string :=
  let mixed := if existsb is_int vals then "mixed-integer" else "mixed" in
  match List.find (fun o => negb (is_missing o)) vals with
  | None => "empty"
  | Some (PyInt _) =>
      if forallb (fun o => is_int o || is_missing o) vals then "integer"
      else if forallb (fun o => is_int o || is_float o || is_none o) vals
           then "mixed-integer-float"
           else "mixed-integer"
  | Some (PyFloat _) =>
      if forallb is_float vals then "floating"
      else if forallb (fun o => is_int o || is_float o || is_none o) vals
           then "mixed-integer-float"
           else mixed
  | Some (PyBool _) =>
      if forallb (fun o => is_bool o || is_missing o) vals then "boolean"
      else mixed
  | Some (PyStr _) =>
      if forallb (fun o => is_str o || is_missing o) vals then "string"
      else mixed
  | Some PyNone => mixed
  end.

Definition infer_dtype_series (s : Series) : string :=
  match s with
  | IntSeries _ _ => "integer"
  | FloatSeries _ _ => "floating"
  | BoolSeries _ => "boolean"
  | DatetimeSeries _ => "datetime64"
  | ObjectSeries vals => infer_dtype_objects vals
  end.

(** A frame has no dtype: [infer_dtype] iterates it, which yields its
    column labels, all strings here. *)
Definition infer_dtype_ref (sel : Selection) : result string :=
  match sel with
  | OneColumn s => Ok (infer_dtype_series s)
  | SubFrame _ [] => Ok "empty"
  | SubFrame _ (_ :: _) => Ok "string"
  end.

(** *** [pd.to_numeric] *)

Definition INT64_MIN : Z := - 2 ^ 63.
Definition INT64_MAX : Z := 2 ^ 63 - 1.
Definition UINT64_MAX : Z := 2 ^ 64 - 1.

Definition in_range (t : IntWidth) (z : Z) : bool :=
  match t with
  | I8 => (- 2 ^ 7 <=? z)%Z && (z <=? 2 ^ 7 - 1)%Z
  | I16 => (- 2 ^ 15 <=? z)%Z && (z <=? 2 ^ 15 - 1)%Z
  | I32 => (- 2 ^ 31 <=? z)%Z && (z <=? 2 ^ 31 - 1)%Z
  | I64 => (INT64_MIN <=? z)%Z && (z <=? INT64_MAX)%Z
  | U64 => (0 <=? z)%Z && (z <=? UINT64_MAX)%Z
  end.

Definition int_size (t : IntWidth) : nat :=
  match t with I8 => 1 | I16 => 2 | I32 => 4 | I64 => 8 | U64 => 8 end.

Definition float_size (t : FloatWidth) : nat :=
  match t with F32 => 4 | F64 => 8 end.

(** The signed integer dtypes no wider than [bytes], narrowest first. *)
Definition int_candidates (bytes : nat) : list IntWidth :=
  List.filter (fun t => Nat.leb (int_size t) bytes) [I8; I16; I32; I64].

Definition float_of_obj (o : pyobj) : result float :=
  match o with
  | PyInt z => float_of_int z
  | PyFloat x => Ok x
  | PyBool b => Ok (float_of_Z (Z_of_bool b))
  | PyNone => Ok nan
  | PyStr _ => Raise (ValueError "Unable to parse string")
  end.

Definition ints_of (vals : list pyobj) : list Z :=
  omap (fun o => match o with
                 | PyInt z => Some z
                 | PyBool b => Some (Z_of_bool b)
                 | _ => None
                 end) vals.

(** The integer part of a finite float. *)
Definition trunc_float (x : float) : option Z :=
  match Prim2SF x with
  | S754_zero _ => Some 0
  | S754_finite s m e =>
      let v := if (0 <=? e)%Z then Zpos m * 2 ^ e else Zpos m / 2 ^ (- e) in
      Some (if s then - v else v)
  | _ => None
  end.

(** An object as an int64 equal to it: an int within the range, a bool, a
    float that is a whole number within the range. *)
Definition as_int64 (o : pyobj) : option Z :=
  match o with
  | PyInt z => if in_range I64 z then Some z else None
  | PyBool b => Some (Z_of_bool b)
  | PyFloat x =>
      match trunc_float x with
      | Some z =>
          if in_range I64 z && PrimFloat.eqb (float_of_Z z) x
          then Some z else None
      | None => None
      end
  | PyStr _ | PyNone => None
  end.

(** The conversion of an object array value by value: the answer is
    float64 as soon as a float, a missing value or an int beyond 64 bits is
    seen, else int64 or uint64, else bool; an array with an int above the
    int64 range next to a negative int or a missing value is left as it
    is.  (Text is not parsed: the scripts hand no text to [to_numeric].) *)
Definition convert_each (vals : list pyobj) : result Series :=
  result_bind (map_result float_of_obj vals) (fun floats =>
  let ints := omap (fun o => match o with PyInt z => Some z | _ => None end) vals in
  let seen_null := existsb is_missing vals in
  let seen_uint :=
    existsb (fun z => (INT64_MAX <? z)%Z && (z <=? UINT64_MAX)%Z) ints in
  let seen_sint := existsb (fun z => (INT64_MIN <=? z)%Z && (z <? 0)%Z) ints in
  let seen_float :=
    existsb is_float vals || seen_null
    || existsb (fun z => (UINT64_MAX <? z)%Z || (z <? INT64_MIN)%Z) ints
    || (seen_sint && seen_uint) in
  if seen_uint && (seen_null || seen_sint) then Ok (ObjectSeries vals)
  else if seen_float then Ok (FloatSeries F64 floats)
  else if existsb is_int vals then
    Ok (IntSeries (if seen_uint then U64 else I64) (ints_of vals))
  else if existsb is_bool vals then
    Ok (BoolSeries (omap (fun o => match o with
                                   | PyBool b => Some b
                                   | _ => None
                                   end) vals))
  else Ok (IntSeries I64 [])).

(** The conversion of an object array.  An array that starts with an int
    is first cast to int64 as a whole, and that is the answer when the
    cast changes no value; otherwise the values are converted one by
    one. *)
Definition convert_objects (vals : list pyobj) : result Series :=
  match vals, mapM as_int64 vals with
  | PyInt _ :: _, Some ints => Ok (IntSeries I64 ints)
  | _, _ => convert_each vals
  end.

Definition to_numeric_convert (s : Series) : result Series :=
  match s with
  | DatetimeSeries vals => Ok (IntSeries I64 vals)
  | ObjectSeries vals => convert_objects vals
  | _ => Ok s
  end.

(** [np.allclose(new, old, rtol=0)] of a float array against its cast to
    an integer dtype: every entry within the default [atol] of 1e-8. *)
Definition close_to_int (z : Z) (x : float) : bool :=
  PrimFloat.leb (PrimFloat.abs (PrimFloat.sub (float_of_Z z) x))
                (PrimFloat.div 1 100000000).

Definition downcast_integer (s : Series) : Series :=
  match s with
  | IntSeries w vals =>
      match List.find (fun t => forallb (in_range t) vals)
                      (int_candidates (int_size w)) with
      | Some t => IntSeries t vals
      | None => s
      end
  | FloatSeries w vals =>
      match mapM trunc_float vals with
      | Some zs =>
          match List.find
                  (fun t => forallb (in_range t) zs
                            && forallb (fun zx => close_to_int (fst zx) (snd zx))
                                       (combine zs vals))
                  (int_candidates (float_size w)) with
          | Some t => IntSeries t zs
          | None => s
          end
      | None => s
      end
  | BoolSeries [] => IntSeries I8 []
  | _ => s
  end.

Section Platform.

(** The cast of a float64 to float32 (kept as a double), and
    [np.allclose(new, old, equal_nan=True, rtol=0.0, atol=5e-4)]. *)
Variable astype_float32 : float -> float.
Variable allclose : list float -> list float -> bool.

Definition downcast_float (s : Series) : Series :=
  match s with
  | FloatSeries F64 vals =>
      let new := map astype_float32 vals in
      if allclose new vals then FloatSeries F32 new else s
  | _ => s
  end.

Definition to_numeric_ref (sel : Selection) (d : Downcast) : result Selection :=
  match sel with
  | OneColumn s =>
      result_bind (to_numeric_convert s) (fun s' =>
      Ok (OneColumn (match d with
                     | DowncastInteger => downcast_integer s'
                     | DowncastFloat => downcast_float s'
                     end)))
  | SubFrame _ _ =>
      Raise (TypeError "arg must be a list, tuple, 1-d array, or Series")
  end.

(** [repr] of a float and of a timestamp; the parser of one date given the
    first date of its column (pandas guesses the format from it); the
    rendering of a frame; the table parser. *)
Variable float_repr : float -> string.
Variable datetime_repr : Z -> string.
Variable parse_datetime : string -> string -> result Z.
Variable frame_repr : DataFrame -> string.
Variable parse_tables : string -> result (list DataFrame).

(** *** [astype(str)] *)

Definition str_of_obj (o : pyobj) : string :=
  match o with
  | PyInt z => str_of_int z
  | PyFloat x => float_repr x
  | PyStr s => s
  | PyBool b => str_of_bool b
  | PyNone => "None"
  end.

Definition astype_str_series (s : Series) : Series :=
  ObjectSeries
    (match s with
     | IntSeries _ vals => map (fun z => PyStr (str_of_int z)) vals
     | FloatSeries _ vals => map (fun x => PyStr (float_repr x)) vals
     | BoolSeries vals => map (fun b => PyStr (str_of_bool b)) vals
     | DatetimeSeries vals => map (fun t => PyStr (datetime_repr t)) vals
     | ObjectSeries vals => map (fun o => PyStr (str_of_obj o)) vals
     end).

Definition astype_str_ref (sel : Selection) : result Selection :=
  match sel with
  | OneColumn s => Ok (OneColumn (astype_str_series s))
  | SubFrame n cols =>
      Ok (SubFrame n (map (fun c => (fst c, astype_str_series (snd c))) cols))
  end.

(** *** The dtype predicates *)

Definition is_numeric_dtype_ref (sel : Selection) : bool :=
  match sel with
  | OneColumn (IntSeries _ _) => true
  | OneColumn (FloatSeries _ _) => true
  | OneColumn (BoolSeries _) => true
  | _ => false
  end.

(** An object column counts as a string column when it holds only [str];
    an empty one does. *)
Definition is_string_dtype_ref (sel : Selection) : bool :=
  match sel with
  | OneColumn (ObjectSeries vals) => forallb is_str vals
  | _ => false
  end.

(** *** [df[key] = value] *)

(** Every column labelled [key] replaced by [s]. *)
Definition replace_named (key : string) (s : Series)
    (cols : list (string * Series)) : list (string * Series) :=
  map (fun c => if String.eqb (fst c) key then (fst c, s) else c) cols.

(** The columns labelled [key] replaced, in order, by [vals]. *)
Fixpoint replace_positional (key : string) (vals : list Series)
    (cols : list (string * Series)) : list (string * Series) :=
  match cols with
  | [] => []
  | c :: cols' =>
      if String.eqb (fst c) key then
        match vals with
        | v :: vals' => (fst c, v) :: replace_positional key vals' cols'
        | [] => c :: cols'
        end
      else c :: replace_positional key vals cols'
  end.

Definition set_series (df : DataFrame) (key : string) (s : Series)
  : result DataFrame :=
  if Nat.eqb (series_len s) (index_len df) then
    match columns_named key (columns df) with
    | [] => Ok (mkDF (index_len df) (columns df ++ [(key, s)]))
    | _ => Ok (mkDF (index_len df) (replace_named key s (columns df)))
    end
  else Raise (ValueError "Length of values does not match length of index").

(** A value of the table's own length replaces the column, or every column,
    of that label, or becomes a new last column; a frame must bring as many
    columns as the label has.  (A value of another length is aligned on the
    index by pandas; the scripts assign none, and the instance raises.) *)
Definition setitem_ref (df : DataFrame) (key : string) (value : Selection)
  : result DataFrame :=
  match value with
  | OneColumn s => set_series df key s
  | SubFrame n vcols =>
      if negb (Nat.eqb n (index_len df))
         || negb (forallb (fun c => Nat.eqb (series_len (snd c)) n) vcols)
      then Raise (ValueError "Length of values does not match length of index")
      else
        match columns_named key (columns df), vcols with
        | [], [(_, s)] => set_series df key s
        | [], [] =>
            Raise (ValueError
              ("Cannot set a DataFrame without columns to the column " ++ key))
        | [], _ =>
            Raise (ValueError
              ("Cannot set a DataFrame with multiple columns to the single column "
               ++ key))
        | [_], [(_, s)] => set_series df key s
        | present, _ =>
            if Nat.eqb (length present) (length vcols)
            then Ok (mkDF (index_len df)
                       (replace_positional key (map snd vcols) (columns df)))
            else Raise (ValueError "Columns must be same length as key")
        end
  end.

(** *** [pd.to_datetime] *)

Definition text_of (o : pyobj) : result string :=
  match o with
  | PyStr s => Ok s
  | _ => Raise (TypeError "not a date string")
  end.

(** A column of text is parsed entry by entry.  A frame is assembled from
    columns named year, month and day, and its labels must not repeat: a
    frame selected by one repeated label is refused.  (The scripts pass no
    other frame, and no column but text and dates.) *)
Definition to_datetime_ref (sel : Selection) : result Selection :=
  match sel with
  | OneColumn (ObjectSeries vals) =>
      result_bind (map_result text_of vals) (fun texts =>
      result_bind (map_result (parse_datetime (hd "" texts)) texts) (fun ts =>
      Ok (OneColumn (DatetimeSeries ts))))
  | OneColumn (DatetimeSeries vals) => Ok (OneColumn (DatetimeSeries vals))
  | OneColumn _ => Raise (TypeError "not a column of date strings")
  | SubFrame _ cols =>
      if Nat.eqb (length (nodup string_dec (map fst cols))) (length cols)
      then Raise (ValueError
             "to assemble mappings requires at least that [year, month, day] be specified")
      else Raise (ValueError "cannot assemble with duplicate keys")
  end.

(** *** [x / n], for an int [n] other than zero *)

(** On an object column Python's own [/] runs on each entry that is not
    missing; text has none. *)
Definition truediv_obj (n : Z) (o : pyobj) : result pyobj :=
  match o with
  | PyInt z => result_bind (int_truediv z n) (fun x => Ok (PyFloat x))
  | PyBool b => result_bind (int_truediv (Z_of_bool b) n) (fun x => Ok (PyFloat x))
  | PyFloat x => Ok (PyFloat (PrimFloat.div x (float_of_Z n)))
  | PyNone => Ok (PyFloat nan)
  | PyStr _ =>
      Raise (TypeError "unsupported operand type(s) for /: 'str' and 'int'")
  end.

Definition truediv_series (s : Series) (n : Z) : result Series :=
  match s with
  | IntSeries _ vals =>
      Ok (FloatSeries F64
            (map (fun z => PrimFloat.div (float_of_Z z) (float_of_Z n)) vals))
  | FloatSeries F64 vals =>
      Ok (FloatSeries F64 (map (fun x => PrimFloat.div x (float_of_Z n)) vals))
  | FloatSeries F32 vals =>
      Ok (FloatSeries F32
            (map (fun x => astype_float32 (PrimFloat.div x (float_of_Z n))) vals))
  | BoolSeries vals =>
      Ok (FloatSeries F64
            (map (fun b => PrimFloat.div (float_of_Z (Z_of_bool b)) (float_of_Z n))
                 vals))
  | DatetimeSeries _ =>
      Raise (TypeError
               "cannot perform __truediv__ with this index type: DatetimeArray")
  | ObjectSeries vals =>
      result_bind (map_result (truediv_obj n) vals) (fun r => Ok (ObjectSeries r))
  end.


Definition truediv_ref (sel : Selection) (n : Z) : result Selection :=
  match sel with
  | OneColumn s => result_bind (truediv_series s n) (fun r => Ok (OneColumn r))
  | SubFrame k cols =>
      result_bind
        (map_result (fun c => result_bind (truediv_series (snd c) n)
                                (fun r => Ok (fst c, r))) cols)
        (fun r => Ok (SubFrame k r))
  end.

(** *** One turn of the coercion loop, column by column *)

(** What the turn for a label makes of the one column that carries it: the
    converted column when the conversion returns a column of the table's
    length, else the column as it was. *)
Definition coerced (n : nat) (s : Series) : Series :=
  let keep v := if Nat.eqb (series_len v) n then v else s in
  let t := infer_dtype_series s in
  if String.eqb t "integer" then
    match to_numeric_convert s with
    | Ok s' => keep (downcast_integer s')
    | Raise _ => s
    end
  else if String.eqb t "floating" then
    match to_numeric_convert s with
    | Ok s' => keep (downcast_float s')
    | Raise _ => s
    end
  else if String.eqb t "string" then keep (astype_str_series s)
  else s.

(** What the turn for the label [c] makes of a column labelled [c]: a label
    on several columns of the table's length selects a frame, which is
    inferred as strings. *)
Definition label_step (n : nat) (cols : list (string * Series)) (c : string)
  : Series -> Series :=
  match columns_named c cols with
  | [] => fun s => s
  | [_] => coerced n
  | cs =>
      if forallb (fun x => Nat.eqb (series_len (snd x)) n) cs
      then astype_str_series
      else fun s => s
  end.

(** The columns after the turn for [c]: the columns labelled [c] go
    through [g]. *)
Definition on_label (c : string) (g : Series -> Series)
    (cols : list (string * Series)) : list (string * Series) :=
  map (fun x => if String.eqb (fst x) c then (fst x, g (snd x)) else x) cols.

(** One column through the turn for [c], the turns being those of the
    table [cols0]. *)
Definition col_turn (n : nat) (cols0 : list (string * Series))
    (x : string * Series) (c : string) : string * Series :=
  if String.eqb (fst x) c then (fst x, label_step n cols0 c (snd x)) else x.

(** A column the turn leaves with the values it has: of an integer, bool,
    datetime or float32 dtype; float64 that the cast to float32 rejects or
    leaves exact; text. *)
Definition stable_form (v : Series) : Prop :=
  match v with
  | FloatSeries F64 l =>
      allclose (map astype_float32 l) l = false \/ map astype_float32 l = l
  | ObjectSeries l => forallb is_str l = true
  | _ => True
  end.

(** A float that is NaN or the conversion of an integer. *)
Definition whole_or_nan (x : float) : Prop :=
  PrimFloat.is_nan x = true \/ exists z : Z, x = float_of_Z z.

Definition pandas_ref : Pandas := {|
  infer_dtype := infer_dtype_ref;
  to_numeric := to_numeric_ref;
  astype_str := astype_str_ref;
  is_numeric_dtype := is_numeric_dtype_ref;
  is_string_dtype := is_string_dtype_ref;
  setitem := setitem_ref;
  to_datetime := to_datetime_ref;
  truediv := truediv_ref;
  to_string := fun df => Ok (frame_repr df);
  read_html := parse_tables
|}.

End Platform.
End PandasRef.

(* ===================================================================== *)
(** ** Concrete collaborators, for the examples *)
(* ===================================================================== *)

Module Examples.

(** A small population table, as the table parser would hand it over. *)
Definition population_frame : DataFrame :=
  mkDF 2 [("Year", IntSeries I64 [1950; 1951]);
          (WikiScraper.thousands, IntSeries I64 [1000; 2000])].

(** A platform on which dates parse to a count of years, the float32 cast
    is the identity and nothing is close enough to be cast. *)
Definition pandas_demo : Pandas :=
  PandasRef.pandas_ref
    (fun x => x) (fun _ _ => false)
    (fun _ => "<float>") (fun _ => "<date>")
    (fun _ s => Ok (Z.of_nat (String.length s)))
    (fun _ => "<frame>")
    (fun _ => Ok [population_frame]).

(** A platform on which every float64 is a float32. *)
Definition pandas_exact : Pandas :=
  PandasRef.pandas_ref
    (fun x => x) (fun _ _ => true)
    (fun _ => "<float>") (fun _ => "<date>")
    (fun _ s => Ok (Z.of_nat (String.length s)))
    (fun _ => "<frame>")
    (fun _ => Ok [population_frame]).

(** A table with an object column of ints with a missing entry, and one
    label on two columns. *)
Definition gappy_frame : DataFrame :=
  mkDF 2 [("a", ObjectSeries [PyInt 1; PyNone]);
          ("b", IntSeries I64 [3; 4]);
          ("b", ObjectSeries [PyStr "x"; PyNone])].

(** A page with three tables; the second and the third carry the marker. *)
Definition page : node :=
  Tag "[document]" []
    [Tag "html" []
       [Tag "table" ["infobox"] [NavigableString "a"];
        Tag "div" []
          [Tag "table" ["wikitable"; "sortable"] [NavigableString "b"]];
        Tag "table" ["wikitable"] [NavigableString "c"]]].

(** A page without a marked table. *)
Definition plain_page : node :=
  Tag "[document]" [] [Tag "table" ["infobox"] [NavigableString "a"]].

Definition render (n : node) : string :=
  match n with
  | Tag name _ _ => "<" ++ name ++ ">"
  | NavigableString t => t
  end.

Definition web_up : Web := {|
  requests_get := fun _ => Ok "<html>";
  BeautifulSoup := fun _ _ => Ok page;
  tag_str := fun n => Ok (render n)
|}.

Definition web_plain : Web := {|
  requests_get := fun _ => Ok "<html>";
  BeautifulSoup := fun _ _ => Ok plain_page;
  tag_str := fun n => Ok (render n)
|}.

Definition web_down : Web := {|
  requests_get := fun _ => Raise (mkExc "ConnectionError" "unreachable");
  BeautifulSoup := fun _ _ => Ok page;
  tag_str := fun n => Ok (render n)
|}.

Definition pyplot_ok : Pyplot := {|
  plt_figure := fun _ => Ok tt;
  plt_plot := fun _ _ _ => Ok tt;
  plt_title := fun _ => Ok tt;
  plt_xlabel := fun _ => Ok tt;
  plt_ylabel := fun _ => Ok tt;
  plt_grid := fun _ => Ok tt;
  plt_xticks := fun _ => Ok tt;
  plt_tight_layout := Ok tt;
  plt_show := Ok tt
|}.

(** A display that fails. *)
Definition pyplot_headless : Pyplot := {|
  plt_figure := fun _ => Ok tt;
  plt_plot := fun _ _ _ => Ok tt;
  plt_title := fun _ => Ok tt;
  plt_xlabel := fun _ => Ok tt;
  plt_ylabel := fun _ => Ok tt;
  plt_grid := fun _ => Ok tt;
  plt_xticks := fun _ => Ok tt;
  plt_tight_layout := Ok tt;
  plt_show := Raise (mkExc "RuntimeError" "no display")
|}.

(** A generator that always hands out one half. *)
Definition numpy_half : Numpy := {|
  random_sample := fun _ => 0.5%float;
  memory_limit := 2 ^ 34;
  memory_floor := eq_refl;
  memory_error_text := fun _ _ => "Unable to allocate the array"
|}.

Definition empty_world : World := mkWorld ∅ [] 0.

(** The world holding one table, at reference 0. *)
Definition world_of (d : DataFrame) : World := mkWorld {[ 0%nat := d ]} [] 0.


(** A table with one label on two columns. *)
Definition twin_frame : DataFrame :=
  mkDF 1 [("a", IntSeries I64 [1]); ("a", IntSeries I64 [2])].






(** A table with a column of dtype object holding Python ints. *)
Definition object_int_frame : DataFrame :=
  mkDF 2 [("n", ObjectSeries [PyInt 1; PyInt 2])].

(** A table whose second column cannot be converted: its first entry is a
    Python int too large for a float. *)
Definition mixed_frame : DataFrame :=
  mkDF 2 [("a", IntSeries I64 [1; 2]);
          ("b", ObjectSeries [PyInt (2 ^ 1024); PyNone]);
          ("c", ObjectSeries [PyStr "x"; PyNone])].

End Examples.

(* ===================================================================== *)
(** ** [init]: the argument parser of the two scripts *)
(* ===================================================================== *)

(** [init] is the same function in [example_wiki_scraper.py] and in
    [script_template.py].  It works on an [argparse.ArgumentParser], an
    object it may be handed and changes in place; the parsers live in a
    store of their own.  Of argparse the model keeps what [init] reaches:
    the prefix characters of a parser, its actions with their option
    strings, and what [add_argument] does with the name it is given and
    with a conflicting option string. *)
Module CommandLine.

Inductive ConflictHandler : Type := HandlerError | HandlerResolve.

Inductive ActionKind : Type := HelpAction | StoreTrueAction | StoreAction.

(** An action of a parser.  [default] is [None] for [argparse.SUPPRESS]. *)
Record Action : Type := mkAction {
  option_strings : list string;
  dest : string;
  kind : ActionKind;
  default_value : option bool;
  help : string
}.

Record ArgumentParser : Type := mkParser {
  description : string;
  prefix_chars : string;
  conflict_handler : ConflictHandler;
  actions : list Action
}.

Definition __description__ : string := "Python script template.".

(** The action a new parser starts with. *)
Definition help_action : Action :=
  mkAction ["-h"; "--help"] "help" HelpAction None
           "show this help message and exit".

(** [argparse.ArgumentParser(description=..., conflict_handler=...)]: the
    prefix characters are left at their default. *)
Definition new_parser (descr : string) (h : ConflictHandler) : ArgumentParser :=
  mkParser descr "-" h [help_action].

(** [c in parser.prefix_chars]. *)
Definition is_prefix_char (p : ArgumentParser) (c : ascii) : bool :=
  existsb (Ascii.eqb c) (list_ascii_of_string (prefix_chars p)).

(** The action [add_argument('--debug', dest='debug', action='store_true',
    default=False, help=...)] registers. *)
Definition debug_action : Action :=
  mkAction ["--debug"] "debug" StoreTrueAction (Some false)
           "Enables debugging functionality.".

Definition owns (s : string) (a : Action) : bool :=
  existsb (String.eqb s) (option_strings a).

(** The option strings of [a] that an action of the parser has already. *)
Definition conflicts (p : ArgumentParser) (a : Action) : list string :=
  List.filter (fun s => existsb (owns s) (actions p)) (option_strings a).

(** The 'resolve' handler: each conflicting option string is taken from the
    action that has it, and an action left without option strings is
    removed. *)
Definition resolve (confl : list string) (olds : list Action) : list Action :=
  flat_map (fun old =>
              if existsb (fun s => owns s old) confl then
                match List.filter (fun s => negb (existsb (String.eqb s) confl))
                                  (option_strings old) with
                | [] => []
                | rest => [mkAction rest (dest old) (kind old)
                                    (default_value old) (help old)]
                end
              else [old]) olds.

Definition ArgumentError (a : Action) (msg : string) : PyException :=
  mkExc "ArgumentError"
        ("argument " ++ join_with "/" (option_strings a) ++ ": " ++ msg).

(** The action registered: conflicts are handled first, then the action is
    appended. *)
Definition add_action (p : ArgumentParser) (a : Action) : result ArgumentParser :=
  match conflicts p a with
  | [] => Ok (mkParser (description p) (prefix_chars p) (conflict_handler p)
                       (actions p ++ [a]))
  | confl =>
      match conflict_handler p with
      | HandlerError =>
          Raise (ArgumentError a
                   ((if Nat.eqb (length confl) 1
                     then "conflicting option string: "
                     else "conflicting option strings: ")
                    ++ join_with ", " confl))
      | HandlerResolve =>
          Ok (mkParser (description p) (prefix_chars p) (conflict_handler p)
                       (resolve confl (actions p) ++ [a]))
      end
  end.

(** [parser.add_argument(name, dest=..., action=..., default=..., help=...)],
    one name and [dest] given: a name that does not start with a prefix
    character of the parser is the name of a positional argument, which
    takes no [dest]; else the action is an option and is registered. *)
Definition add_argument (p : ArgumentParser) (name dest : string)
    (kind : ActionKind) (default_value : option bool) (help : string)
  : result ArgumentParser :=
  match name with
  | EmptyString => Raise (IndexError "string index out of range")
  | String c _ =>
      if is_prefix_char p c
      then add_action p (mkAction [name] dest kind default_value help)
      else Raise (ValueError "dest supplied twice for positional argument")
  end.

(** [init(parser)], on the store of parsers: [parser or ArgumentParser(...)]
    is the parser given, when one is given (a parser is always truthy), and
    a new one otherwise. *)
Definition init (parser : option nat) (st : gmap nat ArgumentParser)
  : result nat * gmap nat ArgumentParser :=
  let '(parser, st) :=
    match parser with
    | Some r => (r, st)
    | None =>
        let r := fresh (dom st) in
        (r, <[r := new_parser __description__ HandlerResolve]> st)
    end in
  match st !! parser with
  | None => (Raise (mkExc "ReferenceError" "no such object"), st)
  | Some p =>
      match add_argument p "--debug" "debug" StoreTrueAction (Some false)
                         "Enables debugging functionality." with
      | Ok p' => (Ok parser, <[parser := p']> st)
      | Raise e => (Raise e, st)
      end
  end.

(** The actions of [p] that have the option string [s]. *)
Definition owners (s : string) (p : ArgumentParser) : list Action :=
  List.filter (owns s) (actions p).

(** What stays of an action whatever its option strings. *)
Definition action_core (a : Action) : string * ActionKind * option bool * string :=
  (dest a, kind a, default_value a, help a).

End CommandLine.

(* ===================================================================== *)
(** ** More concrete inputs, for the examples *)
(* ===================================================================== *)

Module MoreExamples.
Import Examples.

(** A platform whose table parser finds nothing. *)
Definition pandas_no_tables : Pandas :=
  PandasRef.pandas_ref
    (fun x => x) (fun _ _ => false)
    (fun _ => "<float>") (fun _ => "<date>")
    (fun _ s => Ok (Z.of_nat (String.length s)))
    (fun _ => "<frame>")
    (fun _ => Raise (ValueError "No tables found")).

(** A table without a population column. *)
Definition years_only_frame : DataFrame :=
  mkDF 2 [("Year", IntSeries I64 [1950; 1951]);
          ("Births", IntSeries I64 [7; 8])].

(** A generator whose [i]-th sample is [i/1024]. *)
Definition numpy_counting : Numpy := {|
  random_sample :=
    fun i => PrimFloat.div (PandasRef.float_of_Z (Z.of_nat i)) 1024;
  memory_limit := 2 ^ 34;
  memory_floor := eq_refl;
  memory_error_text := fun _ _ => "Unable to allocate the array"
|}.

(** A parser made with the default handler that has a [--debug] option of
    its own. *)
Definition strict_parser : CommandLine.ArgumentParser :=
  CommandLine.mkParser "strict" "-" CommandLine.HandlerError
    [CommandLine.help_action;
     CommandLine.mkAction ["-d"; "--debug"] "dbg" CommandLine.StoreAction None
                          "debug level"].

(** The same, made with the 'resolve' handler. *)
Definition lenient_parser : CommandLine.ArgumentParser :=
  CommandLine.mkParser "lenient" "-" CommandLine.HandlerResolve
    (CommandLine.actions strict_parser).

(** A parser whose options start with [+]. *)
Definition plus_parser : CommandLine.ArgumentParser :=
  CommandLine.mkParser "plus" "+" CommandLine.HandlerResolve
    [CommandLine.mkAction ["+h"; "++help"] "help" CommandLine.HelpAction None
                          "show this help message and exit"].

End MoreExamples.

(* ===================================================================== *)
(** ** Vocabulary of the properties *)
(* ===================================================================== *)

Section Vocabulary.
Context `{PD : Pandas} `{NP : Numpy}.
Import WikiScraper PandasRef.


(** A column of an integer, float or bool dtype. *)
Definition numeric_dtype (s : Series) : bool :=
  match s with
  | IntSeries _ _ | FloatSeries _ _ | BoolSeries _ => true
  | _ => false
  end.

(** [d'] has the rows of [d] and, under every label but [k1] and [k2], the
    columns of [d]. *)
Definition same_but (k1 k2 : string) (d d' : DataFrame) : Prop :=
  index_len d' = index_len d
  /\ forall key, key <> k1 -> key <> k2 ->
       columns_named key (columns d') = columns_named key (columns d).

(** The table [generate_random_dataframe] builds from the samples that
    follow position [pos]. *)
Definition sampled_frame (pos r c : nat) : DataFrame :=
  mkDF r
    (imap (fun j name =>
             (name,
              FloatSeries F64
                (map (fun row => nth j row 0%float)
                     (map (fun i => map (fun j => random_sample (pos + i * c + j)%nat)
                                        (seq 0 c))
                          (seq 0 r)))))
          (map (fun i => "Column" ++ str_of_int (i + 1)) (range (Z.of_nat c)))).

End Vocabulary.

(* ===================================================================== *)
(** * Properties *)
(* ===================================================================== *)

(** ** Running the monad *)

Section MonadFacts.

Lemma bind_deref {B} (r : nat) (k : DataFrame -> M B) (w : World)
    (d : DataFrame) :
  heap w !! r = Some d -> bind (deref r) k w = k d w.
Proof. intros H. unfold bind, deref. now rewrite H. Qed.

Lemma bind_lift_ok {A B} (a : A) (k : A -> M B) (w : World) :
  bind (lift (Ok a)) k w = k a w.
Proof. reflexivity. Qed.

Lemma bind_store {B} (r : nat) (d : DataFrame) (k : unit -> M B) (w : World) :
  bind (store r d) k w
  = k tt (mkWorld (<[r := d]> (heap w)) (log w) (rng_pos w)).
Proof. reflexivity. Qed.

(** A call that does not touch the world, in front of a computation that
    does not either. *)
Lemma bind_lift_world {A B} (x : result A) (k : A -> M B) (w : World) :
  (forall a, snd (k a w) = w) -> snd (bind (lift x) k w) = w.
Proof. intros H. unfold bind, lift. destruct x; [apply H|reflexivity]. Qed.

Lemma bind_deref_world {B} (r : nat) (k : DataFrame -> M B) (w : World) :
  (forall a, snd (k a w) = w) -> snd (bind (deref r) k w) = w.
Proof.
  intros H. unfold bind, deref. destruct (heap w !! r); [apply H|reflexivity].
Qed.

End MonadFacts.

(** ** The scraper *)

Section ScraperFacts.
Context `{PD : Pandas} `{WB : Web}.

Import WikiScraper.

Lemma find_absent (soup : node) (name cls : string) :
  (forall x, In x (descendants soup) -> tag_matches name cls x = false) ->
  find soup name cls = None.
Proof.
  intros Hno. unfold find.
  destruct (List.find (tag_matches name cls) (descendants soup)) as [t|] eqn:E;
    [|reflexivity].
  apply find_some in E as [Hin Hm]. rewrite (Hno t Hin) in Hm. discriminate.
Qed.


(** C1.  For every URL and in every world, [scrape_wikipedia_demographics]
    returns (it never raises to its caller).  When the fetch raises, it
    returns [None] and logs the error; when the fetched markup has no table
    with the class marker, it returns [None] and leaves the world as it
    was. *)
Theorem scrape_never_raises (url : string) (w : World) :
  (exists r w', scrape_wikipedia_demographics url w = (Ok r, w'))
  /\ (forall e, requests_get url = Raise e ->
        scrape_wikipedia_demographics url w
        = (Ok None, logged w ERROR (scrape_error e)))
  /\ (forall content soup,
        requests_get url = Ok content ->
        BeautifulSoup content "html.parser" = Ok soup ->
        (forall x, In x (descendants soup) ->
                   tag_matches "table" "wikitable" x = false) ->
        scrape_wikipedia_demographics url w = (Ok None, w)).
Proof.
  split; [|split].
  - unfold scrape_wikipedia_demographics, bind, try_except.
    destruct (scrape_try url w) as [[r|e] w1] eqn:E.
    + destruct r; eauto.
    + unfold logger_error, ret. eauto.
  - intros e He.
    unfold scrape_wikipedia_demographics, bind, try_except, scrape_try, lift.
    rewrite He. reflexivity.
  - intros content soup Hc Hs Hno.
    unfold scrape_wikipedia_demographics, bind, try_except, scrape_try, lift.
    rewrite Hc; cbn. rewrite Hs; cbn. rewrite (find_absent _ _ _ Hno).
    reflexivity.
Qed.


End ScraperFacts.

Section ScraperWitnesses.
Import WikiScraper Examples.

Lemma scrape_never_raises_witness :
  @scrape_wikipedia_demographics pandas_demo web_down url empty_world
  = (Ok None,
     logged empty_world ERROR "An error occurred while scraping: unreachable")
  /\ @scrape_wikipedia_demographics pandas_demo web_plain url empty_world
     = (Ok None, empty_world).
Proof.
  split.
  - apply (proj1 (proj2 (@scrape_never_raises pandas_demo web_down url empty_world))
             (mkExc "ConnectionError" "unreachable")).
    reflexivity.
  - apply (proj2 (proj2 (@scrape_never_raises pandas_demo web_plain url empty_world))
             "<html>" plain_page); [reflexivity|reflexivity|].
    simpl. intros x [<-|[<-|[]]]; reflexivity.
Defined.



End ScraperWitnesses.

(** ** Coercion: what the loop does to the store *)

Section CoercionFacts.
Context `{PD : Pandas}.
Import WikiScraper.

Lemma only_changes_refl (r : nat) (w : World) : only_changes r w w.
Proof. repeat split. Qed.

Lemma only_changes_trans (r : nat) (w1 w2 w3 : World) :
  only_changes r w1 w2 -> only_changes r w2 w3 -> only_changes r w1 w3.
Proof.
  intros (D1 & O1 & R1) (D2 & O2 & R2). repeat split.
  - now rewrite D2.
  - intros r' Hr. rewrite (O2 r' Hr). now apply O1.
  - now rewrite R2.
Qed.

Lemma only_changes_store (r : nat) (w : World) (d d' : DataFrame) :
  heap w !! r = Some d ->
  only_changes r w (mkWorld (<[r := d']> (heap w)) (log w) (rng_pos w)).
Proof.
  intros Hr. repeat split; simpl.
  - rewrite dom_insert_L. apply elem_of_dom_2 in Hr. set_solver.
  - intros r' Hne. now apply lookup_insert_ne.
Qed.

Lemma only_changes_logged (r : nat) (w : World) (l : LogLevel) (m : string) :
  only_changes r w (logged w l m).
Proof. repeat split. Qed.

(** The body of the [try] either stores a frame at [r] and returns, or
    returns without touching the world, or raises without having touched
    the world. *)
Lemma convert_column_outcome (r : nat) (column : string) (w : World)
    (d : DataFrame) :
  heap w !! r = Some d ->
  (exists d', convert_column r column w
              = (Ok tt, mkWorld (<[r := d']> (heap w)) (log w) (rng_pos w)))
  \/ convert_column r column w = (Ok tt, w)
  \/ (exists e, convert_column r column w = (Raise e, w)).
Proof.
  intros Hr. unfold convert_column, bind, deref, lift, store, ret.
  rewrite Hr.
  destruct (getitem d column) as [sel|e] eqn:G; [|right; right; eauto].
  destruct (infer_dtype sel) as [t|e]; [|right; right; eauto].
  destruct (String.eqb t "integer").
  { rewrite Hr, G.
    destruct (to_numeric sel DowncastInteger) as [v|e]; [|right; right; eauto].
    destruct (setitem d column v) as [d'|e]; [left; eauto|right; right; eauto]. }
  destruct (String.eqb t "floating").
  { rewrite Hr, G.
    destruct (to_numeric sel DowncastFloat) as [v|e]; [|right; right; eauto].
    destruct (setitem d column v) as [d'|e]; [left; eauto|right; right; eauto]. }
  destruct (String.eqb t "string").
  { rewrite Hr, G.
    destruct (astype_str sel) as [v|e]; [|right; right; eauto].
    destruct (setitem d column v) as [d'|e]; [left; eauto|right; right; eauto]. }
  right; left; reflexivity.
Qed.

(** One turn of the loop always returns, and keeps [r] alive. *)
Lemma coerce_turn_total (r : nat) (column : string) (w : World) (d : DataFrame) :
  heap w !! r = Some d ->
  exists w',
    try_except (convert_column r column)
               (fun e => logger_error (convert_error column e)) w
    = (Ok tt, w')
    /\ is_Some (heap w' !! r) /\ only_changes r w w'.
Proof.
  intros Hr. unfold try_except.
  destruct (convert_column_outcome r column w d Hr) as [[d' E]|[E|[e E]]];
    rewrite E.
  - eexists; split; [reflexivity|]. split.
    + simpl. rewrite lookup_insert_eq. eauto.
    + eapply only_changes_store; eauto.
  - eexists; split; [reflexivity|]. split; [eauto|apply only_changes_refl].
  - eexists; split; [reflexivity|]. split; [simpl; eauto|].
    apply only_changes_logged.
Qed.

Lemma coerce_loop_total (r : nat) (cols : list string) :
  forall (w : World) (d : DataFrame),
    heap w !! r = Some d ->
    exists w', coerce_loop r cols w = (Ok tt, w')
               /\ is_Some (heap w' !! r) /\ only_changes r w w'.
Proof.
  induction cols as [|c cols IH]; intros w d Hr.
  - exists w. split; [reflexivity|]. split; [eauto|apply only_changes_refl].
  - destruct (coerce_turn_total r c w d Hr) as (w1 & E1 & [d1 H1] & C1).
    destruct (IH w1 d1 H1) as (w2 & E2 & H2 & C2).
    exists w2. split.
    + unfold coerce_loop in *. simpl. unfold bind at 1. rewrite E1. exact E2.
    + split; [exact H2|]. eapply only_changes_trans; eauto.
Qed.

Lemma coerce_loop_app (r : nat) (pre post : list string) (w w1 : World) :
  coerce_loop r pre w = (Ok tt, w1) ->
  coerce_loop r (pre ++ post)%list w = coerce_loop r post w1.
Proof.
  revert w. induction pre as [|c pre IH]; intros w E.
  - injection E as <-. reflexivity.
  - unfold coerce_loop in *. simpl in *. unfold bind in *.
    destruct (try_except _ _ w) as [[[]|e] w0]; [|discriminate].
    now apply IH.
Qed.

End CoercionFacts.

Section CoercionClaims.
Context `{PD : Pandas}.
Import WikiScraper.

(** C5.  If the coercion of column [c] raises, the exception is caught: the
    world is as it was before that column (so the table, that column
    included, is unmodified), one ERROR record naming the column and the
    exception is logged, the loop goes on to every remaining column, and
    [apply_inferred_types] returns the dataset. *)
Theorem coercion_failure_is_skipped
    (r : nat) (w w1 w1' : World) (d : DataFrame)
    (pre post : list string) (c : string) (e : PyException) :
  heap w !! r = Some d ->
  column_labels d = (pre ++ c :: post)%list ->
  coerce_loop r pre w = (Ok tt, w1) ->
  convert_column r c w1 = (Raise e, w1') ->
  w1' = w1
  /\ coerce_loop r (pre ++ [c])%list w
     = (Ok tt, mkWorld (heap w1) (log w1 ++ [mkLog ERROR (convert_error c e)])
                       (rng_pos w1))
  /\ exists w2,
       coerce_loop r post (logged w1 ERROR (convert_error c e)) = (Ok tt, w2)
       /\ apply_inferred_types r w = (Ok r, w2).
Proof.
  intros Hr Hcols Hpre Hc.
  destruct (coerce_loop_total r pre w d Hr) as (w1x & E1 & [d1 H1] & _).
  rewrite Hpre in E1. injection E1 as <-.
  assert (Hw : w1' = w1).
  { destruct (convert_column_outcome r c w1 d1 H1) as [[d' E]|[E|[e' E]]];
      rewrite E in Hc; congruence. }
  subst w1'.
  assert (Hturn : coerce_loop r [c] w1
                  = (Ok tt, logged w1 ERROR (convert_error c e))).
  { unfold coerce_loop. simpl. unfold bind, try_except. rewrite Hc. reflexivity. }
  split; [reflexivity|]. split.
  - rewrite (coerce_loop_app r pre [c] w w1 Hpre). exact Hturn.
  - destruct (coerce_loop_total r post (logged w1 ERROR (convert_error c e)) d1 H1)
      as (w2 & E2 & _).
    exists w2. split; [exact E2|].
    unfold apply_inferred_types, bind, deref, ret. rewrite Hr, Hcols.
    rewrite (coerce_loop_app r pre (c :: post) w w1 Hpre).
    change (c :: post) with ([c] ++ post)%list.
    rewrite (coerce_loop_app r [c] post w1 _ Hturn). rewrite E2. reflexivity.
Qed.

End CoercionClaims.

Section CoercionWitnesses.
Import WikiScraper Examples.

Lemma coercion_failure_is_skipped_witness :
  exists w2,
    @apply_inferred_types pandas_demo 0%nat (world_of mixed_frame) = (Ok 0%nat, w2).
Proof.
  destruct (@coercion_failure_is_skipped pandas_demo 0%nat
              (world_of mixed_frame)
              (mkWorld (<[0%nat :=
                            mkDF 2 [("a", IntSeries I8 [1; 2]);
                                    ("b", ObjectSeries [PyInt (2 ^ 1024); PyNone]);
                                    ("c", ObjectSeries [PyStr "x"; PyNone])]]>
                          (heap (world_of mixed_frame))) [] 0)
              (mkWorld (<[0%nat :=
                            mkDF 2 [("a", IntSeries I8 [1; 2]);
                                    ("b", ObjectSeries [PyInt (2 ^ 1024); PyNone]);
                                    ("c", ObjectSeries [PyStr "x"; PyNone])]]>
                          (heap (world_of mixed_frame))) [] 0)
              mixed_frame ["a"] ["c"] "b"
              (OverflowError "int too large to convert to float"))
    as (_ & _ & w2 & _ & E).
  - reflexivity.
  - reflexivity.
  - vm_compute. reflexivity.
  - vm_compute. reflexivity.
  - exists w2. exact E.
Defined.

End CoercionWitnesses.

(** ** Type inference *)

Section InferenceFacts.
Context `{PD : Pandas}.
Import WikiScraper.

Lemma getitem_present (d : DataFrame) (c : string) :
  In c (column_labels d) -> exists sel, getitem d c = Ok sel.
Proof.
  intros Hin. unfold getitem, columns_named.
  assert (Hne : List.filter (fun x => String.eqb (fst x) c) (columns d) <> []).
  { unfold column_labels in Hin. apply in_map_iff in Hin as ([c' s] & <- & Hin).
    intros E.
    assert (In (c', s) (List.filter (fun x => String.eqb (fst x) (fst (c', s)))
                                    (columns d))).
    { apply filter_In. split; [exact Hin|]. apply String.eqb_refl. }
    rewrite E in H. destruct H. }
  destruct (List.filter _ (columns d)) as [|[k s] [|y l]]; [congruence|eauto|eauto].
Qed.

Lemma infer_loop_spec (r : nat) (w : World) (d : DataFrame) :
  heap w !! r = Some d ->
  forall (cols : list string) (acc : list (string * string)),
    (forall c, In c cols -> In c (column_labels d)) ->
    infer_loop r cols acc w = (Ok (inferred_items d cols acc), w).
Proof.
  intros Hr cols. induction cols as [|c cols IH]; intros acc Hin.
  - reflexivity.
  - simpl. unfold bind at 1, deref. rewrite Hr.
    destruct (getitem_present d c (Hin c (or_introl eq_refl))) as [sel G].
    unfold bind at 1, lift. rewrite G.
    rewrite IH by (intros c' Hc'; apply Hin; now right).
    reflexivity.
Qed.

Lemma keys_dict_set (dict : list (string * string)) (k v : string) :
  map fst (dict_set dict k v)
  = if existsb (String.eqb k) (map fst dict)
    then map fst dict else (map fst dict ++ [k])%list.
Proof.
  induction dict as [|[k' v'] dict IH]; simpl; [reflexivity|].
  rewrite (String.eqb_sym k k').
  destruct (String.eqb k' k) eqn:E; simpl; [reflexivity|].
  rewrite IH. now destruct (existsb _ _).
Qed.

Lemma filter_pointwise {A} (p q : A -> bool) (l : list A) :
  (forall x, p x = q x) -> List.filter p l = List.filter q l.
Proof.
  intros H. induction l as [|x l IH]; simpl; [reflexivity|].
  now rewrite H, IH.
Qed.

Lemma filter_filter {A} (p q : A -> bool) (l : list A) :
  List.filter p (List.filter q l) = List.filter (fun x => q x && p x) l.
Proof.
  induction l as [|x l IH]; simpl; [reflexivity|].
  destruct (q x); simpl; [destruct (p x)|]; now rewrite IH.
Qed.

Lemma existsb_snoc (k x : string) (l : list string) :
  existsb (String.eqb k) (l ++ [x])%list
  = existsb (String.eqb k) l || String.eqb k x.
Proof. rewrite existsb_app. simpl. now rewrite orb_false_r. Qed.

(** The keys of the dict after the loop: the keys it had, then the new
    labels at their first places. *)
Lemma keys_inferred_items (d : DataFrame) (cols : list string) :
  (forall c, In c cols -> In c (column_labels d)) ->
  forall acc : list (string * string),
    map fst (inferred_items d cols acc)
    = (map fst acc
       ++ List.filter (fun y => negb (existsb (String.eqb y) (map fst acc)))
                      (first_occurrences cols))%list.
Proof.
  induction cols as [|c cols IH]; intros Hin acc.
  - simpl. now rewrite app_nil_r.
  - destruct (getitem_present d c (Hin c (or_introl eq_refl))) as [sel G].
    change (inferred_items d (c :: cols) acc)
      with (inferred_items d cols
              (match getitem d c with
               | Ok sel => dict_set acc c (inferred_type_of sel)
               | Raise _ => acc
               end)).
    rewrite G. simpl.
    rewrite IH by (intros c' Hc'; apply Hin; now right).
    rewrite keys_dict_set. rewrite filter_filter.
    destruct (existsb (String.eqb c) (map fst acc)) eqn:E; simpl.
    + f_equal. apply filter_pointwise. intros y.
      destruct (String.eqb y c) eqn:Eyc; simpl; [|reflexivity].
      apply String.eqb_eq in Eyc. subst y. now rewrite E.
    + rewrite <- app_assoc. simpl. f_equal. f_equal.
      apply filter_pointwise. intros y. rewrite existsb_snoc.
      destruct (String.eqb y c), (existsb (String.eqb y) (map fst acc));
        reflexivity.
Qed.

Lemma filter_absent (x : string) (l : list string) :
  ~ In x l -> List.filter (fun y => negb (String.eqb y x)) l = l.
Proof.
  induction l as [|y l IH]; simpl; intros Hx; [reflexivity|].
  destruct (String.eqb y x) eqn:E.
  - apply String.eqb_eq in E. subst y. exfalso. apply Hx. now left.
  - simpl. f_equal. apply IH. intros Hin. apply Hx. now right.
Qed.

Lemma first_occurrences_nodup (l : list string) :
  List.NoDup l -> first_occurrences l = l.
Proof.
  induction 1 as [|x l Hx Hnd IH]; simpl; [reflexivity|].
  rewrite IH. f_equal. now apply filter_absent.
Qed.

End InferenceFacts.

Section InferenceClaims.
Context `{PD : Pandas}.
Import WikiScraper.

Lemma infer_data_types_run (r : nat) (w : World) (d : DataFrame) :
  heap w !! r = Some d ->
  infer_data_types r w
  = (Ok (fresh (dom (heap w))),
     mkWorld (<[fresh (dom (heap w))
                := frame_of_items (inferred_items d (column_labels d) [])
                                  "Column" "Inferred Type"]> (heap w))
             (log w) (rng_pos w)).
Proof.
  intros Hr. unfold infer_data_types, bind, deref. rewrite Hr.
  rewrite (infer_loop_spec r w d Hr) by auto. reflexivity.
Qed.

(** C10, as the code has it.  [infer_data_types] leaves its input as it
    was and returns a new table with the two columns 'Column' and
    'Inferred Type'.  The table has one row per distinct column label of
    the input, in the order in which the labels first occur; when the
    labels are distinct this is one row per column, in column order. *)
Theorem infer_data_types_fresh_table (r : nat) (w : World) (d : DataFrame) :
  heap w !! r = Some d ->
  let r' := fresh (dom (heap w)) in
  let items := inferred_items d (column_labels d) [] in
  let table := frame_of_items items "Column" "Inferred Type" in
  infer_data_types r w
  = (Ok r', mkWorld (<[r' := table]> (heap w)) (log w) (rng_pos w))
  /\ heap w !! r' = None
  /\ <[r' := table]> (heap w) !! r = Some d
  /\ column_labels table = ["Column"; "Inferred Type"]
  /\ getitem table "Column"
     = Ok (OneColumn
             (ObjectSeries (map PyStr (first_occurrences (column_labels d)))))
  /\ index_len table = length (first_occurrences (column_labels d))
  /\ (List.NoDup (column_labels d) ->
      getitem table "Column"
      = Ok (OneColumn (ObjectSeries (map PyStr (column_labels d))))
      /\ index_len table = length (columns d)).
Proof.
  intros Hr r' items table.
  assert (Hfresh : heap w !! r' = None).
  { apply not_elem_of_dom. apply is_fresh. }
  assert (Hkeys : map fst items = first_occurrences (column_labels d)).
  { unfold items. rewrite keys_inferred_items by auto. simpl.
    clear. induction (first_occurrences (column_labels d)) as [|x l IH];
      simpl; [reflexivity|]. now rewrite IH. }
  assert (Hcol : getitem table "Column"
                 = Ok (OneColumn (ObjectSeries
                         (map PyStr (first_occurrences (column_labels d)))))).
  { unfold table, frame_of_items, getitem. simpl.
    rewrite <- Hkeys. now rewrite map_map. }
  assert (Hlen : index_len table = length (first_occurrences (column_labels d))).
  { unfold table. simpl. rewrite <- Hkeys. now rewrite length_map. }
  split; [|split; [|split; [|split; [|split; [|split]]]]]; auto.
  - now apply infer_data_types_run.
  - rewrite lookup_insert_ne; [exact Hr|]. intros ->. congruence.
  - intros Hnd. rewrite Hcol, Hlen, (first_occurrences_nodup _ Hnd).
    split; [reflexivity|]. unfold column_labels. now rewrite length_map.
Qed.

End InferenceClaims.

Section InferenceTypes.
Context `{PD : Pandas}.
Import WikiScraper.

Lemma dict_set_In (dict : list (string * string)) (k v k' v' : string) :
  In (k', v') (dict_set dict k v) -> (k' = k /\ v' = v) \/ In (k', v') dict.
Proof.
  induction dict as [|[k0 v0] dict IH]; simpl.
  - intros [[= <- <-]|[]]. now left.
  - destruct (String.eqb k0 k) eqn:E; simpl.
    + apply String.eqb_eq in E. subst k0.
      intros [[= <- <-]|H]; [now left|right; now right].
    + intros [H|H]; [right; now left|].
      destruct (IH H) as [?|?]; [now left|right; now right].
Qed.

Lemma items_typed (d : DataFrame) (cols : list string) :
  forall acc : list (string * string),
    (forall k v, In (k, v) acc -> v = type_of d k) ->
    forall k v, In (k, v) (inferred_items d cols acc) -> v = type_of d k.
Proof.
  induction cols as [|c cols IH]; intros acc Hacc k v; simpl; [apply Hacc|].
  apply IH. intros k' v' Hin.
  destruct (getitem d c) as [sel|e] eqn:G; [|now apply Hacc].
  apply dict_set_In in Hin as [[-> ->]|Hin]; [|now apply Hacc].
  unfold type_of. now rewrite G.
Qed.

Lemma first_occurrences_In (l : list string) (x : string) :
  In x l -> In x (first_occurrences l).
Proof.
  induction l as [|y l IH]; simpl; [tauto|].
  intros [->|Hin]; [now left|].
  destruct (String.eqb x y) eqn:E.
  - apply String.eqb_eq in E. now left.
  - right. apply filter_In. split; [now apply IH|]. now rewrite E.
Qed.

(** Every label of the table is a key of the dict, with the one type the
    branch gives it, and that type is one of the three. *)
Lemma items_cover (d : DataFrame) (name : string) :
  In name (column_labels d) ->
  let items := inferred_items d (column_labels d) [] in
  In (name, type_of d name) items
  /\ (forall t, In (name, t) items -> t = type_of d name)
  /\ (type_of d name = "Numeric" \/ type_of d name = "String"
      \/ type_of d name = "Object").
Proof.
  intros Hin items.
  assert (Ht : forall k v, In (k, v) items -> v = type_of d k).
  { apply items_typed. intros k v []. }
  split; [|split].
  - assert (Hk : In name (map fst items)).
    { unfold items. rewrite keys_inferred_items by auto. simpl.
      apply filter_In. split; [now apply first_occurrences_In|reflexivity]. }
    apply in_map_iff in Hk as ([k v] & Hkv & Hin'). simpl in Hkv. subst k.
    now rewrite <- (Ht name v Hin').
  - intros t. apply Ht.
  - destruct (getitem_present d name Hin) as [sel G].
    unfold type_of, inferred_type_of. rewrite G.
    destruct (is_numeric_dtype sel); [now left|].
    destruct (is_string_dtype sel); [right; now left|right; now right].
Qed.

End InferenceTypes.

Section ReferenceInference.
Import WikiScraper PandasRef.

Variable astype_float32 : float -> float.
Variable allclose : list float -> list float -> bool.
Variable float_repr : float -> string.
Variable datetime_repr : Z -> string.
Variable parse_datetime : string -> string -> result Z.
Variable frame_repr : DataFrame -> string.
Variable parse_tables : string -> result (list DataFrame).

Local Abbreviation PDref :=
  (pandas_ref astype_float32 allclose float_repr datetime_repr parse_datetime
              frame_repr parse_tables).

Lemma columns_named_single (d : DataFrame) (name : string) (s : Series) :
  columns_named name (columns d) = [(name, s)] ->
  In name (column_labels d) /\ getitem d name = Ok (OneColumn s).
Proof.
  intros H. split.
  - assert (Hin : In (name, s) (columns_named name (columns d))).
    { rewrite H. now left. }
    apply filter_In in Hin as [Hin _].
    unfold column_labels. apply in_map_iff. now exists (name, s).
  - unfold getitem. now rewrite H.
Qed.

(** C6, as the code has it.  [infer_data_types] goes by the dtype of a
    column, not by its values: a column that alone carries its label is
    Numeric when it is stored with an integer dtype, and String when it is
    an object column that holds only text.  Every label of the input gets
    exactly one of Numeric, String and Object. *)
Theorem infer_data_types_classifies (r : nat) (w : World) (d : DataFrame) :
  heap w !! r = Some d ->
  let items := @inferred_items PDref d (column_labels d) [] in
  @infer_data_types PDref r w
  = (Ok (fresh (dom (heap w))),
     mkWorld (<[fresh (dom (heap w))
                := frame_of_items items "Column" "Inferred Type"]> (heap w))
             (log w) (rng_pos w))
  /\ (forall name, In name (column_labels d) ->
        exists t, In (name, t) items
                  /\ (forall t', In (name, t') items -> t' = t)
                  /\ (t = "Numeric" \/ t = "String" \/ t = "Object"))
  /\ (forall name wd vals,
        columns_named name (columns d) = [(name, IntSeries wd vals)] ->
        In (name, "Numeric") items)
  /\ (forall name vals,
        columns_named name (columns d) = [(name, ObjectSeries vals)] ->
        forallb is_str vals = true ->
        In (name, "String") items).
Proof.
  intros Hr items. split; [|split; [|split]].
  - apply (@infer_data_types_run PDref r w d Hr).
  - intros name Hin. exists (@type_of PDref d name).
    apply (@items_cover PDref d name Hin).
  - intros name wd vals H.
    destruct (columns_named_single d name _ H) as [Hin G].
    destruct (@items_cover PDref d name Hin) as (Hi & _).
    unfold type_of in Hi. rewrite G in Hi. exact Hi.
  - intros name vals H Hstr.
    destruct (columns_named_single d name _ H) as [Hin G].
    destruct (@items_cover PDref d name Hin) as (Hi & _).
    unfold type_of in Hi. rewrite G in Hi.
    unfold inferred_type_of in Hi. simpl in Hi. rewrite Hstr in Hi.
    exact Hi.
Qed.

End ReferenceInference.

Section InferenceExamples.
Import WikiScraper Examples.

(** C6, as stated, fails: a column whose values are all integers, stored
    with dtype object, is not classified Numeric ([is_numeric_dtype] looks
    at the dtype; what [is_string_dtype] then says of an object column
    decides between String and Object).  Nor are integer columns that
    share their label: the label selects a frame, which has no dtype. *)
Lemma object_integers_not_numeric :
  (columns object_int_frame = [("n", ObjectSeries [PyInt 1; PyInt 2])]
   /\ forallb PandasRef.is_int [PyInt 1; PyInt 2] = true
   /\ exists t,
        @infer_data_types pandas_demo 0%nat (world_of object_int_frame)
        = (Ok 1%nat,
           mkWorld (<[1%nat := mkDF 1 [("Column", ObjectSeries [PyStr "n"]);
                                      ("Inferred Type", ObjectSeries [PyStr t])]]>
                      (heap (world_of object_int_frame))) [] 0)
        /\ t <> "Numeric")
  /\ (columns twin_frame = [("a", IntSeries I64 [1]); ("a", IntSeries I64 [2])]
      /\ @inferred_items pandas_demo twin_frame (column_labels twin_frame) []
         = [("a", "Object")]).
Proof.
  split; [|split; vm_compute; reflexivity].
  split; [reflexivity|]. split; [reflexivity|].
  exists "Object". split; [vm_compute; reflexivity|discriminate].
Qed.

(** C10, as stated, fails: a table with two columns under one label gets
    one row, not one row per column. *)
Lemma repeated_label_one_row :
  length (columns twin_frame) = 2%nat
  /\ @infer_data_types pandas_demo 0%nat (world_of twin_frame)
     = (Ok 1%nat,
        mkWorld (<[1%nat := mkDF 1 [("Column", ObjectSeries [PyStr "a"]);
                                   ("Inferred Type",
                                    ObjectSeries [PyStr "Object"])]]>
                   (heap (world_of twin_frame))) [] 0).
Proof. split; vm_compute; reflexivity. Qed.

Lemma infer_data_types_fresh_table_witness :
  @infer_data_types pandas_demo 0%nat (world_of mixed_frame)
  = (Ok (fresh (dom (heap (world_of mixed_frame)))),
     mkWorld (<[fresh (dom (heap (world_of mixed_frame)))
                := frame_of_items
                     (@inferred_items pandas_demo mixed_frame
                        (column_labels mixed_frame) [])
                     "Column" "Inferred Type"]>
                (heap (world_of mixed_frame))) [] 0).
Proof.
  apply (proj1 (@infer_data_types_fresh_table pandas_demo 0%nat
                  (world_of mixed_frame) mixed_frame eq_refl)).
Defined.

Lemma infer_data_types_classifies_witness :
  In ("a", "Numeric")
     (@inferred_items pandas_demo mixed_frame (column_labels mixed_frame) []).
Proof.
  apply (proj1 (proj2 (proj2
           (infer_data_types_classifies
              (fun x => x) (fun _ _ => false)
              (fun _ => "<float>") (fun _ => "<date>")
              (fun _ s => Ok (Z.of_nat (String.length s)))
              (fun _ => "<frame>")
              (fun _ => Ok [population_frame])
              0%nat (world_of mixed_frame) mixed_frame eq_refl)))
           "a" I64 [1; 2]).
  reflexivity.
Defined.

End InferenceExamples.

(** ** The entry points *)

Section MainFacts.
Context `{PD : Pandas} `{WB : Web} `{PLT : Pyplot} `{NP : Numpy}.

(** C8.  Whenever [main] returns, it returns 0, in both scripts.  In the
    demographics script this includes the run in which the scrape result
    is absent: the plotting branch is skipped and [main] returns 0 without
    touching the world any further. *)
Theorem main_returns_zero (w : World) :
  (forall rc w', WikiScraper.main w = (Ok rc, w') -> rc = 0)
  /\ (forall w1,
        WikiScraper.scrape_wikipedia_demographics WikiScraper.url
          (logged w INFO "Starting script.") = (Ok None, w1) ->
        WikiScraper.main w = (Ok 0, w1))
  /\ (forall rc w', ScriptTemplate.main w = (Ok rc, w') -> rc = 0).
Proof.
  split; [|split].
  - intros rc w'. unfold WikiScraper.main, bind, logger_info at 1.
    destruct (WikiScraper.scrape_wikipedia_demographics _ _) as [[df|e] w1];
      [|discriminate].
    match goal with
    | |- context [match ?m w1 with _ => _ end] =>
        destruct (m w1) as [[[]|e] w2]; [|discriminate]
    end.
    unfold ret. now intros [= <- _].
  - intros w1 E. unfold WikiScraper.main, bind, logger_info at 1.
    rewrite E. reflexivity.
  - intros rc w'. unfold ScriptTemplate.main, bind, logger_info at 1.
    destruct (ScriptTemplate.generate_random_dataframe None None _)
      as [[df|e] w1]; [|discriminate].
    destruct (ScriptTemplate.log_dataframe df w1) as [[[]|e] w2]; [|discriminate].
    unfold ret. now intros [= <- _].
Qed.

End MainFacts.

Section MainWitness.
Import Examples.

Lemma main_returns_zero_witness :
  @WikiScraper.main pandas_demo web_down pyplot_ok empty_world
  = (Ok 0,
     logged (logged empty_world INFO "Starting script.") ERROR
            "An error occurred while scraping: unreachable")
  /\ (forall rc w',
        @WikiScraper.main pandas_demo web_up pyplot_ok empty_world = (Ok rc, w') ->
        rc = 0)
  /\ fst (@WikiScraper.main pandas_demo web_up pyplot_ok empty_world) = Ok 0
  /\ fst (@ScriptTemplate.main pandas_demo numpy_half empty_world) = Ok 0.
Proof.
  split; [|split; [|split]].
  - apply (proj1 (proj2 (@main_returns_zero pandas_demo web_down pyplot_ok
                           numpy_half empty_world))).
    reflexivity.
  - apply (proj1 (@main_returns_zero pandas_demo web_up pyplot_ok numpy_half
                    empty_world)).
  - vm_compute. reflexivity.
  - vm_compute. reflexivity.
Defined.

End MainWitness.

(** ** The random table *)

Section RandomTable.
Context `{NP : Numpy}.
Import ScriptTemplate.

Lemma range_length (n : Z) : length (range n) = Z.to_nat n.
Proof. unfold range. now rewrite length_map, length_seq. Qed.

Lemma range_nth (n : Z) (j : nat) (f : Z -> string) :
  (j < Z.to_nat n)%nat ->
  nth j (map f (range n)) "" = f (Z.of_nat j).
Proof.
  intros Hj. unfold range. rewrite map_map.
  rewrite (nth_indep _ "" (f (Z.of_nat 0)))
    by (now rewrite length_map, length_seq).
  rewrite (map_nth (fun i => f (Z.of_nat i)) (seq 0 (Z.to_nat n)) 0%nat j).
  now rewrite seq_nth.
Qed.




Lemma memory_limit_floor : 1024 <= memory_limit.
Proof. apply Z.leb_le. apply memory_floor. Qed.

(** [np.empty] returns for counts that are not negative, whose array is no
    larger than the index type and the allocator allow. *)
Lemma np_empty_ok (rows cols : Z) :
  0 <= rows -> 0 <= cols ->
  8 * Z.max 1 rows * Z.max 1 cols <= INTP_MAX ->
  8 * rows * cols <= memory_limit ->
  exists bytes, np_empty rows cols = Ok bytes.
Proof.
  intros Hr Hc Hsize Hmem. pose proof memory_limit_floor as Hfloor.
  assert (HM : 0 < INTP_MAX) by reflexivity.
  assert (Hmin : INTP_MIN < 0) by reflexivity.
  unfold np_empty, check_dim.
  destruct (Z.ltb_spec rows INTP_MIN); [lia|].
  destruct (Z.ltb_spec INTP_MAX rows); [nia|].
  destruct (Z.ltb_spec cols INTP_MIN); [lia|].
  destruct (Z.ltb_spec INTP_MAX cols); [nia|].
  cbn [orb].
  destruct (Z.eqb_spec rows 0) as [->|Hr0]; cbn [result_bind orb].
  - destruct (Z.eqb_spec cols 0) as [->|Hc0]; cbn [result_bind].
    + destruct (Z.ltb_spec memory_limit 0); [lia|eauto].
    + destruct (Z.ltb_spec cols 0); [lia|].
      destruct (Z.ltb_spec INTP_MAX (8 * cols)); [nia|]. cbn [result_bind].
      destruct (Z.ltb_spec memory_limit 0); [lia|eauto].
  - destruct (Z.ltb_spec rows 0); [lia|].
    destruct (Z.ltb_spec INTP_MAX (8 * rows)); [nia|]. cbn [result_bind].
    destruct (Z.eqb_spec cols 0) as [->|Hc0]; cbn [result_bind].
    + destruct (Z.ltb_spec memory_limit 0); [lia|eauto].
    + destruct (Z.ltb_spec cols 0); [lia|].
      destruct (Z.ltb_spec INTP_MAX (8 * rows * cols)); [nia|].
      cbn [result_bind].
      destruct (Z.ltb_spec memory_limit (8 * rows * cols)); [lia|eauto].
Qed.


End RandomTable.

Section RandomTableWitness.
Import Examples ScriptTemplate.



End RandomTableWitness.

(** ** The derived column *)

Section FrameFacts.
Import PandasRef.

Lemma columns_named_replace_other (key key' : string) (s : Series)
    (cols : list (string * Series)) :
  key <> key' ->
  columns_named key (replace_named key' s cols) = columns_named key cols.
Proof.
  intros Hne. unfold columns_named, replace_named.
  induction cols as [|[k v] cols IH]; simpl; [reflexivity|].
  destruct (String.eqb k key') eqn:E; simpl; rewrite IH; [|reflexivity].
  apply String.eqb_eq in E. subst k.
  destruct (String.eqb key' key) eqn:E'; [|reflexivity].
  apply String.eqb_eq in E'. congruence.
Qed.

Lemma replace_named_In (key : string) (s s' : Series)
    (cols : list (string * Series)) :
  In (key, s') (replace_named key s cols) -> s' = s.
Proof.
  unfold replace_named. intros Hin.
  apply in_map_iff in Hin as ([k v] & E & _). simpl in E.
  destruct (String.eqb k key) eqn:Ek; [congruence|].
  injection E as -> _. now rewrite String.eqb_refl in Ek.
Qed.

Lemma replace_named_labels (key : string) (s : Series)
    (cols : list (string * Series)) :
  map fst (replace_named key s cols) = map fst cols.
Proof.
  unfold replace_named. rewrite map_map. apply map_ext.
  intros [k v]. simpl. now destruct (String.eqb k key).
Qed.

Lemma columns_named_In (key : string) (s : Series)
    (cols : list (string * Series)) :
  In (key, s) cols -> In (key, s) (columns_named key cols).
Proof.
  intros Hin. apply filter_In. split; [exact Hin|]. apply String.eqb_refl.
Qed.

(** After [df[key] = s] every column labelled [key] holds [s], and there is
    one. *)
Lemma set_series_result (d d' : DataFrame) (key : string) (s : Series) :
  set_series d key s = Ok d' ->
  index_len d' = index_len d
  /\ In key (column_labels d')
  /\ (forall s', In (key, s') (columns d') -> s' = s)
  /\ (forall key', key' <> key ->
        columns_named key' (columns d') = columns_named key' (columns d)).
Proof.
  unfold set_series.
  destruct (Nat.eqb (series_len s) (index_len d)); [|discriminate].
  destruct (columns_named key (columns d)) as [|c cs] eqn:E; intros [= <-];
    simpl.
  - split; [reflexivity|]. split; [|split].
    + unfold column_labels. simpl. rewrite map_app. apply in_or_app.
      right. now left.
    + intros s' Hin. apply in_app_or in Hin as [Hin|[[= <-]|[]]]; [|reflexivity].
      apply columns_named_In in Hin. rewrite E in Hin. destruct Hin.
    + intros key' Hne. unfold columns_named. rewrite List.filter_app. simpl.
      destruct (String.eqb key key') eqn:E'.
      * apply String.eqb_eq in E'. congruence.
      * now rewrite app_nil_r.
  - split; [reflexivity|]. split; [|split].
    + unfold column_labels. simpl. rewrite replace_named_labels.
      assert (Hin : In c (columns_named key (columns d))) by (rewrite E; now left).
      apply filter_In in Hin as [Hin Hk]. apply String.eqb_eq in Hk.
      apply in_map_iff. now exists c.
    + intros s'. apply replace_named_In.
    + intros key' Hne. now apply columns_named_replace_other.
Qed.


Lemma map_result_length {A B} (f : A -> result B) (l : list A) (l' : list B) :
  map_result f l = Ok l' -> length l' = length l.
Proof.
  revert l'. induction l as [|a l IH]; simpl; intros l'.
  - now intros [= <-].
  - destruct (f a); [|discriminate]. simpl.
    destruct (map_result f l); [|discriminate]. simpl.
    intros [= <-]. simpl. f_equal. now apply IH.
Qed.

End FrameFacts.

Section DerivedColumn.
Context `{PLT : Pyplot}.
Import WikiScraper PandasRef.

Variable astype_float32 : float -> float.
Variable allclose : list float -> list float -> bool.
Variable float_repr : float -> string.
Variable datetime_repr : Z -> string.
Variable parse_datetime : string -> string -> result Z.
Variable frame_repr : DataFrame -> string.
Variable parse_tables : string -> result (list DataFrame).

Local Abbreviation PDref :=
  (pandas_ref astype_float32 allclose float_repr datetime_repr parse_datetime
              frame_repr parse_tables).

Lemma to_datetime_length (s : Series) (sel : Selection) :
  to_datetime_ref parse_datetime
    (OneColumn (astype_str_series float_repr datetime_repr s)) = Ok sel ->
  exists l, sel = OneColumn (DatetimeSeries l) /\ length l = series_len s.
Proof.
  unfold to_datetime_ref, astype_str_series.
  match goal with
  | |- context [map_result text_of ?l] =>
      destruct (map_result text_of l) as [texts|e] eqn:E1; [|discriminate];
      assert (Hl : length l = series_len s)
        by (destruct s; simpl; now rewrite length_map)
  end.
  simpl.
  destruct (map_result (parse_datetime (hd "" texts)) texts) as [ts|e] eqn:E2;
    [|discriminate].
  simpl. intros [= <-]. exists ts. split; [reflexivity|].
  apply map_result_length in E1, E2. congruence.
Qed.




End DerivedColumn.

Section DerivedColumnExamples.
Import WikiScraper Examples.



End DerivedColumnExamples.

(** ** The coercion loop as a function of the table *)

Section LoopOnFrames.
Context `{PD : Pandas}.
Import WikiScraper.

Lemma world_store_same (r : nat) (w : World) (d : DataFrame) :
  heap w !! r = Some d ->
  mkWorld (<[r := d]> (heap w)) (log w) (rng_pos w) = w.
Proof. intros H. destruct w as [h l p]. simpl in *. f_equal. now apply insert_id. Qed.

(** The body of the [try] stores the frame [converted] computes, or raises
    as it does. *)
Lemma convert_column_spec (r : nat) (column : string) (w : World)
    (d : DataFrame) :
  heap w !! r = Some d ->
  convert_column r column w
  = match converted d column with
    | Ok d' => (Ok tt, mkWorld (<[r := d']> (heap w)) (log w) (rng_pos w))
    | Raise e => (Raise e, w)
    end.
Proof.
  intros Hr. unfold convert_column, converted.
  rewrite (bind_deref r _ w d Hr).
  destruct (getitem d column) as [sel|e] eqn:G; [|reflexivity].
  rewrite bind_lift_ok. cbn [result_bind].
  destruct (infer_dtype sel) as [t|e]; [|reflexivity].
  rewrite bind_lift_ok. cbn [result_bind].
  destruct (String.eqb t "integer").
  { rewrite (bind_deref r _ w d Hr), G, bind_lift_ok.
    destruct (to_numeric sel DowncastInteger) as [v|e]; [|reflexivity].
    rewrite bind_lift_ok. cbn [result_bind].
    destruct (setitem d column v); reflexivity. }
  destruct (String.eqb t "floating").
  { rewrite (bind_deref r _ w d Hr), G, bind_lift_ok.
    destruct (to_numeric sel DowncastFloat) as [v|e]; [|reflexivity].
    rewrite bind_lift_ok. cbn [result_bind].
    destruct (setitem d column v); reflexivity. }
  destruct (String.eqb t "string").
  { rewrite (bind_deref r _ w d Hr), G, bind_lift_ok.
    destruct (astype_str sel) as [v|e]; [|reflexivity].
    rewrite bind_lift_ok. cbn [result_bind].
    destruct (setitem d column v); reflexivity. }
  unfold ret. now rewrite (world_store_same r w d Hr).
Qed.

(** The loop leaves at [r] the frame the turns make, one label after the
    other. *)
Lemma coerce_loop_frames (r : nat) (cols : list string) :
  forall (w : World) (d : DataFrame),
    heap w !! r = Some d ->
    exists w', coerce_loop r cols w = (Ok tt, w')
               /\ heap w' !! r = Some (fold_left step_frame cols d).
Proof.
  induction cols as [|c cols IH]; intros w d Hr.
  - exists w. split; [reflexivity|exact Hr].
  - unfold coerce_loop in *. simpl. unfold bind at 1, try_except.
    rewrite (convert_column_spec r c w d Hr). unfold step_frame at 2.
    destruct (converted d c) as [d'|e].
    + apply IH. simpl. apply lookup_insert_eq.
    + apply IH. simpl. exact Hr.
Qed.

Lemma apply_inferred_types_frames (r : nat) (w : World) (d : DataFrame) :
  heap w !! r = Some d ->
  exists w', apply_inferred_types r w = (Ok r, w')
             /\ heap w' !! r = Some (fold_left step_frame (column_labels d) d).
Proof.
  intros Hr. destruct (coerce_loop_frames r (column_labels d) w d Hr)
    as (w' & E & H').
  exists w'. split; [|exact H'].
  unfold apply_inferred_types. rewrite (bind_deref r _ w d Hr).
  unfold bind. rewrite E. reflexivity.
Qed.

End LoopOnFrames.

(** ** Coercion in place *)

Section CoercionInPlace.
Context `{PD : Pandas}.
Import WikiScraper.

(** C9.  [apply_inferred_types] returns the reference it was given: the
    value returned is the argument itself.  The object at that reference
    is, after the call, the coerced table: what the turns of the loop make
    of the table that was there, one label after the other (the frame the
    turn assigns, or the frame as it was when the turn raises).  The call
    allocates nothing and touches no other object, so the coerced table is
    the caller's own object, changed in place. *)
Theorem apply_inferred_types_in_place (r : nat) (w : World) (d : DataFrame) :
  heap w !! r = Some d ->
  exists w',
    apply_inferred_types r w = (Ok r, w')
    /\ heap w' !! r = Some (fold_left step_frame (column_labels d) d)
    /\ dom (heap w') = dom (heap w)
    /\ (forall r', r' <> r -> heap w' !! r' = heap w !! r').
Proof.
  intros Hr.
  destruct (coerce_loop_total r (column_labels d) w d Hr)
    as (w' & E & Hs & HD & HO & _).
  destruct (coerce_loop_frames r (column_labels d) w d Hr) as (w'' & E' & Hf).
  rewrite E in E'. injection E' as <-.
  exists w'. split; [|auto].
  unfold apply_inferred_types, bind, deref, ret. rewrite Hr, E. reflexivity.
Qed.

End CoercionInPlace.

Section CoercionInPlaceWitness.
Import WikiScraper Examples.

Lemma apply_inferred_types_in_place_witness :
  exists w',
    @apply_inferred_types pandas_demo 0%nat (world_of mixed_frame) = (Ok 0%nat, w')
    /\ heap w' !! 0%nat
       = Some (mkDF 2 [("a", IntSeries I8 [1; 2]);
                       ("b", ObjectSeries [PyInt (2 ^ 1024); PyNone]);
                       ("c", ObjectSeries [PyStr "x"; PyStr "None"])])
    /\ dom (heap w') = dom (heap (world_of mixed_frame))
    /\ (forall r', r' <> 0%nat ->
                   heap w' !! r' = heap (world_of mixed_frame) !! r').
Proof.
  destruct (@apply_inferred_types_in_place pandas_demo 0%nat
              (world_of mixed_frame) mixed_frame eq_refl)
    as (w' & E & Hf & HD & HO).
  exists w'. split; [exact E|]. split; [|split; [exact HD|exact HO]].
  rewrite Hf. vm_compute. reflexivity.
Defined.

End CoercionInPlaceWitness.

(** ** Idempotence of the coercion, column by column *)

Section TurnOnColumns.
Import WikiScraper PandasRef.

Variable astype_float32 : float -> float.
Variable allclose : list float -> list float -> bool.
Variable float_repr : float -> string.
Variable datetime_repr : Z -> string.
Variable parse_datetime : string -> string -> result Z.
Variable frame_repr : DataFrame -> string.
Variable parse_tables : string -> result (list DataFrame).

Local Abbreviation PDref :=
  (pandas_ref astype_float32 allclose float_repr datetime_repr parse_datetime
              frame_repr parse_tables).
Local Abbreviation astype := (astype_str_series float_repr datetime_repr).
Local Abbreviation coerce := (coerced astype_float32 allclose float_repr datetime_repr).
Local Abbreviation turn := (label_step astype_float32 allclose float_repr datetime_repr).
Local Abbreviation cturn := (col_turn astype_float32 allclose float_repr datetime_repr).
Local Abbreviation stable := (stable_form astype_float32 allclose).

Lemma on_label_id (c : string) (cols : list (string * Series)) :
  on_label c (fun s => s) cols = cols.
Proof.
  unfold on_label. induction cols as [|[k v] cols IH]; simpl; [reflexivity|].
  rewrite IH. now destruct (String.eqb k c).
Qed.

Lemma frame_eta (d : DataFrame) : mkDF (index_len d) (columns d) = d.
Proof. now destruct d. Qed.

Lemma astype_len (s : Series) : series_len (astype s) = series_len s.
Proof. destruct s; simpl; now rewrite length_map. Qed.

Lemma replace_named_on_label (c : string) (s v : Series)
    (cols : list (string * Series)) :
  (forall x, In x cols -> fst x = c -> snd x = s) ->
  forall g, g s = v -> replace_named c v cols = on_label c g cols.
Proof.
  intros H g Hg. unfold replace_named, on_label. apply map_ext_in.
  intros [k x] Hin. simpl. destruct (String.eqb k c) eqn:E; [|reflexivity].
  apply String.eqb_eq in E. pose proof (H (k, x) Hin E) as Hs. simpl in Hs.
  now rewrite Hs, Hg.
Qed.

Lemma columns_named_single_all (c k : string) (s : Series)
    (cols : list (string * Series)) :
  columns_named c cols = [(k, s)] ->
  forall x, In x cols -> fst x = c -> snd x = s.
Proof.
  intros H x Hin Hx.
  assert (Hf : In x (columns_named c cols)).
  { apply filter_In. split; [exact Hin|]. now apply String.eqb_eq. }
  rewrite H in Hf. destruct Hf as [<-|[]]. reflexivity.
Qed.

Lemma replace_positional_on_label (c : string) (g : Series -> Series)
    (cols : list (string * Series)) :
  replace_positional c (map g (map snd (columns_named c cols))) cols
  = on_label c g cols.
Proof.
  unfold columns_named, on_label.
  induction cols as [|[k v] cols IH]; simpl; [reflexivity|].
  destruct (String.eqb k c); simpl; now rewrite IH.
Qed.

Lemma replace_named_same (c k : string) (s : Series) (d : DataFrame) :
  columns_named c (columns d) = [(k, s)] ->
  mkDF (index_len d) (replace_named c s (columns d)) = d.
Proof.
  intros H.
  rewrite (replace_named_on_label c s s (columns d)
             (columns_named_single_all c k s _ H) (fun x => x) eq_refl).
  now rewrite on_label_id, frame_eta.
Qed.

Lemma set_series_step (d : DataFrame) (c k : string) (s v : Series) :
  columns_named c (columns d) = [(k, s)] ->
  match set_series d c v with Ok d' => d' | Raise _ => d end
  = mkDF (index_len d)
         (replace_named c (if Nat.eqb (series_len v) (index_len d) then v else s)
                        (columns d)).
Proof.
  intros H. unfold set_series. rewrite H.
  destruct (Nat.eqb (series_len v) (index_len d)); [reflexivity|].
  symmetry. now apply (replace_named_same c k).
Qed.

(** One turn of the loop, under the reference instance, column by
    column. *)
Lemma step_frame_turn (d : DataFrame) (c : string) :
  @step_frame PDref d c
  = mkDF (index_len d)
         (on_label c (turn (index_len d) (columns d) c) (columns d)).
Proof.
  unfold step_frame, converted, label_step, getitem.
  destruct (columns_named c (columns d)) as [|[k s] [|y rest]] eqn:E.
  - cbn [result_bind]. now rewrite on_label_id, frame_eta.
  - cbn [result_bind infer_dtype pandas_ref infer_dtype_ref].
    rewrite <- (replace_named_on_label c s (coerce (index_len d) s) (columns d)
                  (columns_named_single_all c k s _ E)
                  (coerce (index_len d)) eq_refl).
    unfold coerced.
    destruct (String.eqb (infer_dtype_series s) "integer").
    { cbn [to_numeric pandas_ref to_numeric_ref].
      destruct (to_numeric_convert s) as [s'|e]; cbn [result_bind];
        [|symmetry; now apply (replace_named_same c k)].
      cbn [setitem setitem_ref]. now apply set_series_step with (k := k). }
    destruct (String.eqb (infer_dtype_series s) "floating").
    { cbn [to_numeric pandas_ref to_numeric_ref].
      destruct (to_numeric_convert s) as [s'|e]; cbn [result_bind];
        [|symmetry; now apply (replace_named_same c k)].
      cbn [setitem setitem_ref]. now apply set_series_step with (k := k). }
    destruct (String.eqb (infer_dtype_series s) "string").
    { cbn [astype_str pandas_ref astype_str_ref result_bind setitem setitem_ref].
      now apply set_series_step with (k := k). }
    symmetry. now apply (replace_named_same c k).
  - cbn [result_bind infer_dtype pandas_ref infer_dtype_ref].
    change (String.eqb "string" "integer") with false.
    change (String.eqb "string" "floating") with false.
    change (String.eqb "string" "string") with true.
    cbn [astype_str pandas_ref astype_str_ref result_bind setitem setitem_ref].
    rewrite Nat.eqb_refl. cbn [negb orb].
    assert (Hwf : forallb (fun x => Nat.eqb (series_len (snd x)) (index_len d))
                    (map (fun x => (fst x, astype (snd x))) ((k, s) :: y :: rest))
                  = forallb (fun x => Nat.eqb (series_len (snd x)) (index_len d))
                      ((k, s) :: y :: rest)).
    { generalize ((k, s) :: y :: rest). intros l.
      induction l as [|x l IH]; [reflexivity|].
      cbn [map forallb snd]. now rewrite astype_len, IH. }
    rewrite Hwf.
    destruct (forallb _ ((k, s) :: y :: rest)) eqn:W; cbn [negb].
    + rewrite E. cbn [map length].
      rewrite length_map, Nat.eqb_refl.
      rewrite <- (replace_positional_on_label c astype (columns d)), E.
      rewrite !map_map. reflexivity.
    + now rewrite on_label_id, frame_eta.
Qed.

Lemma on_label_labels (c : string) (g : Series -> Series)
    (cols : list (string * Series)) :
  map fst (on_label c g cols) = map fst cols.
Proof.
  unfold on_label. rewrite map_map. apply map_ext.
  intros [k v]. simpl. now destruct (String.eqb k c).
Qed.

Lemma columns_named_on_label_other (c c' : string) (g : Series -> Series)
    (cols : list (string * Series)) :
  c' <> c -> columns_named c' (on_label c g cols) = columns_named c' cols.
Proof.
  intros Hne. unfold columns_named, on_label.
  induction cols as [|[k v] cols IH]; simpl; [reflexivity|].
  destruct (String.eqb k c) eqn:E; simpl; rewrite IH; [|reflexivity].
  apply String.eqb_eq in E. subst k.
  destruct (String.eqb c c') eqn:E'; [|reflexivity].
  apply String.eqb_eq in E'. congruence.
Qed.

Lemma columns_named_on_label_same (c : string) (g : Series -> Series)
    (cols : list (string * Series)) :
  columns_named c (on_label c g cols)
  = map (fun x => (fst x, g (snd x))) (columns_named c cols).
Proof.
  unfold columns_named, on_label.
  induction cols as [|[k v] cols IH]; simpl; [reflexivity|].
  destruct (String.eqb k c) eqn:E; simpl; rewrite ?E; simpl; now rewrite IH.
Qed.

(** The turn for a label does not change what the turn for any label
    does. *)
Lemma turn_invariant (n : nat) (cols : list (string * Series)) (c c' : string)
    (s : Series) :
  turn n (on_label c (turn n cols c) cols) c' s = turn n cols c' s.
Proof.
  destruct (String.eqb c' c) eqn:Ec.
  - apply String.eqb_eq in Ec. subst c'.
    unfold label_step at 1 3. rewrite columns_named_on_label_same.
    unfold label_step.
    destruct (columns_named c cols) as [|x [|y rest]] eqn:E; try reflexivity.
    destruct (forallb _ (x :: y :: rest)) eqn:W.
    + assert (W' : forallb (fun x0 => Nat.eqb (series_len (snd x0)) n)
                     (map (fun x0 => (fst x0, astype (snd x0))) (x :: y :: rest))
                   = true).
      { rewrite <- W. generalize (x :: y :: rest). intros l.
        induction l as [|z l IH]; [reflexivity|].
        cbn [map forallb snd]. now rewrite astype_len, IH. }
      cbn [map] in W' |- *. now rewrite W'.
    + assert (W' : forallb (fun x0 => Nat.eqb (series_len (snd x0)) n)
                     (map (fun x0 => (fst x0, snd x0)) (x :: y :: rest))
                   = false).
      { rewrite <- W. generalize (x :: y :: rest). intros l.
        induction l as [|z l IH]; [reflexivity|].
        cbn [map forallb snd]. now rewrite IH. }
      cbn [map] in W' |- *. now rewrite W'.
  - unfold label_step at 1 3.
    rewrite columns_named_on_label_other; [reflexivity|].
    intros ->. now rewrite String.eqb_refl in Ec.
Qed.

(** The loop over the labels [ls], column by column; the turns stay those
    of the table the loop started on. *)
Lemma fold_step_columns (n : nat) (cols0 : list (string * Series))
    (ls : list string) :
  forall cols : list (string * Series),
    (forall c s, turn n cols c s = turn n cols0 c s) ->
    fold_left (@step_frame PDref) ls (mkDF n cols)
    = mkDF n (map (fun x => fold_left (cturn n cols0) ls x) cols)
    /\ (forall c s,
          turn n (map (fun x => fold_left (cturn n cols0) ls x) cols) c s
          = turn n cols0 c s).
Proof.
  induction ls as [|c ls IH]; intros cols Hinv.
  - simpl. rewrite map_id. split; [reflexivity|exact Hinv].
  - cbn [fold_left]. rewrite step_frame_turn. cbn [index_len columns].
    assert (HS : on_label c (turn n cols c) cols
                 = map (fun x => cturn n cols0 x c) cols).
    { unfold on_label, col_turn. apply map_ext. intros [k v]. simpl.
      now rewrite Hinv. }
    assert (Hinv' : forall c' s,
               turn n (on_label c (turn n cols c) cols) c' s = turn n cols0 c' s).
    { intros c' s. now rewrite turn_invariant. }
    destruct (IH _ Hinv') as [E I]. rewrite E. rewrite HS in *.
    rewrite map_map in *. split; [reflexivity|exact I].
Qed.

Lemma col_turn_fold (n : nat) (cols0 : list (string * Series)) (l : string)
    (ls : list string) :
  forall s : Series,
    fold_left (cturn n cols0) ls (l, s)
    = (l, Nat.iter (length (List.filter (String.eqb l) ls)) (turn n cols0 l) s).
Proof.
  induction ls as [|c ls IH]; intros s; [reflexivity|].
  cbn [fold_left List.filter]. unfold col_turn at 2. cbn [fst snd].
  destruct (String.eqb l c) eqn:E.
  - apply String.eqb_eq in E. subst c. rewrite IH.
    cbn [length]. now rewrite Nat.iter_succ_r.
  - now rewrite IH.
Qed.

Lemma label_count (l : string) (cols : list (string * Series)) :
  length (List.filter (String.eqb l) (map fst cols))
  = length (columns_named l cols).
Proof.
  unfold columns_named. induction cols as [|[k v] cols IH]; [reflexivity|].
  cbn [map List.filter fst]. rewrite (String.eqb_sym l k).
  destruct (String.eqb k l); cbn [length]; now rewrite IH.
Qed.

Lemma iter_idempotent {A} (g : A -> A) (m : nat) (a : A) :
  (forall t, g (g t) = g t) ->
  Nat.iter m g (Nat.iter m g a) = Nat.iter m g a.
Proof.
  intros Hg. destruct m as [|m]; [reflexivity|].
  assert (H : forall k b, Nat.iter (S k) g (g b) = Nat.iter (S k) g b).
  { induction k as [|k IHk]; intros b; simpl in *; [apply Hg|]. now rewrite IHk. }
  assert (H1 : forall k b, Nat.iter (S k) g b = g b).
  { induction k as [|k IHk]; intros b; [reflexivity|].
    change (Nat.iter (S (S k)) g b) with (g (Nat.iter (S k) g b)).
    now rewrite IHk. }
  now rewrite !H1.
Qed.

(** *** A converted column is settled *)

Lemma astype_idempotent (s : Series) : astype (astype s) = astype s.
Proof.
  unfold astype_str_series. f_equal.
  destruct s; rewrite map_map; apply map_ext; reflexivity.
Qed.

Lemma astype_all_str (s : Series) :
  exists l, astype s = ObjectSeries l /\ forallb is_str l = true.
Proof.
  unfold astype_str_series. eexists. split; [reflexivity|].
  destruct s;
    match goal with |- forallb _ (map _ ?l) = true => induction l; simpl; auto end.
Qed.

Lemma infer_objects_integer (l : list pyobj) :
  infer_dtype_objects l = "integer" ->
  forallb (fun o => is_int o || is_missing o) l = true.
Proof.
  unfold infer_dtype_objects.
  destruct (List.find _ l) as [[z|x|t|b|]|]; try discriminate;
    repeat match goal with
           | |- context [if ?b then _ else _] => destruct b eqn:?
           end;
    try discriminate; reflexivity.
Qed.

Lemma integer_objects (vals : list pyobj) :
  infer_dtype_series (ObjectSeries vals) = "integer" ->
  forall o, In o vals -> is_missing o = true \/ is_int o = true.
Proof.
  intros H o Hin. simpl in H. apply infer_objects_integer in H.
  rewrite forallb_forall in H. specialize (H o Hin).
  apply orb_true_iff in H. tauto.
Qed.

Lemma floats_whole (vals : list pyobj) :
  (forall o, In o vals -> is_missing o = true \/ is_int o = true) ->
  forall floats, map_result float_of_obj vals = Ok floats ->
                 List.Forall whole_or_nan floats.
Proof.
  induction vals as [|o vals IH]; intros H floats; simpl.
  - intros [= <-]. constructor.
  - destruct (float_of_obj o) as [x|e] eqn:Ex; [|discriminate]. simpl.
    destruct (map_result float_of_obj vals) as [xs|e]; [|discriminate]. simpl.
    intros [= <-]. constructor.
    + destruct (H o (or_introl eq_refl)) as [Hm|Hi].
      * destruct o; simpl in *; try discriminate.
        -- injection Ex as <-. now left.
        -- injection Ex as <-. now left.
      * destruct o; simpl in *; try discriminate.
        unfold float_of_int in Ex.
        destruct (PrimFloat.is_infinity (float_of_Z z)); [discriminate|].
        injection Ex as <-. right. now exists z.
    + apply IH; [|reflexivity]. intros o' Ho'. apply H. now right.
Qed.

Lemma str_strs (l : list pyobj) :
  forallb is_str l = true ->
  map (fun o => PyStr (str_of_obj float_repr o)) l = l.
Proof.
  induction l as [|o l IH]; simpl; [reflexivity|].
  destruct o; simpl; try discriminate. intros H. now rewrite IH.
Qed.

Lemma strs_present (l : list pyobj) :
  forallb is_str l = true ->
  forallb (fun o => is_str o || is_missing o) l = true
  /\ List.find (fun o => negb (is_missing o)) l = hd_error l.
Proof.
  intros H. split.
  - rewrite forallb_forall in H. apply forallb_forall. intros o Ho.
    now rewrite (H o Ho).
  - destruct l as [|o l]; [reflexivity|]. destruct o; try discriminate.
    reflexivity.
Qed.

Lemma infer_strs (l : list pyobj) :
  forallb is_str l = true ->
  infer_dtype_objects l = "empty" \/ infer_dtype_objects l = "string".
Proof.
  intros H. destruct (strs_present l H) as [Ha Hf].
  unfold infer_dtype_objects. rewrite Hf.
  destruct l as [|o l]; [now left|]. right.
  destruct o; try discriminate. cbn [hd_error]. now rewrite Ha.
Qed.

Lemma stable_settled (n : nat) (v : Series) :
  stable v -> series_values (coerce n v) = series_values v.
Proof.
  destruct v as [w l|[|] l|l|l|l]; intros H; unfold coerced;
    cbn [infer_dtype_series to_numeric_convert].
  - change (String.eqb "integer" "integer") with true. cbn iota.
    unfold downcast_integer.
    destruct (List.find _ _); [|now destruct (Nat.eqb _ n)].
    now destruct (Nat.eqb _ n).
  - change (String.eqb "floating" "integer") with false.
    change (String.eqb "floating" "floating") with true. cbn iota.
    cbn [downcast_float]. now destruct (Nat.eqb _ n).
  - change (String.eqb "floating" "integer") with false.
    change (String.eqb "floating" "floating") with true. cbn iota.
    cbn [downcast_float]. cbn [stable_form] in H.
    destruct (allclose (map astype_float32 l) l) eqn:A;
      [|now destruct (Nat.eqb _ n)].
    destruct H as [H|H]; [discriminate|].
    destruct (Nat.eqb _ n); [|reflexivity]. cbn [series_values]. now rewrite H.
  - reflexivity.
  - reflexivity.
  - cbn [stable_form] in H.
    destruct (infer_strs l H) as [E|E]; rewrite E; [reflexivity|].
    change (String.eqb "string" "integer") with false.
    change (String.eqb "string" "floating") with false.
    change (String.eqb "string" "string") with true. cbn iota.
    unfold astype_str_series. rewrite (str_strs l H).
    now destruct (Nat.eqb _ n).
Qed.

Lemma convert_each_shape (vals : list pyobj) (s' : Series) :
  convert_each vals = Ok s' ->
  s' = ObjectSeries vals
  \/ (exists l, s' = FloatSeries F64 l /\ map_result float_of_obj vals = Ok l)
  \/ (exists w l, s' = IntSeries w l)
  \/ (exists l, s' = BoolSeries l).
Proof.
  unfold convert_each.
  destruct (map_result float_of_obj vals) as [floats|e]; [|discriminate].
  cbn [result_bind].
  repeat match goal with
         | |- context [if ?b then _ else _] => destruct b
         end;
    intros [= <-]; eauto 6.
Qed.

Lemma convert_objects_shape (vals : list pyobj) (s' : Series) :
  convert_objects vals = Ok s' ->
  s' = ObjectSeries vals
  \/ (exists l, s' = FloatSeries F64 l /\ map_result float_of_obj vals = Ok l)
  \/ (exists w l, s' = IntSeries w l)
  \/ (exists l, s' = BoolSeries l).
Proof.
  unfold convert_objects.
  destruct vals as [|[z|x|t|b|] rest];
    try apply convert_each_shape.
  destruct (mapM as_int64 (PyInt z :: rest)) as [ints|];
    [|apply convert_each_shape].
  intros [= <-]. eauto 6.
Qed.

(** The float32 cast is exact on whole numbers whenever [np.allclose]
    accepts it: below 2^24 every whole number is a float32, and from there
    on a float32 is a whole number, so that an inexact cast is off by one
    at least. *)
Hypothesis astype_float32_exact :
  forall l : list float,
    List.Forall whole_or_nan l ->
    allclose (map astype_float32 l) l = true ->
    map astype_float32 l = l.

Lemma downcast_integer_stable (s' : Series) :
  match s' with
  | FloatSeries F64 l => List.Forall whole_or_nan l
  | FloatSeries F32 _ => True
  | ObjectSeries _ => False
  | _ => True
  end ->
  stable (downcast_integer s').
Proof.
  destruct s' as [w l|[|] l|l|l|l]; intros H; unfold downcast_integer.
  - now destruct (List.find _ _).
  - destruct (mapM trunc_float l); [|exact I]. now destruct (List.find _ _).
  - destruct (mapM trunc_float l) as [zs|].
    + destruct (List.find _ _); [exact I|].
      cbn [stable_form].
      destruct (allclose (map astype_float32 l) l) eqn:A; [right|now left].
      now apply astype_float32_exact.
    + cbn [stable_form].
      destruct (allclose (map astype_float32 l) l) eqn:A; [right|now left].
      now apply astype_float32_exact.
  - now destruct l.
  - exact I.
  - destruct H.
Qed.

Lemma downcast_float_stable (s' : Series) :
  match s' with ObjectSeries _ => False | _ => True end ->
  stable (downcast_float astype_float32 allclose s').
Proof.
  destruct s' as [w l|[|] l|l|l|l]; intros H; cbn [downcast_float];
    try exact I.
  - destruct (allclose (map astype_float32 l) l) eqn:A; [exact I|].
    cbn [stable_form]. now left.
  - destruct H.
Qed.

(** One turn leaves a column as it was or in a stable form. *)
Lemma coerce_cases (n : nat) (s : Series) :
  coerce n s = s \/ stable (coerce n s).
Proof.
  unfold coerced.
  destruct (String.eqb (infer_dtype_series s) "integer") eqn:Ti.
  { apply String.eqb_eq in Ti.
    destruct (to_numeric_convert s) as [s'|e] eqn:C; [|now left].
    destruct (Nat.eqb (series_len (downcast_integer s')) n); [|now left].
    destruct s as [w l|w l|l|l|l]; try discriminate Ti.
    - injection C as <-. right. now apply downcast_integer_stable.
    - cbn [to_numeric_convert] in C.
      destruct (convert_objects_shape l s' C)
        as [->|[(fl & -> & Hfl)|[(w & zs & ->)|(bs & ->)]]].
      + now left.
      + right. apply downcast_integer_stable.
        apply (floats_whole l (integer_objects l Ti) fl Hfl).
      + right. now apply downcast_integer_stable.
      + right. now apply downcast_integer_stable. }
  destruct (String.eqb (infer_dtype_series s) "floating") eqn:Tf.
  { destruct (to_numeric_convert s) as [s'|e] eqn:C; [|now left].
    destruct (Nat.eqb (series_len (downcast_float astype_float32 allclose s')) n);
      [|now left].
    destruct s as [w l|w l|l|l|l]; cbn [to_numeric_convert] in C.
    - injection C as <-. right. now apply downcast_float_stable.
    - injection C as <-. right. now apply downcast_float_stable.
    - injection C as <-. right. now apply downcast_float_stable.
    - injection C as <-. right. now apply downcast_float_stable.
    - destruct (convert_objects_shape l s' C)
        as [->|[(fl & -> & Hfl)|[(w & zs & ->)|(bs & ->)]]].
      + now left.
      + right. now apply downcast_float_stable.
      + right. now apply downcast_float_stable.
      + right. now apply downcast_float_stable. }
  destruct (String.eqb (infer_dtype_series s) "string"); [|now left].
  destruct (Nat.eqb (series_len (astype s)) n); [|now left].
  right. destruct (astype_all_str s) as (l & -> & Hl). exact Hl.
Qed.

(** A second turn does not change the values the first one left. *)
Lemma coerce_settled (n : nat) (s : Series) :
  series_values (coerce n (coerce n s)) = series_values (coerce n s).
Proof.
  destruct (coerce_cases n s) as [E|H].
  - now rewrite !E.
  - now apply stable_settled.
Qed.

(** The values after a second pass of the loop are those after the
    first. *)
Lemma second_pass_values (d : DataFrame) :
  let d1 := fold_left (@step_frame PDref) (column_labels d) d in
  let d2 := fold_left (@step_frame PDref) (column_labels d1) d1 in
  frame_values d2 = frame_values d1.
Proof.
  intros d1 d2. subst d1 d2. unfold column_labels.
  rewrite <- (frame_eta d). cbn [columns].
  set (n := index_len d). set (cols0 := columns d).
  destruct (fold_step_columns n cols0 (map fst cols0) cols0
              (fun _ _ => eq_refl)) as [E1 I1].
  rewrite E1. cbn [columns].
  assert (HL : map fst (map (fun x => fold_left (cturn n cols0) (map fst cols0) x)
                            cols0)
               = map fst cols0).
  { rewrite map_map. apply map_ext. intros [l s]. now rewrite col_turn_fold. }
  rewrite HL.
  destruct (fold_step_columns n cols0 (map fst cols0) _ I1) as [E2 _].
  rewrite E2. unfold frame_values. cbn [columns].
  rewrite !map_map. apply map_ext. intros [l s].
  rewrite col_turn_fold. cbn [fst snd]. rewrite col_turn_fold. cbn [fst snd].
  f_equal. rewrite label_count. unfold label_step.
  destruct (columns_named l cols0) as [|x [|y rest]] eqn:E.
  - reflexivity.
  - cbn [length Nat.iter]. apply coerce_settled.
  - destruct (forallb _ (x :: y :: rest)).
    + rewrite iter_idempotent; [reflexivity|apply astype_idempotent].
    + rewrite iter_idempotent; reflexivity.
Qed.

(** C4.  Applying [apply_inferred_types] a second time leaves every column
    with the values the first application left. *)
Theorem apply_inferred_types_idempotent (r : nat) (w : World) (d : DataFrame) :
  heap w !! r = Some d ->
  exists w1 w2 d1 d2,
    @apply_inferred_types PDref r w = (Ok r, w1)
    /\ heap w1 !! r = Some d1
    /\ @apply_inferred_types PDref r w1 = (Ok r, w2)
    /\ heap w2 !! r = Some d2
    /\ frame_values d2 = frame_values d1.
Proof.
  intros Hr.
  destruct (@apply_inferred_types_frames PDref r w d Hr) as (w1 & E1 & H1).
  destruct (@apply_inferred_types_frames PDref r w1 _ H1) as (w2 & E2 & H2).
  exists w1, w2. eexists. eexists.
  split; [exact E1|]. split; [exact H1|]. split; [exact E2|].
  split; [exact H2|]. apply second_pass_values.
Qed.

End TurnOnColumns.

Section IdempotenceWitness.
Import WikiScraper Examples.

Lemma apply_inferred_types_idempotent_witness :
  exists w1 w2 d1 d2,
    @apply_inferred_types pandas_exact 0%nat (world_of gappy_frame) = (Ok 0%nat, w1)
    /\ heap w1 !! 0%nat = Some d1
    /\ @apply_inferred_types pandas_exact 0%nat w1 = (Ok 0%nat, w2)
    /\ heap w2 !! 0%nat = Some d2
    /\ frame_values d2 = frame_values d1.
Proof.
  apply (apply_inferred_types_idempotent
           (fun x => x) (fun _ _ => true)
           (fun _ => "<float>") (fun _ => "<date>")
           (fun _ s => Ok (Z.of_nat (String.length s)))
           (fun _ => "<frame>")
           (fun _ => Ok [population_frame])
           (fun l _ _ => map_id l)
           0%nat (world_of gappy_frame) gappy_frame).
  reflexivity.
Defined.

End IdempotenceWitness.

(* ===================================================================== *)
(** * Further properties *)
(* ===================================================================== *)

(** ** The scraper: what a call leaves behind *)

Section ScraperEffects.
Context `{PD : Pandas} `{WB : Web}.
Import WikiScraper.

(** The body of the [try]: it returns a new object and leaves the rest of
    the world alone, or falls through or raises with the world as it
    was. *)
Lemma scrape_try_outcome (url : string) (w : World) :
  (exists d, scrape_try url w
             = (Ok (Some (fresh (dom (heap w)))),
                mkWorld (<[fresh (dom (heap w)) := d]> (heap w)) (log w)
                        (rng_pos w)))
  \/ scrape_try url w = (Ok None, w)
  \/ (exists e, scrape_try url w = (Raise e, w)).
Proof.
  unfold scrape_try.
  destruct (requests_get url) as [content|e]; [|right; right; eauto].
  rewrite bind_lift_ok.
  destruct (BeautifulSoup content "html.parser") as [soup|e];
    [|right; right; eauto].
  rewrite bind_lift_ok.
  destruct (find soup "table" "wikitable") as [table|]; [|right; now left].
  destruct (tag_str table) as [markup|e]; [|right; right; eauto].
  rewrite bind_lift_ok.
  destruct (read_html markup) as [[|d ds]|e]; [right; right|left|right; right];
    eauto.
Qed.

(** X1.  A call of [scrape_wikipedia_demographics] either returns a new
    dataset, at an identity no object had, with every existing object, the
    log and the generator as they were; or it returns [None], with every
    object as it was and at most one record, an ERROR, added to the log. *)
Theorem scrape_effect (url : string) (w : World) :
  (exists d, scrape_wikipedia_demographics url w
             = (Ok (Some (fresh (dom (heap w)))),
                mkWorld (<[fresh (dom (heap w)) := d]> (heap w)) (log w)
                        (rng_pos w)))
  \/ scrape_wikipedia_demographics url w = (Ok None, w)
  \/ (exists e, scrape_wikipedia_demographics url w
                = (Ok None, logged w ERROR (scrape_error e))).
Proof.
  unfold scrape_wikipedia_demographics, bind, try_except.
  destruct (scrape_try_outcome url w) as [[d E]|[E|[e E]]]; rewrite E.
  - left. eauto.
  - right. now left.
  - right. right. exists e. reflexivity.
Qed.

(** X2.  A marked table is no promise of a dataset: when [str(table)] or
    the table parser raises, or the parser returns no table, the call
    returns [None] and logs that exception, and allocates nothing. *)
Theorem scrape_table_unparsed
    (url : string) (w : World) (content : string) (soup table : node) :
  requests_get url = Ok content ->
  BeautifulSoup content "html.parser" = Ok soup ->
  find soup "table" "wikitable" = Some table ->
  (forall e, tag_str table = Raise e ->
     scrape_wikipedia_demographics url w
     = (Ok None, logged w ERROR (scrape_error e)))
  /\ (forall markup e, tag_str table = Ok markup -> read_html markup = Raise e ->
        scrape_wikipedia_demographics url w
        = (Ok None, logged w ERROR (scrape_error e)))
  /\ (forall markup, tag_str table = Ok markup -> read_html markup = Ok [] ->
        scrape_wikipedia_demographics url w
        = (Ok None,
           logged w ERROR
             "An error occurred while scraping: list index out of range")).
Proof.
  intros Hc Hs Hf.
  unfold scrape_wikipedia_demographics, scrape_try, bind, try_except, lift.
  rewrite Hc; cbn. rewrite Hs, Hf; cbn.
  split; [|split].
  - intros e He. rewrite He. reflexivity.
  - intros markup e Hm Hr. rewrite Hm; cbn. rewrite Hr. reflexivity.
  - intros markup Hm Hr. rewrite Hm; cbn. rewrite Hr. reflexivity.
Qed.

(** X3.  A returned dataset always comes from a marked table: when the call
    returns a dataset, the document has a [table] tag with the class marker
    among its descendants, and the dataset is the first table the parser
    made of that tag's markup. *)
Theorem scrape_dataset_origin
    (url : string) (w w' : World) (content : string) (soup : node) (r : nat) :
  requests_get url = Ok content ->
  BeautifulSoup content "html.parser" = Ok soup ->
  scrape_wikipedia_demographics url w = (Ok (Some r), w') ->
  exists table markup d ds,
    In table (descendants soup)
    /\ tag_matches "table" "wikitable" table = true
    /\ tag_str table = Ok markup
    /\ read_html markup = Ok (d :: ds)
    /\ heap w' !! r = Some d.
Proof.
  intros Hc Hs.
  unfold scrape_wikipedia_demographics, scrape_try, bind, try_except, lift.
  rewrite Hc; cbn. rewrite Hs; cbn.
  destruct (find soup "table" "wikitable") as [table|] eqn:Hf; [|discriminate].
  apply find_some in Hf as [Hin Hm].
  destruct (tag_str table) as [markup|e] eqn:Ht; [|discriminate]. cbn.
  destruct (read_html markup) as [[|d ds]|e] eqn:Hr; try discriminate. cbn.
  intros [= <- <-]. exists table, markup, d, ds.
  repeat (split; [assumption|]). cbn. apply lookup_insert_eq.
Qed.

End ScraperEffects.

Section ScraperEffectsWitnesses.
Import WikiScraper Examples MoreExamples.

Lemma scrape_table_unparsed_witness :
  @scrape_wikipedia_demographics pandas_no_tables web_up url empty_world
  = (Ok None,
     logged empty_world ERROR "An error occurred while scraping: No tables found").
Proof.
  apply (proj1 (proj2 (@scrape_table_unparsed pandas_no_tables web_up url
                         empty_world "<html>" page
                         (Tag "table" ["wikitable"; "sortable"]
                              [NavigableString "b"])
                         eq_refl eq_refl eq_refl))
           "<table>" (ValueError "No tables found")); reflexivity.
Defined.

Lemma scrape_dataset_origin_witness :
  exists table markup d ds,
    In table (descendants page)
    /\ tag_matches "table" "wikitable" table = true
    /\ @tag_str web_up table = Ok markup
    /\ @read_html pandas_demo markup = Ok (d :: ds)
    /\ heap (snd (@scrape_wikipedia_demographics pandas_demo web_up url
                    empty_world)) !! 0%nat = Some d.
Proof.
  apply (@scrape_dataset_origin pandas_demo web_up url empty_world
           (snd (@scrape_wikipedia_demographics pandas_demo web_up url
                   empty_world))
           "<html>" page 0%nat); reflexivity.
Defined.

End ScraperEffectsWitnesses.

(** ** Coercion: the log, the shape, the dtypes *)

Section CoercionLog.
Context `{PD : Pandas}.
Import WikiScraper.




End CoercionLog.

Section CoercionShape.
Import WikiScraper PandasRef.

Variable astype_float32 : float -> float.
Variable allclose : list float -> list float -> bool.
Variable float_repr : float -> string.
Variable datetime_repr : Z -> string.
Variable parse_datetime : string -> string -> result Z.
Variable frame_repr : DataFrame -> string.
Variable parse_tables : string -> result (list DataFrame).

Local Abbreviation PDref :=
  (pandas_ref astype_float32 allclose float_repr datetime_repr parse_datetime
              frame_repr parse_tables).
Local Abbreviation astype := (astype_str_series float_repr datetime_repr).
Local Abbreviation coerce := (coerced astype_float32 allclose float_repr datetime_repr).
Local Abbreviation turn := (label_step astype_float32 allclose float_repr datetime_repr).

(** The whole loop, column by column: a column goes through the turn of
    its label once for every column that carries the label. *)
Lemma pass_columns (d : DataFrame) :
  fold_left (@step_frame PDref) (column_labels d) d
  = mkDF (index_len d)
         (map (fun x =>
                 (fst x,
                  Nat.iter (length (columns_named (fst x) (columns d)))
                           (turn (index_len d) (columns d) (fst x)) (snd x)))
              (columns d)).
Proof.
  unfold column_labels. rewrite <- (frame_eta d) at 2.
  destruct (fold_step_columns astype_float32 allclose float_repr datetime_repr
              parse_datetime frame_repr parse_tables
              (index_len d) (columns d) (map fst (columns d)) (columns d)
              (fun _ _ => eq_refl)) as [E _].
  rewrite E. f_equal. apply map_ext. intros [l s].
  rewrite col_turn_fold, label_count. reflexivity.
Qed.

Lemma coerced_len (n : nat) (s : Series) :
  series_len s = n -> series_len (coerce n s) = n.
Proof.
  intros H. unfold coerced.
  repeat match goal with
         | |- context [String.eqb ?a ?b] => destruct (String.eqb a b)
         | |- context [to_numeric_convert ?x] => destruct (to_numeric_convert x)
         | |- context [Nat.eqb ?a n] => destruct (Nat.eqb a n) eqn:?
         end; auto; now apply Nat.eqb_eq.
Qed.

Lemma turn_len (n : nat) (cols : list (string * Series)) (c : string)
    (s : Series) :
  series_len s = n -> series_len (turn n cols c s) = n.
Proof.
  intros H. unfold label_step.
  destruct (columns_named c cols) as [|x [|y rest]]; [exact H| |].
  - now apply coerced_len.
  - destruct (forallb _ _); [|exact H].
    unfold astype_str_series. destruct s; cbn in *; now rewrite length_map.
Qed.

Lemma iter_len (n m : nat) (g : Series -> Series) (s : Series) :
  (forall t, series_len t = n -> series_len (g t) = n) ->
  series_len s = n -> series_len (Nat.iter m g s) = n.
Proof. intros Hg Hs. induction m as [|m IH]; cbn; auto. Qed.

(** X5.  Coercion keeps the shape of the dataset: after
    [apply_inferred_types] the dataset has the number of rows it had and
    the same column labels in the same order; no column is added, dropped,
    renamed or moved, and columns of the table's length stay so. *)
Theorem apply_inferred_types_shape (r : nat) (w : World) (d : DataFrame) :
  heap w !! r = Some d ->
  exists w' d',
    @apply_inferred_types PDref r w = (Ok r, w')
    /\ heap w' !! r = Some d'
    /\ index_len d' = index_len d
    /\ column_labels d' = column_labels d
    /\ (List.Forall (fun c => series_len (snd c) = index_len d) (columns d) ->
        List.Forall (fun c => series_len (snd c) = index_len d') (columns d')).
Proof.
  intros Hr.
  destruct (@apply_inferred_types_frames PDref r w d Hr) as (w' & E & H').
  rewrite pass_columns in H'.
  eexists w', _. split; [exact E|]. split; [exact H'|].
  cbn [index_len columns]. split; [reflexivity|]. split.
  - unfold column_labels. cbn [columns]. rewrite map_map. reflexivity.
  - intros Hwf. apply List.Forall_forall. intros c Hc.
    apply in_map_iff in Hc as (x & <- & Hx). cbn [snd].
    rewrite List.Forall_forall in Hwf.
    apply iter_len; [intros t; apply turn_len|now apply Hwf].
Qed.

Lemma columns_named_map (c : string) (g : string * Series -> Series)
    (cols : list (string * Series)) :
  columns_named c (map (fun x => (fst x, g x)) cols)
  = map (fun x => (fst x, g x)) (columns_named c cols).
Proof.
  unfold columns_named. induction cols as [|[k v] cols IH]; [reflexivity|].
  cbn [map List.filter fst]. destruct (String.eqb k c); cbn [map]; now rewrite IH.
Qed.

(** After the loop, the column that alone carries its label is the
    conversion of what it was. *)
Lemma pass_single (r : nat) (w : World) (d : DataFrame) (c k : string)
    (s : Series) :
  heap w !! r = Some d ->
  columns_named c (columns d) = [(k, s)] ->
  exists w' d',
    @apply_inferred_types PDref r w = (Ok r, w')
    /\ heap w' !! r = Some d'
    /\ columns_named c (columns d') = [(k, coerce (index_len d) s)].
Proof.
  intros Hr Hc.
  destruct (@apply_inferred_types_frames PDref r w d Hr) as (w' & E & H').
  rewrite pass_columns in H'.
  eexists w', _. split; [exact E|]. split; [exact H'|].
  cbn [columns].
  rewrite (columns_named_map c
             (fun x => Nat.iter (length (columns_named (fst x) (columns d)))
                                (turn (index_len d) (columns d) (fst x)) (snd x))).
  rewrite Hc. cbn [map fst snd].
  assert (Hk : k = c).
  { assert (Hin : In (k, s) (columns_named c (columns d))) by (rewrite Hc; now left).
    apply filter_In in Hin as [_ Hk]. now apply String.eqb_eq in Hk. }
  subst k. rewrite Hc. cbn [length Nat.iter]. unfold label_step. now rewrite Hc.
Qed.

Lemma find_first_fit (p : IntWidth -> bool) (w : IntWidth) :
  let t := match List.find p (int_candidates (int_size w)) with
           | Some t => t
           | None => w
           end in
  (t = w \/ (In t [I8; I16; I32; I64] /\ p t = true))
  /\ (int_size t <= int_size w)%nat
  /\ (p w = true -> p t = true)
  /\ (forall t', In t' [I8; I16; I32; I64] ->
                 (int_size t' < int_size t)%nat -> p t' = false).
Proof.
  destruct w; cbn;
    destruct (p I8) eqn:E8; cbn;
    try (destruct (p I16) eqn:E16; cbn);
    try (destruct (p I32) eqn:E32; cbn);
    try (destruct (p I64) eqn:E64; cbn);
    (split; [first [now left | right; split; [tauto|assumption]]|]);
    (split; [lia|split; [congruence|]]);
    intros t' [<-|[<-|[<-|[<-|[]]]]]; cbn; intros; try lia; assumption.
Qed.

(** X6.  An integer column that alone carries its label comes out of
    [apply_inferred_types] with the values it had, stored with the
    narrowest signed integer dtype that holds them all, or with its own
    dtype when no signed dtype as narrow holds them (a uint64 column above
    the int64 range stays uint64). *)
Theorem apply_inferred_types_narrows_integers
    (r : nat) (w : World) (d : DataFrame) (c : string) (wd : IntWidth)
    (vals : list Z) :
  heap w !! r = Some d ->
  columns_named c (columns d) = [(c, IntSeries wd vals)] ->
  length vals = index_len d ->
  exists w' d' t,
    @apply_inferred_types PDref r w = (Ok r, w')
    /\ heap w' !! r = Some d'
    /\ columns_named c (columns d') = [(c, IntSeries t vals)]
    /\ (t = wd \/ (In t [I8; I16; I32; I64]
                   /\ forallb (in_range t) vals = true))
    /\ (int_size t <= int_size wd)%nat
    /\ (forallb (in_range wd) vals = true -> forallb (in_range t) vals = true)
    /\ (forall t', In t' [I8; I16; I32; I64] ->
                   (int_size t' < int_size t)%nat ->
                   forallb (in_range t') vals = false).
Proof.
  intros Hr Hc Hlen.
  destruct (pass_single r w d c c _ Hr Hc) as (w' & d' & E & H' & Hcol).
  pose proof (find_first_fit (fun t => forallb (in_range t) vals) wd) as Hfit.
  cbn zeta in Hfit.
  exists w', d'.
  exists (match List.find (fun t => forallb (in_range t) vals)
                         (int_candidates (int_size wd)) with
          | Some t => t
          | None => wd
          end).
  split; [exact E|]. split; [exact H'|]. split; [|exact Hfit].
  rewrite Hcol. do 2 f_equal. unfold coerced.
  cbn [infer_dtype_series to_numeric_convert].
  change (String.eqb "integer" "integer") with true. cbn iota.
  unfold downcast_integer.
  destruct (List.find _ _); cbn [series_len]; now rewrite Hlen, Nat.eqb_refl.
Qed.

(** *** Object columns of Python ints *)

Lemma int_objects_inferred (zs : list Z) :
  zs <> [] -> infer_dtype_objects (map PyInt zs) = "integer".
Proof.
  destruct zs as [|z zs]; [congruence|]. intros _.
  unfold infer_dtype_objects. cbn [map List.find is_missing negb].
  assert (H : forallb (fun o => is_int o || is_missing o) (map PyInt (z :: zs))
              = true).
  { apply forallb_forall. intros o Ho. apply in_map_iff in Ho as (y & <- & _).
    reflexivity. }
  cbn [map] in H. now rewrite H.
Qed.

Lemma int_objects_cast (zs : list Z) :
  forallb (in_range I64) zs = true ->
  mapM as_int64 (map PyInt zs) = Some zs.
Proof.
  induction zs as [|z zs IH]; [reflexivity|].
  cbn [forallb map]. intros H. apply andb_prop in H as [Hz Hzs].
  cbn [mapM as_int64]. rewrite Hz. cbn. now rewrite (IH Hzs).
Qed.

(** An object column of Python ints, all within int64, converts to an
    integer column of the same values. *)
Lemma coerce_int_objects (n : nat) (zs : list Z) :
  zs <> [] ->
  length zs = n ->
  forallb (in_range I64) zs = true ->
  exists t, coerce n (ObjectSeries (map PyInt zs)) = IntSeries t zs.
Proof.
  intros Hne Hlen Hrange.
  assert (Hinf : infer_dtype_series (ObjectSeries (map PyInt zs)) = "integer")
    by now apply int_objects_inferred.
  assert (Hconv : to_numeric_convert (ObjectSeries (map PyInt zs))
                  = Ok (IntSeries I64 zs)).
  { cbn [to_numeric_convert]. unfold convert_objects.
    pose proof (int_objects_cast zs Hrange) as Hc.
    destruct zs as [|z zs]; [congruence|].
    cbn [map] in Hc |- *. now rewrite Hc. }
  unfold coerced. rewrite Hinf, Hconv.
  change (String.eqb "integer" "integer") with true. cbn iota.
  unfold downcast_integer.
  destruct (List.find _ _) as [t|]; cbn [series_len];
    rewrite Hlen, Nat.eqb_refl; eauto.
Qed.

(** X7.  The two passes classify differently, and coercion changes what
    inference says: an object column of Python ints (all within int64) is
    Object for [infer_data_types] before [apply_inferred_types] and
    Numeric after it. *)
Theorem coercion_changes_classification
    (r : nat) (w : World) (d : DataFrame) (c : string) (zs : list Z) :
  heap w !! r = Some d ->
  columns_named c (columns d) = [(c, ObjectSeries (map PyInt zs))] ->
  zs <> [] ->
  length zs = index_len d ->
  forallb (in_range I64) zs = true ->
  forallb (fun z => negb (PrimFloat.is_infinity (float_of_Z z))) zs = true ->
  In (c, "Object") (@inferred_items PDref d (column_labels d) [])
  /\ exists w' d',
       @apply_inferred_types PDref r w = (Ok r, w')
       /\ heap w' !! r = Some d'
       /\ In (c, "Numeric") (@inferred_items PDref d' (column_labels d') []).
Proof.
  intros Hr Hc Hne Hlen Hrange Hfin. split.
  - destruct (columns_named_single d c _ Hc) as [Hin G].
    destruct (@items_cover PDref d c Hin) as (Hi & _).
    unfold type_of in Hi. rewrite G in Hi.
    unfold inferred_type_of in Hi. cbn in Hi.
    destruct zs as [|z zs]; [congruence|]. exact Hi.
  - destruct (pass_single r w d c c _ Hr Hc) as (w' & d' & E & H' & Hcol).
    destruct (coerce_int_objects (index_len d) zs Hne Hlen Hrange)
      as [t Ht].
    rewrite Ht in Hcol.
    exists w', d'. split; [exact E|]. split; [exact H'|].
    destruct (columns_named_single d' c _ Hcol) as [Hin G].
    destruct (@items_cover PDref d' c Hin) as (Hi & _).
    unfold type_of in Hi. rewrite G in Hi. exact Hi.
Qed.

End CoercionShape.

Section CoercionShapeWitnesses.
Import WikiScraper Examples MoreExamples.


Lemma apply_inferred_types_shape_witness :
  exists w' d',
    @apply_inferred_types pandas_exact 0%nat (world_of gappy_frame) = (Ok 0%nat, w')
    /\ heap w' !! 0%nat = Some d'
    /\ index_len d' = 2%nat
    /\ column_labels d' = ["a"; "b"; "b"].
Proof.
  destruct (apply_inferred_types_shape
              (fun x => x) (fun _ _ => true)
              (fun _ => "<float>") (fun _ => "<date>")
              (fun _ s => Ok (Z.of_nat (String.length s)))
              (fun _ => "<frame>")
              (fun _ => Ok [population_frame])
              0%nat (world_of gappy_frame) gappy_frame eq_refl)
    as (w' & d' & E & H & I & L & _).
  exists w', d'. repeat split; assumption.
Defined.

Lemma apply_inferred_types_narrows_integers_witness :
  exists w' d',
    @apply_inferred_types pandas_demo 0%nat (world_of population_frame)
    = (Ok 0%nat, w')
    /\ heap w' !! 0%nat = Some d'
    /\ columns_named thousands (columns d')
       = [(thousands, IntSeries I16 [1000; 2000])].
Proof.
  destruct (apply_inferred_types_narrows_integers
              (fun x => x) (fun _ _ => false)
              (fun _ => "<float>") (fun _ => "<date>")
              (fun _ s => Ok (Z.of_nat (String.length s)))
              (fun _ => "<frame>")
              (fun _ => Ok [population_frame])
              0%nat (world_of population_frame) population_frame
              thousands I64 [1000; 2000] eq_refl eq_refl eq_refl)
    as (w' & d' & t & E & H & C & _ & _ & Hfit & Hmin).
  exists w', d'. split; [exact E|]. split; [exact H|].
  rewrite C. do 3 f_equal.
  specialize (Hfit eq_refl).
  assert (H16 : In I16 [I8; I16; I32; I64]) by (right; now left).
  destruct t; try reflexivity; try discriminate Hfit;
    discriminate (Hmin I16 H16 ltac:(cbn; lia)).
Defined.

Lemma coercion_changes_classification_witness :
  In ("n", "Object")
     (@inferred_items pandas_demo object_int_frame
        (column_labels object_int_frame) [])
  /\ exists w' d',
       @apply_inferred_types pandas_demo 0%nat (world_of object_int_frame)
       = (Ok 0%nat, w')
       /\ heap w' !! 0%nat = Some d'
       /\ In ("n", "Numeric")
             (@inferred_items pandas_demo d' (column_labels d') []).
Proof.
  apply (coercion_changes_classification
           (fun x => x) (fun _ _ => false)
           (fun _ => "<float>") (fun _ => "<date>")
           (fun _ s => Ok (Z.of_nat (String.length s)))
           (fun _ => "<frame>")
           (fun _ => Ok [population_frame])
           0%nat (world_of object_int_frame) object_int_frame "n" [1; 2]).
  - reflexivity.
  - reflexivity.
  - discriminate.
  - reflexivity.
  - reflexivity.
  - vm_compute. reflexivity.
Defined.

End CoercionShapeWitnesses.

(** ** Type inference: rows and labels, and the converse of the
    classification *)

Section InferenceRows.
Context `{PD : Pandas}.
Import WikiScraper.

Lemma items_keys (d : DataFrame) :
  map fst (inferred_items d (column_labels d) [])
  = first_occurrences (column_labels d).
Proof.
  rewrite keys_inferred_items by auto. simpl.
  induction (first_occurrences (column_labels d)) as [|x l IH];
    simpl; [reflexivity|]. now rewrite IH.
Qed.

Lemma first_occurrences_length (l : list string) :
  (length (first_occurrences l) <= length l)%nat.
Proof.
  induction l as [|x l IH]; cbn [first_occurrences length]; [lia|].
  pose proof (filter_length_le (fun y => negb (String.eqb y x))
                               (first_occurrences l)). lia.
Qed.

Lemma filter_all {A} (p : A -> bool) (l : list A) :
  length (List.filter p l) = length l -> forall y, In y l -> p y = true.
Proof.
  induction l as [|a l IH]; cbn [List.filter length]; [intros _ y []|].
  pose proof (filter_length_le p l) as Hle.
  destruct (p a) eqn:E; cbn [length]; intros H y [<-|Hy]; auto; lia.
Qed.

Lemma first_occurrences_full (l : list string) :
  length (first_occurrences l) = length l -> List.NoDup l.
Proof.
  induction l as [|x l IH]; cbn [first_occurrences length]; [constructor|].
  intros H.
  pose proof (filter_length_le (fun y => negb (String.eqb y x))
                               (first_occurrences l)) as H1.
  pose proof (first_occurrences_length l) as H2.
  assert (Hnd : List.NoDup l) by (apply IH; lia).
  constructor; [|exact Hnd].
  intros Hin. apply first_occurrences_In in Hin.
  assert (Hf : length (List.filter (fun y => negb (String.eqb y x))
                                   (first_occurrences l))
               = length (first_occurrences l)) by lia.
  pose proof (filter_all _ _ Hf x Hin) as Hx. cbn in Hx.
  now rewrite String.eqb_refl in Hx.
Qed.

Lemma first_occurrences_back (l : list string) (x : string) :
  In x (first_occurrences l) -> In x l.
Proof.
  induction l as [|y l IH]; cbn [first_occurrences]; [tauto|].
  intros [->|Hin]; [now left|]. right. apply IH.
  now apply filter_In in Hin as [Hin _].
Qed.

Lemma first_occurrences_distinct (l : list string) :
  List.NoDup (first_occurrences l).
Proof.
  induction l as [|x l IH]; cbn [first_occurrences]; constructor.
  - intros Hin. apply filter_In in Hin as [_ Hx].
    now rewrite String.eqb_refl in Hx.
  - now apply List.NoDup_filter.
Qed.

(** The labels kept are as many as the list has distinct entries. *)
Lemma first_occurrences_count (l : list string) :
  length (first_occurrences l) = length (nodup string_dec l).
Proof.
  apply Nat.le_antisymm; apply List.NoDup_incl_length.
  - apply first_occurrences_distinct.
  - intros x Hx. apply nodup_In. now apply first_occurrences_back.
  - apply List.NoDup_nodup.
  - intros x Hx. apply first_occurrences_In. now apply nodup_In in Hx.
Qed.

(** X8.  The table [infer_data_types] returns has as many rows as the input
    has distinct column labels: never more rows than the input has
    columns, and as many exactly when no label is carried by two
    columns. *)
Theorem infer_data_types_row_count (r : nat) (w : World) (d : DataFrame) :
  heap w !! r = Some d ->
  exists table,
    infer_data_types r w
    = (Ok (fresh (dom (heap w))),
       mkWorld (<[fresh (dom (heap w)) := table]> (heap w)) (log w) (rng_pos w))
    /\ index_len table = length (nodup string_dec (column_labels d))
    /\ (index_len table <= length (columns d))%nat
    /\ (index_len table = length (columns d) <-> List.NoDup (column_labels d)).
Proof.
  intros Hr.
  exists (frame_of_items (inferred_items d (column_labels d) [])
                         "Column" "Inferred Type").
  split; [now apply infer_data_types_run|].
  cbn [frame_of_items index_len].
  rewrite <- (length_map fst), items_keys.
  split; [apply first_occurrences_count|].
  assert (Hl : length (columns d) = length (column_labels d))
    by (unfold column_labels; now rewrite length_map).
  rewrite Hl. split; [apply first_occurrences_length|]. split.
  - apply first_occurrences_full.
  - intros Hnd. now rewrite first_occurrences_nodup.
Qed.

End InferenceRows.

Section InferenceConverse.
Import WikiScraper PandasRef.

Variable astype_float32 : float -> float.
Variable allclose : list float -> list float -> bool.
Variable float_repr : float -> string.
Variable datetime_repr : Z -> string.
Variable parse_datetime : string -> string -> result Z.
Variable frame_repr : DataFrame -> string.
Variable parse_tables : string -> result (list DataFrame).

Local Abbreviation PDref :=
  (pandas_ref astype_float32 allclose float_repr datetime_repr parse_datetime
              frame_repr parse_tables).

(** X9.  The classification read backwards: a label is Numeric only if one
    column carries it and that column has an integer, float or bool dtype;
    it is String only if one column carries it and that column is an
    object column holding only text (an empty one does).  So a label on
    several columns, a datetime column, an object column holding anything
    but text are neither Numeric nor String. *)
Theorem infer_data_types_classes (d : DataFrame) (c t : string) :
  In (c, t) (@inferred_items PDref d (column_labels d) []) ->
  (t = "Numeric" ->
     exists s, columns_named c (columns d) = [(c, s)] /\ numeric_dtype s = true)
  /\ (t = "String" ->
        exists vals, columns_named c (columns d) = [(c, ObjectSeries vals)]
                     /\ forallb is_str vals = true).
Proof.
  intros Hin.
  assert (Ht : t = @type_of PDref d c).
  { apply (@items_typed PDref d (column_labels d) []); [intros k v []|exact Hin]. }
  unfold type_of, getitem in Ht.
  destruct (columns_named c (columns d)) as [|[k s] [|y rest]] eqn:E.
  - subst t. split; discriminate.
  - assert (Hk : k = c).
    { assert (Hi : In (k, s) (columns_named c (columns d))) by (rewrite E; now left).
      apply filter_In in Hi as [_ Hk]. now apply String.eqb_eq in Hk. }
    subst k. unfold inferred_type_of in Ht. cbn in Ht.
    destruct s as [wd l|wd l|l|l|l]; cbn in Ht;
      try (subst t; split; [intros _; eexists; split; reflexivity|discriminate]);
      try (subst t; split; discriminate).
    destruct (forallb is_str l) eqn:Hs; subst t.
    + split; [discriminate|]. intros _. exists l.
      split; [reflexivity|exact Hs].
    + split; discriminate.
  - subst t. split; discriminate.
Qed.

End InferenceConverse.

Section InferenceRowsWitnesses.
Import WikiScraper Examples.

Lemma infer_data_types_row_count_witness :
  exists table,
    @infer_data_types pandas_demo 0%nat (world_of twin_frame)
    = (Ok (fresh (dom (heap (world_of twin_frame)))),
       mkWorld (<[fresh (dom (heap (world_of twin_frame))) := table]>
                  (heap (world_of twin_frame))) [] 0)
    /\ index_len table = 1%nat
    /\ (index_len table <= 2)%nat
    /\ (index_len table = 2%nat <-> List.NoDup ["a"; "a"]).
Proof.
  apply (@infer_data_types_row_count pandas_demo 0%nat (world_of twin_frame)
           twin_frame).
  reflexivity.
Defined.

Lemma infer_data_types_classes_witness :
  exists s, columns_named "a" (columns mixed_frame) = [("a", s)]
            /\ numeric_dtype s = true.
Proof.
  apply (proj1 (infer_data_types_classes
                  (fun x => x) (fun _ _ => false)
                  (fun _ => "<float>") (fun _ => "<date>")
                  (fun _ s => Ok (Z.of_nat (String.length s)))
                  (fun _ => "<frame>")
                  (fun _ => Ok [population_frame])
                  mixed_frame "a" "Numeric" (or_introl eq_refl))).
  reflexivity.
Defined.

End InferenceRowsWitnesses.

(** ** The chart: what a call can touch *)

Section ChartFrame.
Context `{PLT : Pyplot}.
Import WikiScraper PandasRef.

Variable astype_float32 : float -> float.
Variable allclose : list float -> list float -> bool.
Variable float_repr : float -> string.
Variable datetime_repr : Z -> string.
Variable parse_datetime : string -> string -> result Z.
Variable frame_repr : DataFrame -> string.
Variable parse_tables : string -> result (list DataFrame).

Local Abbreviation PDref :=
  (pandas_ref astype_float32 allclose float_repr datetime_repr parse_datetime
              frame_repr parse_tables).

Lemma same_but_refl (k1 k2 : string) (d : DataFrame) : same_but k1 k2 d d.
Proof. split; auto. Qed.

Lemma same_but_trans (k1 k2 : string) (d1 d2 d3 : DataFrame) :
  same_but k1 k2 d1 d2 -> same_but k1 k2 d2 d3 -> same_but k1 k2 d1 d3.
Proof.
  intros [I1 C1] [I2 C2]. split; [congruence|].
  intros key H1 H2. rewrite (C2 key H1 H2). now apply C1.
Qed.

Lemma replace_positional_other (key key' : string) (cols : list (string * Series)) :
  key' <> key ->
  forall vals, columns_named key' (replace_positional key vals cols)
               = columns_named key' cols.
Proof.
  intros Hne. unfold columns_named.
  induction cols as [|[k v] cols IH]; intros vals; cbn [replace_positional fst];
    [reflexivity|].
  destruct (String.eqb k key) eqn:E.
  - apply String.eqb_eq in E. subst k.
    destruct vals as [|x vals]; [reflexivity|].
    cbn [List.filter fst].
    destruct (String.eqb key key') eqn:E'; [|apply IH].
    apply String.eqb_eq in E'. congruence.
  - cbn [List.filter fst]. now rewrite IH.
Qed.

(** An assignment to the label [key] keeps the rows and every column under
    another label. *)
Lemma setitem_ref_frame (d d' : DataFrame) (key : string) (v : Selection) :
  setitem_ref d key v = Ok d' ->
  index_len d' = index_len d
  /\ forall key', key' <> key ->
       columns_named key' (columns d') = columns_named key' (columns d).
Proof.
  destruct v as [s|n vcols]; cbn [setitem_ref].
  - intros H. destruct (set_series_result d d' key s H) as (I & _ & _ & O).
    split; [exact I|exact O].
  - destruct (negb (Nat.eqb n (index_len d)) || _); [discriminate|].
    assert (Hs : forall s, set_series d key s = Ok d' ->
               index_len d' = index_len d
               /\ forall key', key' <> key ->
                    columns_named key' (columns d') = columns_named key' (columns d)).
    { intros s H. destruct (set_series_result d d' key s H) as (I & _ & _ & O).
      split; [exact I|exact O]. }
    assert (Hp : forall present : list (string * Series),
               (if Nat.eqb (length present) (length vcols)
                then Ok (mkDF (index_len d)
                           (replace_positional key (map snd vcols) (columns d)))
                else Raise (ValueError "Columns must be same length as key"))
               = Ok d' ->
               index_len d' = index_len d
               /\ forall key', key' <> key ->
                    columns_named key' (columns d') = columns_named key' (columns d)).
    { intros present. destruct (Nat.eqb _ _); [|discriminate].
      intros [= <-]. split; [reflexivity|].
      intros key' Hne. cbn [columns]. now apply replace_positional_other. }
    destruct (columns_named key (columns d)) as [|x [|y rest]];
      destruct vcols as [|[k s] [|z vrest]]; try discriminate;
      try apply Hs; try apply (Hp [x; y]); try apply (Hp (x :: y :: rest));
      try apply (Hp [x]).
Qed.

Lemma setitem_same_but (k1 k2 key : string) (d d' : DataFrame) (v : Selection) :
  key = k1 \/ key = k2 ->
  setitem_ref d key v = Ok d' -> same_but k1 k2 d d'.
Proof.
  intros Hk H. destruct (setitem_ref_frame d d' key v H) as [I O].
  split; [exact I|]. intros key' H1 H2. apply O. destruct Hk; congruence.
Qed.

(** The world a call leaves, whether it returns or raises: the world it
    found, with the table changed under 'Year' and the millions label at
    most. *)
Lemma plot_world (r : nat) (w : World) (d : DataFrame) :
  heap w !! r = Some d ->
  exists d',
    same_but "Year" millions d d'
    /\ snd (@plot_world_population PDref PLT r w)
       = mkWorld (<[r := d']> (heap w)) (log w) (rng_pos w).
Proof.
  intros Hr.
  assert (Hstay : exists d', same_but "Year" millions d d'
                    /\ w = mkWorld (<[r := d']> (heap w)) (log w) (rng_pos w)).
  { exists d. split; [apply same_but_refl|]. symmetry.
    now apply world_store_same. }
  unfold plot_world_population. rewrite (bind_deref r _ w d Hr).
  destruct (getitem d "Year") as [y|e]; [|exact Hstay].
  rewrite bind_lift_ok.
  destruct (astype_str y) as [ys|e]; [|exact Hstay].
  rewrite bind_lift_ok.
  destruct (to_datetime ys) as [yt|e]; [|exact Hstay].
  rewrite bind_lift_ok.
  destruct (setitem d "Year" yt) as [d1|e] eqn:S1; [|exact Hstay].
  rewrite bind_lift_ok, bind_store.
  pose proof (setitem_same_but "Year" millions "Year" d d1 yt
                (or_introl eq_refl) S1) as K1.
  set (w1 := mkWorld (<[r := d1]> (heap w)) (log w) (rng_pos w)).
  assert (H1 : heap w1 !! r = Some d1) by apply lookup_insert_eq.
  assert (Hstay1 : exists d', same_but "Year" millions d d'
                     /\ w1 = mkWorld (<[r := d']> (heap w)) (log w) (rng_pos w)).
  { exists d1. split; [exact K1|reflexivity]. }
  rewrite (bind_deref r _ w1 d1 H1).
  destruct (getitem d1 thousands) as [pop|e]; [|exact Hstay1].
  rewrite bind_lift_ok.
  destruct (truediv pop 1000) as [m|e]; [|exact Hstay1].
  rewrite bind_lift_ok.
  destruct (setitem d1 millions m) as [d2|e] eqn:S2; [|exact Hstay1].
  rewrite bind_lift_ok, bind_store.
  pose proof (setitem_same_but "Year" millions millions d1 d2 m
                (or_intror eq_refl) S2) as K2.
  exists d2. split; [eapply same_but_trans; eassumption|].
  set (w2 := mkWorld (<[r := d2]> (heap w1)) (log w1) (rng_pos w1)).
  assert (E2 : w2 = mkWorld (<[r := d2]> (heap w)) (log w) (rng_pos w)).
  { unfold w2, w1. cbn. f_equal. apply insert_insert_eq. }
  rewrite <- E2.
  apply bind_lift_world; intros _.
  apply bind_deref_world; intros d3.
  apply bind_lift_world; intros x.
  apply bind_lift_world; intros y'.
  do 7 (apply bind_lift_world; intros _).
  unfold lift. reflexivity.
Qed.

(** X10.  Whether it returns or raises, [plot_world_population] touches
    only the dataset it is given, and of it only the columns labelled
    'Year' and 'World Population (in millions)': the row count and every
    column under another label (the thousands column among them) stay as
    they were; it logs nothing, creates no object and draws nothing from
    the random generator. *)
Theorem plot_world_population_frame (r : nat) (w : World) (d : DataFrame) :
  heap w !! r = Some d ->
  exists res w' d',
    @plot_world_population PDref PLT r w = (res, w')
    /\ heap w' !! r = Some d'
    /\ index_len d' = index_len d
    /\ (forall key, key <> "Year" -> key <> millions ->
          columns_named key (columns d') = columns_named key (columns d))
    /\ log w' = log w
    /\ rng_pos w' = rng_pos w
    /\ dom (heap w') = dom (heap w)
    /\ (forall r', r' <> r -> heap w' !! r' = heap w !! r').
Proof.
  intros Hr. destruct (plot_world r w d Hr) as (d' & [I K] & E).
  exists (fst (@plot_world_population PDref PLT r w)),
         (snd (@plot_world_population PDref PLT r w)), d'.
  split; [apply surjective_pairing|]. rewrite E. cbn [heap log rng_pos].
  split; [apply lookup_insert_eq|]. split; [exact I|]. split; [exact K|].
  split; [reflexivity|]. split; [reflexivity|]. split.
  - rewrite dom_insert_L. apply elem_of_dom_2 in Hr. set_solver.
  - intros r' Hne. now apply lookup_insert_ne.
Qed.

Lemma columns_named_replace_same (key : string) (s : Series)
    (cols : list (string * Series)) :
  columns_named key (replace_named key s cols)
  = map (fun c => (fst c, s)) (columns_named key cols).
Proof.
  unfold columns_named, replace_named.
  induction cols as [|[k v] cols IH]; [reflexivity|].
  cbn [map List.filter fst].
  destruct (String.eqb k key) eqn:E; cbn [List.filter fst map]; rewrite ?E;
    cbn [map]; now rewrite IH.
Qed.

(** X11.  A dataset with a 'Year' column and no 'World Population (in
    thousands)' column is changed all the same: the call raises KeyError
    for the missing label after it has replaced the 'Year' column by its
    dates, in place; no millions column is derived. *)
Theorem plot_world_population_missing_population
    (r : nat) (w : World) (d : DataFrame) (year : Series) (dates : Selection) :
  heap w !! r = Some d ->
  columns_named "Year" (columns d) = [("Year", year)] ->
  series_len year = index_len d ->
  to_datetime_ref parse_datetime
    (OneColumn (astype_str_series float_repr datetime_repr year)) = Ok dates ->
  columns_named thousands (columns d) = [] ->
  exists ts d1,
    dates = OneColumn (DatetimeSeries ts)
    /\ @plot_world_population PDref PLT r w
       = (Raise (KeyError thousands),
          mkWorld (<[r := d1]> (heap w)) (log w) (rng_pos w))
    /\ columns_named "Year" (columns d1) = [("Year", DatetimeSeries ts)]
    /\ columns_named millions (columns d1) = columns_named millions (columns d).
Proof.
  intros Hr HY HYlen Hdt HP.
  assert (GY : getitem d "Year" = Ok (OneColumn year))
    by (unfold getitem; now rewrite HY).
  destruct (to_datetime_length float_repr datetime_repr parse_datetime
              year dates Hdt) as (ts & -> & Hts).
  set (d1 := mkDF (index_len d) (replace_named "Year" (DatetimeSeries ts) (columns d))).
  assert (S1 : set_series d "Year" (DatetimeSeries ts) = Ok d1).
  { unfold set_series. cbn [series_len]. rewrite Hts, HYlen, Nat.eqb_refl, HY.
    reflexivity. }
  assert (GP : getitem d1 thousands = Raise (KeyError thousands)).
  { unfold getitem, d1. cbn [columns].
    rewrite columns_named_replace_other by discriminate. now rewrite HP. }
  exists ts, d1. split; [reflexivity|]. split; [|split].
  - unfold plot_world_population.
    rewrite (bind_deref r _ w d Hr), GY, bind_lift_ok.
    cbn [astype_str to_datetime setitem pandas_ref astype_str_ref].
    rewrite bind_lift_ok, Hdt, bind_lift_ok. cbn [setitem_ref].
    rewrite S1, bind_lift_ok, bind_store.
    rewrite (bind_deref r _ _ d1) by apply lookup_insert_eq.
    rewrite GP. reflexivity.
  - unfold d1. cbn [columns]. rewrite columns_named_replace_same, HY. reflexivity.
  - unfold d1. cbn [columns]. now rewrite columns_named_replace_other by discriminate.
Qed.

End ChartFrame.

(** ** The demographics run: where it can fail *)

Section MainFailure.
Context `{PD : Pandas} `{WB : Web} `{PLT : Pyplot}.
Import WikiScraper.

Lemma scrape_outcome (url : string) (w : World) (res : result (option nat))
    (w' : World) :
  scrape_wikipedia_demographics url w = (res, w') ->
  res = Ok None \/ exists r d, res = Ok (Some r) /\ heap w' !! r = Some d.
Proof.
  unfold scrape_wikipedia_demographics, bind, try_except.
  destruct (scrape_try_outcome url w) as [[d E]|[E|[e E]]]; rewrite E;
    cbn; intros [= <- <-]; [right|now left|now left].
  eexists _, d. split; [reflexivity|]. cbn. apply lookup_insert_eq.
Qed.

(** A call of [plot_world_population] leaves the world it found, with a
    table at [r]. *)
Lemma plot_keeps_object (r : nat) (w : World) (d : DataFrame) :
  heap w !! r = Some d ->
  exists d', snd (plot_world_population r w)
             = mkWorld (<[r := d']> (heap w)) (log w) (rng_pos w).
Proof.
  intros Hr.
  assert (Hstay : exists d', w = mkWorld (<[r := d']> (heap w)) (log w) (rng_pos w)).
  { exists d. symmetry. now apply world_store_same. }
  unfold plot_world_population. rewrite (bind_deref r _ w d Hr).
  destruct (getitem d "Year") as [y|e]; [|exact Hstay].
  rewrite bind_lift_ok.
  destruct (astype_str y) as [ys|e]; [|exact Hstay].
  rewrite bind_lift_ok.
  destruct (to_datetime ys) as [yt|e]; [|exact Hstay].
  rewrite bind_lift_ok.
  destruct (setitem d "Year" yt) as [d1|e]; [|exact Hstay].
  rewrite bind_lift_ok, bind_store.
  set (w1 := mkWorld (<[r := d1]> (heap w)) (log w) (rng_pos w)).
  assert (H1 : heap w1 !! r = Some d1) by apply lookup_insert_eq.
  assert (Hstay1 : exists d', w1 = mkWorld (<[r := d']> (heap w)) (log w) (rng_pos w)).
  { exists d1. reflexivity. }
  rewrite (bind_deref r _ w1 d1 H1).
  destruct (getitem d1 thousands) as [pop|e]; [|exact Hstay1].
  rewrite bind_lift_ok.
  destruct (truediv pop 1000) as [m|e]; [|exact Hstay1].
  rewrite bind_lift_ok.
  destruct (setitem d1 millions m) as [d2|e]; [|exact Hstay1].
  rewrite bind_lift_ok, bind_store.
  exists d2.
  set (w2 := mkWorld (<[r := d2]> (heap w1)) (log w1) (rng_pos w1)).
  assert (E2 : w2 = mkWorld (<[r := d2]> (heap w)) (log w) (rng_pos w)).
  { unfold w2, w1. cbn. f_equal. apply insert_insert_eq. }
  rewrite <- E2.
  apply bind_lift_world; intros _.
  apply bind_deref_world; intros d3.
  apply bind_lift_world; intros x.
  apply bind_lift_world; intros y'.
  do 7 (apply bind_lift_world; intros _).
  unfold lift. reflexivity.
Qed.

(** X12.  [main] of the demographics script can fail in one place only: if
    it raises, a dataset was scraped and coerced, and the exception is the
    one [plot_world_population] raised, or the one [df.to_string()] raised
    after the plot.  Neither the scrape nor the coercion makes [main]
    fail, and after a failed plot nothing more is logged. *)
Theorem main_failure_origin (w w' : World) (e : PyException) :
  main w = (Raise e, w') ->
  exists r w1 w2,
    scrape_wikipedia_demographics url (logged w INFO "Starting script.")
    = (Ok (Some r), w1)
    /\ apply_inferred_types r w1 = (Ok r, w2)
    /\ (plot_world_population r w2 = (Raise e, w')
        \/ exists d, plot_world_population r w2 = (Ok tt, w')
                     /\ heap w' !! r = Some d
                     /\ to_string d = Raise e).
Proof.
  unfold main. unfold bind at 1. unfold logger_info at 1.
  unfold bind at 1.
  destruct (scrape_wikipedia_demographics url (logged w INFO "Starting script."))
    as [res w1] eqn:Es.
  destruct (scrape_outcome _ _ _ _ Es) as [->|(r & d & -> & Hd)].
  { unfold bind, ret. discriminate. }
  destruct (coerce_loop_total r (column_labels d) w1 d Hd)
    as (w2 & El & [d2 H2] & _).
  assert (Ea : apply_inferred_types r w1 = (Ok r, w2)).
  { unfold apply_inferred_types. rewrite (bind_deref r _ w1 d Hd).
    unfold bind. now rewrite El. }
  unfold bind at 1. unfold bind at 1. rewrite Ea.
  unfold bind at 1.
  destruct (plot_world_population r w2) as [[[]|e1] w3] eqn:Ep.
  - destruct (plot_keeps_object r w2 d2 H2) as [d3 E3].
    rewrite Ep in E3. cbn [snd] in E3.
    assert (H3 : heap w3 !! r = Some d3).
    { rewrite E3. cbn. apply lookup_insert_eq. }
    rewrite (bind_deref r _ w3 d3 H3).
    destruct (to_string d3) as [s|e2] eqn:Et.
    + rewrite bind_lift_ok. unfold logger_info, ret. discriminate.
    + cbn. intros [= <- <-]. exists r, w1, w2.
      split; [first [reflexivity|exact Es]|]. split; [exact Ea|].
      right. exists d3. auto.
  - intros [= <- <-]. exists r, w1, w2.
    split; [first [reflexivity|exact Es]|]. split; [exact Ea|]. now left.
Qed.

End MainFailure.

Section ChartWitnesses.
Import WikiScraper Examples MoreExamples.

Lemma plot_world_population_frame_witness :
  exists res w' d',
    @plot_world_population pandas_demo pyplot_headless 0%nat
      (world_of population_frame) = (res, w')
    /\ heap w' !! 0%nat = Some d'
    /\ index_len d' = 2%nat
    /\ columns_named thousands (columns d')
       = [(thousands, IntSeries I64 [1000; 2000])].
Proof.
  destruct (@plot_world_population_frame pyplot_headless
              (fun x => x) (fun _ _ => false)
              (fun _ => "<float>") (fun _ => "<date>")
              (fun _ s => Ok (Z.of_nat (String.length s)))
              (fun _ => "<frame>")
              (fun _ => Ok [population_frame])
              0%nat (world_of population_frame) population_frame eq_refl)
    as (res & w' & d' & E & H & I & K & _).
  exists res, w', d'. split; [exact E|]. split; [exact H|]. split; [exact I|].
  rewrite (K thousands); [reflexivity|discriminate|discriminate].
Defined.

Lemma plot_world_population_missing_population_witness :
  exists ts d1,
    @plot_world_population pandas_demo pyplot_ok 0%nat (world_of years_only_frame)
    = (Raise (KeyError thousands),
       mkWorld (<[0%nat := d1]> (heap (world_of years_only_frame))) [] 0)
    /\ columns_named "Year" (columns d1) = [("Year", DatetimeSeries ts)].
Proof.
  destruct (@plot_world_population_missing_population pyplot_ok
              (fun x => x) (fun _ _ => false)
              (fun _ => "<float>") (fun _ => "<date>")
              (fun _ s => Ok (Z.of_nat (String.length s)))
              (fun _ => "<frame>")
              (fun _ => Ok [population_frame])
              0%nat (world_of years_only_frame) years_only_frame
              (IntSeries I64 [1950; 1951])
              (OneColumn (DatetimeSeries [4; 4]))
              eq_refl eq_refl eq_refl eq_refl eq_refl)
    as (ts & d1 & _ & E & Y & _).
  exists ts, d1. split; [exact E|exact Y].
Defined.

Lemma main_failure_origin_witness :
  exists r w1 w2,
    @scrape_wikipedia_demographics pandas_demo web_up url
      (logged empty_world INFO "Starting script.") = (Ok (Some r), w1)
    /\ @apply_inferred_types pandas_demo r w1 = (Ok r, w2)
    /\ fst (@plot_world_population pandas_demo pyplot_headless r w2)
       = Raise (mkExc "RuntimeError" "no display").
Proof.
  destruct (@main_failure_origin pandas_demo web_up pyplot_headless empty_world
              (snd (@main pandas_demo web_up pyplot_headless empty_world))
              (mkExc "RuntimeError" "no display"))
    as (r & w1 & w2 & Es & Ea & [Ep|(d & Ep & _)]).
  - vm_compute. reflexivity.
  - exists r, w1, w2. split; [exact Es|]. split; [exact Ea|]. now rewrite Ep.
  - exfalso.
    assert (Hm : fst (@main pandas_demo web_up pyplot_headless empty_world)
                 = Raise (mkExc "RuntimeError" "no display"))
      by (vm_compute; reflexivity).
    vm_compute in Es. injection Es as <- <-.
    vm_compute in Ea. injection Ea as <-.
    vm_compute in Ep. discriminate Ep.
Defined.

End ChartWitnesses.

(** ** The random table: errors, entries, and the run *)

Section RandomTableMore.
Context `{PD : Pandas} `{NP : Numpy}.
Import ScriptTemplate.

Lemma generate_ok (rows cols : Z) (w : World) :
  0 <= rows -> 0 <= cols ->
  8 * Z.max 1 rows * Z.max 1 cols <= INTP_MAX ->
  8 * rows * cols <= memory_limit ->
  generate_random_dataframe (Some rows) (Some cols) w
  = (Ok (fresh (dom (heap w))),
     mkWorld (<[fresh (dom (heap w))
                := sampled_frame (rng_pos w) (Z.to_nat rows) (Z.to_nat cols)]>
                (heap w))
             (log w) (rng_pos w + Z.to_nat rows * Z.to_nat cols)).
Proof.
  intros Hr Hc Hsize Hmem.
  destruct (np_empty_ok rows cols Hr Hc Hsize Hmem) as [bytes Hnew].
  unfold generate_random_dataframe. simpl.
  unfold bind at 1, np_random_rand. rewrite Hnew.
  unfold bind at 1, lift, frame_of_array.
  rewrite length_map, range_length, Nat.eqb_refl.
  unfold sampled_frame. now rewrite Z2Nat.id.
Qed.




Lemma imap_nth {A B} (g : nat -> A -> B) (l : list A) (j : nat) (a : A) (b : B) :
  (j < length l)%nat -> nth j (imap g l) b = g j (nth j l a).
Proof.
  revert g j. induction l as [|x l IH]; intros g j Hj; cbn in *; [lia|].
  destruct j as [|j]; [reflexivity|]. apply (IH (fun i => g (S i))). lia.
Qed.

Lemma seq_map_nth {B} (f : nat -> B) (n i : nat) (b : B) :
  (i < n)%nat -> nth i (map f (seq 0 n)) b = f i.
Proof.
  intros Hi. rewrite (nth_indep _ b (f 0%nat)) by (now rewrite length_map, length_seq).
  rewrite (map_nth f (seq 0 n) 0%nat i). now rewrite seq_nth.
Qed.

(** X14.  When numpy can create the array, the table is filled row by
    row from the generator: entry [i] of column [j] is the sample at
    position [pos + i * cols + j], where [pos] is the generator's position
    before the call.  The call leaves the generator at [pos + rows * cols],
    and every position from [pos] up to there is used, each by one
    entry. *)
Theorem generate_random_dataframe_entries (rows cols : Z) (w : World)
    (i j : nat) :
  0 <= rows -> 0 <= cols ->
  8 * Z.max 1 rows * Z.max 1 cols <= INTP_MAX ->
  8 * rows * cols <= memory_limit ->
  (i < Z.to_nat rows)%nat -> (j < Z.to_nat cols)%nat ->
  exists w' d vals,
    generate_random_dataframe (Some rows) (Some cols) w
    = (Ok (fresh (dom (heap w))), w')
    /\ heap w' !! fresh (dom (heap w)) = Some d
    /\ nth j (columns d) ("", FloatSeries F64 [])
       = ("Column" ++ str_of_int (Z.of_nat j + 1), FloatSeries F64 vals)
    /\ nth i vals 0%float
       = random_sample (rng_pos w + i * Z.to_nat cols + j)
    /\ rng_pos w' = (rng_pos w + Z.to_nat rows * Z.to_nat cols)%nat
    /\ (rng_pos w + i * Z.to_nat cols + j < rng_pos w')%nat
    /\ (forall i' j', (j' < Z.to_nat cols)%nat ->
          (i' * Z.to_nat cols + j' = i * Z.to_nat cols + j)%nat ->
          i' = i /\ j' = j)
    /\ (forall p, (rng_pos w <= p < rng_pos w')%nat ->
          exists i' j', (i' < Z.to_nat rows)%nat /\ (j' < Z.to_nat cols)%nat
                        /\ p = (rng_pos w + i' * Z.to_nat cols + j')%nat).
Proof.
  intros Hr Hc Hsize Hmem Hi Hj.
  eexists _, _, _. split; [now apply generate_ok|].
  cbn [heap rng_pos]. split; [apply lookup_insert_eq|].
  unfold sampled_frame. cbn [columns].
  split; [|split; [|split; [|split; [|split]]]].
  - rewrite (imap_nth _ _ j "") by (now rewrite length_map, range_length, Nat2Z.id).
    rewrite range_nth by (now rewrite Nat2Z.id). reflexivity.
  - rewrite map_map. rewrite seq_map_nth by exact Hi.
    now rewrite seq_map_nth by exact Hj.
  - reflexivity.
  - nia.
  - intros i' j' Hj' E.
    assert (Hii : i' = i).
    { destruct (Nat.lt_trichotomy i' i) as [H|[H|H]]; [|exact H|]; nia. }
    subst i'. split; [reflexivity|lia].
  - intros p Hp. set (c := Z.to_nat cols) in *. set (n := Z.to_nat rows) in *.
    assert (Hc0 : c <> 0%nat) by lia.
    exists ((p - rng_pos w) / c)%nat, ((p - rng_pos w) mod c)%nat.
    pose proof (Nat.div_mod (p - rng_pos w) c Hc0) as Hdm.
    pose proof (Nat.mod_upper_bound (p - rng_pos w) c Hc0) as Hmod.
    split; [|split; [exact Hmod|]].
    + apply Nat.Div0.div_lt_upper_bound. lia.
    + lia.
Qed.

End RandomTableMore.

Section TemplateRun.
Context `{PD : Pandas} `{NP : Numpy}.
Import ScriptTemplate.

(** X15.  A run of the template's [main] creates one table of 5 rows and 5
    columns and draws 25 samples.  When the table renders, [main] returns 0
    having logged two INFO records, the greeting and the rendering; when
    [df.to_string()] raises, [main] raises that exception with the greeting
    alone logged. *)
Theorem template_main_effect (w : World) :
  let r := fresh (dom (heap w)) in
  let d := sampled_frame (rng_pos w) 5 5 in
  let made (records : list LogRecord) :=
    mkWorld (<[r := d]> (heap w)) (log w ++ records) (rng_pos w + 25) in
  heap w !! r = None
  /\ index_len d = 5%nat /\ length (columns d) = 5%nat
  /\ (forall s, to_string d = Ok s ->
        main w = (Ok 0, made [mkLog INFO "Hello world.";
                              mkLog INFO ("DataFrame contents:" ++ String "010" s)]))
  /\ (forall e, to_string d = Raise e ->
        main w = (Raise e, made [mkLog INFO "Hello world."])).
Proof.
  intros r d made.
  assert (Hgen : generate_random_dataframe None None (logged w INFO "Hello world.")
                 = (Ok r, made [mkLog INFO "Hello world."])).
  { change (generate_random_dataframe None None)
      with (generate_random_dataframe (Some 5) (Some 5)).
    pose proof memory_limit_floor as Hfloor.
    rewrite generate_ok; [reflexivity|lia|lia|vm_compute; discriminate|lia]. }
  split; [apply not_elem_of_dom, is_fresh|].
  split; [reflexivity|]. split; [reflexivity|].
  assert (Hd : heap (made [mkLog INFO "Hello world."]) !! r = Some d)
    by apply lookup_insert_eq.
  split.
  - intros s Hs. unfold main. unfold bind at 1, logger_info at 1.
    unfold bind at 1. rewrite Hgen.
    unfold bind at 1, log_dataframe.
    rewrite (bind_deref r _ _ d Hd), Hs, bind_lift_ok.
    unfold logger_info, ret, logged, made. cbn. now rewrite <- app_assoc.
  - intros e He. unfold main. unfold bind at 1, logger_info at 1.
    unfold bind at 1. rewrite Hgen.
    unfold bind at 1, log_dataframe.
    rewrite (bind_deref r _ _ d Hd), He. reflexivity.
Qed.

End TemplateRun.

Section RandomTableMoreWitnesses.
Import Examples MoreExamples ScriptTemplate.


Lemma generate_random_dataframe_entries_witness :
  exists w' d vals,
    @generate_random_dataframe numpy_counting (Some 2) (Some 3) empty_world
    = (Ok (fresh (dom (heap empty_world))), w')
    /\ heap w' !! fresh (dom (heap empty_world)) = Some d
    /\ nth 2 (columns d) ("", FloatSeries F64 [])
       = ("Column3", FloatSeries F64 vals)
    /\ nth 1 vals 0%float = PrimFloat.div 5 1024.
Proof.
  destruct (@generate_random_dataframe_entries numpy_counting 2 3 empty_world
              1%nat 2%nat)
    as (w' & d & vals & E & H & C & V & _);
    try lia; try (vm_compute; discriminate).
  exists w', d, vals. split; [exact E|]. split; [exact H|].
  split; [exact C|]. rewrite V. reflexivity.
Defined.

Lemma template_main_effect_witness :
  fst (@main pandas_demo numpy_half empty_world) = Ok 0.
Proof.
  rewrite (proj1 (proj2 (proj2 (proj2
             (@template_main_effect pandas_demo numpy_half empty_world))))
             "<frame>" eq_refl).
  reflexivity.
Defined.

End RandomTableMoreWitnesses.

(** ** [init]: the [--debug] option *)

Section InitFacts.
Import CommandLine.

Lemma conflicts_debug (p : ArgumentParser) :
  conflicts p debug_action
  = if existsb (owns "--debug") (actions p) then ["--debug"] else [].
Proof. unfold conflicts. cbn. now destruct (existsb _ (actions p)). Qed.

Lemma existsb_filter_kept (p : string -> bool) (s : string) (l : list string) :
  p s = true ->
  existsb (String.eqb s) (List.filter p l) = existsb (String.eqb s) l.
Proof.
  intros Hp. induction l as [|t l IH]; [reflexivity|].
  cbn [List.filter existsb]. destruct (p t) eqn:E; cbn [existsb].
  - now rewrite IH.
  - destruct (String.eqb s t) eqn:E'; [|exact IH].
    apply String.eqb_eq in E'. congruence.
Qed.

Lemma existsb_filter_dropped (p : string -> bool) (s : string) (l : list string) :
  p s = false -> existsb (String.eqb s) (List.filter p l) = false.
Proof.
  intros Hp. induction l as [|t l IH]; [reflexivity|].
  cbn [List.filter]. destruct (p t) eqn:E; [|exact IH].
  cbn [existsb]. rewrite IH, orb_false_r.
  destruct (String.eqb s t) eqn:E'; [|reflexivity].
  apply String.eqb_eq in E'. congruence.
Qed.

Lemma owns_rest (s : string) (l : list string) :
  s <> "--debug" ->
  existsb (String.eqb s)
          (List.filter (fun t => negb (existsb (String.eqb t) ["--debug"])) l)
  = existsb (String.eqb s) l.
Proof.
  intros Hne. apply existsb_filter_kept. cbn. rewrite orb_false_r.
  apply negb_true_iff. destruct (String.eqb s "--debug") eqn:E; [|reflexivity].
  apply String.eqb_eq in E. congruence.
Qed.

Lemma debug_rest (l : list string) :
  existsb (String.eqb "--debug")
          (List.filter (fun t => negb (existsb (String.eqb t) ["--debug"])) l)
  = false.
Proof. now apply existsb_filter_dropped. Qed.

(** After the 'resolve' handler no action has [--debug], and under every
    other option string the actions are the ones there were. *)
Lemma resolve_cons (confl : list string) (old : Action) (olds : list Action) :
  resolve confl (old :: olds)
  = ((if existsb (fun s => owns s old) confl then
       match List.filter (fun s => negb (existsb (String.eqb s) confl))
                         (option_strings old) with
       | [] => []
       | rest => [mkAction rest (dest old) (kind old)
                           (default_value old) (help old)]
       end
     else [old]) ++ resolve confl olds)%list.
Proof. reflexivity. Qed.

Lemma resolve_debug (olds : list Action) :
  List.filter (owns "--debug") (resolve ["--debug"] olds) = []
  /\ forall s, s <> "--debug" ->
       map action_core (List.filter (owns s) (resolve ["--debug"] olds))
       = map action_core (List.filter (owns s) olds).
Proof.
  induction olds as [|old olds [IH1 IH2]]; [split; reflexivity|].
  rewrite resolve_cons.
  destruct (existsb (fun s => owns s old) ["--debug"]) eqn:Eo;
    cbn [existsb] in Eo; rewrite orb_false_r in Eo.
  - destruct (List.filter (fun s => negb (existsb (String.eqb s) ["--debug"]))
                          (option_strings old)) as [|t rest] eqn:Er;
      cbn [app].
    + split; [exact IH1|].
      intros s Hs. cbn [List.filter].
      assert (Hn : owns s old = false).
      { unfold owns. rewrite <- (owns_rest s _ Hs), Er. reflexivity. }
      rewrite Hn. now apply IH2.
    + split.
      * cbn [List.filter].
        assert (Hn : owns "--debug" (mkAction (t :: rest) (dest old) (kind old)
                                        (default_value old) (help old)) = false).
        { unfold owns. cbn [option_strings]. rewrite <- Er. apply debug_rest. }
        rewrite Hn. exact IH1.
      * intros s Hs. cbn [List.filter].
        assert (Hn : owns s (mkAction (t :: rest) (dest old) (kind old)
                               (default_value old) (help old)) = owns s old).
        { unfold owns. cbn [option_strings]. rewrite <- Er.
          apply (owns_rest s _ Hs). }
        rewrite Hn. destruct (owns s old); cbn [map]; rewrite (IH2 s Hs);
          reflexivity.
  - cbn [app]. split.
    + cbn [List.filter]. now rewrite Eo.
    + intros s Hs. cbn [List.filter]. destruct (owns s old); cbn [map];
        now rewrite (IH2 s Hs).
Qed.

Lemma resolve_nothing (confl : list string) (olds : list Action) :
  (forall old, In old olds -> existsb (fun s => owns s old) confl = false) ->
  resolve confl olds = olds.
Proof.
  unfold resolve. induction olds as [|old olds IH]; intros H; [reflexivity|].
  cbn [flat_map]. rewrite (H old (or_introl eq_refl)). cbn [app].
  rewrite IH; [reflexivity|]. intros o Ho. apply H. now right.
Qed.

Lemma filter_none {A : Type} (f : A -> bool) (l : list A) :
  existsb f l = false -> List.filter f l = [].
Proof.
  induction l as [|x l IH]; [reflexivity|]. cbn [existsb List.filter].
  intros H. apply orb_false_iff in H as [Hx Hl]. rewrite Hx. now apply IH.
Qed.

Lemma none_filter {A : Type} (f : A -> bool) (l : list A) :
  List.filter f l = [] -> forall x, In x l -> f x = false.
Proof.
  intros H x Hx. destruct (f x) eqn:E; [|reflexivity].
  assert (Hin : In x (List.filter f l)) by (apply List.filter_In; now split).
  rewrite H in Hin. destruct Hin.
Qed.

Lemma resolve_app (confl : list string) (l1 l2 : list Action) :
  resolve confl (l1 ++ l2)%list = (resolve confl l1 ++ resolve confl l2)%list.
Proof. apply flat_map_app. Qed.

(** The call [init] makes registers the [--debug] action on a parser that
    has [-] among its prefix characters, and raises on any other. *)
Lemma add_argument_debug (p : ArgumentParser) :
  add_argument p "--debug" "debug" StoreTrueAction (Some false)
               "Enables debugging functionality."
  = if is_prefix_char p "-"
    then add_action p debug_action
    else Raise (ValueError "dest supplied twice for positional argument").
Proof. reflexivity. Qed.

(** What the registration makes of a parser with the 'resolve' handler. *)
Lemma add_debug_resolve (p : ArgumentParser) :
  conflict_handler p = HandlerResolve ->
  exists acts,
    add_action p debug_action
    = Ok (mkParser (description p) (prefix_chars p) HandlerResolve
                   (acts ++ [debug_action])%list)
    /\ List.filter (owns "--debug") acts = []
    /\ forall s, s <> "--debug" ->
         map action_core (List.filter (owns s) acts)
         = map action_core (List.filter (owns s) (actions p)).
Proof.
  intros Hh. unfold add_action. rewrite conflicts_debug, Hh.
  destruct (existsb (owns "--debug") (actions p)) eqn:E.
  - exists (resolve ["--debug"] (actions p)).
    destruct (resolve_debug (actions p)) as [H1 H2]. now repeat split.
  - exists (actions p). repeat split. now apply filter_none.
Qed.

(** A parser the registration made stays as it is when the option is
    registered again. *)
Lemma add_debug_again (d pc : string) (acts : list Action) :
  List.filter (owns "--debug") acts = [] ->
  add_action (mkParser d pc HandlerResolve (acts ++ [debug_action])%list)
             debug_action
  = Ok (mkParser d pc HandlerResolve (acts ++ [debug_action])%list).
Proof.
  intros Hn. unfold add_action. rewrite conflicts_debug.
  cbn [actions description conflict_handler prefix_chars].
  rewrite existsb_app. cbn [existsb]. change (owns "--debug" debug_action) with true.
  rewrite orb_true_l, orb_true_r. rewrite resolve_app.
  rewrite resolve_nothing.
  - change (resolve ["--debug"] [debug_action]) with (@nil Action).
    now rewrite app_nil_r.
  - intros old Hold. cbn [existsb]. rewrite orb_false_r.
    now apply (none_filter _ _ Hn).
Qed.

End InitFacts.

Section InitProperties.
Import CommandLine.

(** X16 ([init], parser made with the 'resolve' handler and with [-] among
    its prefix characters): the call returns the parser it was given;
    afterwards [--debug] belongs to the action [init] adds and to no
    other, and under every other option string the parser has the actions
    it had, with their destination, kind, default and help text. *)
Theorem init_resolves_debug (r : nat) (st : gmap nat ArgumentParser)
        (p : ArgumentParser) :
  st !! r = Some p ->
  conflict_handler p = HandlerResolve ->
  is_prefix_char p "-" = true ->
  exists p',
    init (Some r) st = (Ok r, <[r := p']> st)
    /\ description p' = description p
    /\ prefix_chars p' = prefix_chars p
    /\ conflict_handler p' = HandlerResolve
    /\ owners "--debug" p' = [debug_action]
    /\ forall s, s <> "--debug" ->
         map action_core (owners s p') = map action_core (owners s p).
Proof.
  intros Hp Hh Hc. destruct (add_debug_resolve p Hh) as (acts & Ha & Hn & Hs).
  exists (mkParser (description p) (prefix_chars p) HandlerResolve
                   (acts ++ [debug_action])%list).
  unfold init. rewrite Hp. rewrite (add_argument_debug p). rewrite Hc, Ha.
  repeat split.
  - unfold owners. cbn [actions]. rewrite List.filter_app, Hn. reflexivity.
  - intros s Hne. unfold owners. cbn [actions]. rewrite List.filter_app.
    cbn [List.filter]. unfold owns at 2. cbn [option_strings debug_action existsb].
    rewrite orb_false_r.
    destruct (String.eqb s "--debug") eqn:E.
    + apply String.eqb_eq in E. congruence.
    + rewrite app_nil_r. now apply Hs.
Qed.

(** X17 ([init], parser made with the 'resolve' handler and with [-] among
    its prefix characters): calling [init] a second time on the same
    parser changes nothing. *)
Theorem init_twice_resolve (r : nat) (st : gmap nat ArgumentParser)
        (p : ArgumentParser) :
  st !! r = Some p ->
  conflict_handler p = HandlerResolve ->
  is_prefix_char p "-" = true ->
  exists st1,
    init (Some r) st = (Ok r, st1) /\ init (Some r) st1 = (Ok r, st1).
Proof.
  intros Hp Hh Hc. destruct (add_debug_resolve p Hh) as (acts & Ha & Hn & _).
  eexists. split.
  - unfold init. rewrite Hp. rewrite (add_argument_debug p). rewrite Hc, Ha.
    reflexivity.
  - unfold init. rewrite lookup_insert_eq. rewrite add_argument_debug.
    change (is_prefix_char (mkParser (description p) (prefix_chars p)
                                     HandlerResolve (acts ++ [debug_action])%list)
                           "-")
      with (is_prefix_char p "-").
    rewrite Hc, (add_debug_again _ _ _ Hn).
    now rewrite insert_insert_eq.
Qed.

(** X18 ([init] without a parser): a new parser is made, one the store did
    not have; it has the script's description and two actions, the help
    action and [--debug]; the parsers there were stay as they were. *)
Theorem init_default_parser (st : gmap nat ArgumentParser) :
  exists r,
    st !! r = None
    /\ init None st
       = (Ok r, <[r := mkParser __description__ "-" HandlerResolve
                                [help_action; debug_action]]> st).
Proof.
  exists (fresh (dom st)). split.
  - apply not_elem_of_dom, is_fresh.
  - unfold init. rewrite lookup_insert_eq.
    change (add_argument (new_parser __description__ HandlerResolve)
                         "--debug" "debug" StoreTrueAction (Some false)
                         "Enables debugging functionality.")
      with (Ok (mkParser __description__ "-" HandlerResolve
                         [help_action; debug_action])).
    cbn iota. now rewrite insert_insert_eq.
Qed.

(** X19 ([init], parser made with the default 'error' handler): when an
    action of the parser has [--debug] already, [init] raises argparse's
    ArgumentError and the parser is unchanged.  (A parser without [-]
    among its prefix characters, which argparse lets have no such action,
    would have [--debug] refused as the name of a positional argument.) *)
Theorem init_conflict_raises (r : nat) (st : gmap nat ArgumentParser)
        (p : ArgumentParser) :
  st !! r = Some p ->
  conflict_handler p = HandlerError ->
  owners "--debug" p <> [] ->
  init (Some r) st
  = (Raise (if is_prefix_char p "-"
            then mkExc "ArgumentError"
                       "argument --debug: conflicting option string: --debug"
            else ValueError "dest supplied twice for positional argument"),
     st).
Proof.
  intros Hp Hh Ho. unfold init. rewrite Hp. rewrite (add_argument_debug p).
  destruct (is_prefix_char p "-"); [|reflexivity].
  unfold add_action. rewrite conflicts_debug, Hh.
  destruct (existsb (owns "--debug") (actions p)) eqn:E.
  - reflexivity.
  - exfalso. apply Ho. unfold owners. now apply filter_none.
Qed.

(** X20 ([init], parser made with the default 'error' handler): a second
    call on the parser a first call returned always raises. *)
Theorem init_twice_strict (r : nat) (st st1 : gmap nat ArgumentParser)
        (p : ArgumentParser) :
  st !! r = Some p ->
  conflict_handler p = HandlerError ->
  init (Some r) st = (Ok r, st1) ->
  exists e, init (Some r) st1 = (Raise e, st1).
Proof.
  intros Hp Hh. unfold init at 1. rewrite Hp. rewrite (add_argument_debug p).
  destruct (is_prefix_char p "-") eqn:Hc; [|discriminate].
  unfold add_action. rewrite conflicts_debug, Hh.
  destruct (existsb (owns "--debug") (actions p)) eqn:E; [discriminate|].
  intros H. injection H as <-. eexists.
  unfold init. rewrite lookup_insert_eq. rewrite add_argument_debug.
  unfold is_prefix_char in Hc |- *. cbn [prefix_chars].
  rewrite Hc. unfold add_action.
  rewrite conflicts_debug. cbn [actions conflict_handler].
  rewrite existsb_app. cbn [existsb].
  change (owns "--debug" debug_action) with true.
  rewrite orb_true_l, orb_true_r. reflexivity.
Qed.

(** X21 ([init], parser without [-] among its prefix characters): whatever
    its conflict handler and its actions, [init] raises ValueError, since
    [--debug] is then the name of a positional argument and [dest] is
    given besides; the parser is unchanged. *)
Theorem init_other_prefix (r : nat) (st : gmap nat ArgumentParser)
        (p : ArgumentParser) :
  st !! r = Some p ->
  is_prefix_char p "-" = false ->
  init (Some r) st
  = (Raise (ValueError "dest supplied twice for positional argument"), st).
Proof.
  intros Hp Hc. unfold init. rewrite Hp. rewrite (add_argument_debug p).
  now rewrite Hc.
Qed.

End InitProperties.

Section InitWitnesses.
Import CommandLine MoreExamples.

Local Abbreviation one_parser p := ({[ 0%nat := p ]} : gmap nat ArgumentParser).

Lemma init_resolves_debug_witness :
  exists p',
    init (Some 0%nat) (one_parser lenient_parser)
    = (Ok 0%nat, <[0%nat := p']> (one_parser lenient_parser))
    /\ description p' = "lenient"
    /\ prefix_chars p' = "-"
    /\ conflict_handler p' = HandlerResolve
    /\ owners "--debug" p' = [debug_action]
    /\ forall s, s <> "--debug" ->
         map action_core (owners s p')
         = map action_core (owners s lenient_parser).
Proof.
  apply (init_resolves_debug 0%nat (one_parser lenient_parser) lenient_parser);
    reflexivity.
Defined.

Lemma init_twice_resolve_witness :
  exists st1,
    init (Some 0%nat) (one_parser lenient_parser) = (Ok 0%nat, st1)
    /\ init (Some 0%nat) st1 = (Ok 0%nat, st1).
Proof.
  apply (init_twice_resolve 0%nat (one_parser lenient_parser) lenient_parser);
    reflexivity.
Defined.

Lemma init_conflict_raises_witness :
  init (Some 0%nat) (one_parser strict_parser)
  = (Raise (mkExc "ArgumentError"
                  "argument --debug: conflicting option string: --debug"),
     one_parser strict_parser).
Proof.
  apply (init_conflict_raises 0%nat (one_parser strict_parser) strict_parser);
    [reflexivity | reflexivity | discriminate].
Defined.

Lemma init_twice_strict_witness :
  exists e,
    init (Some 0%nat) (one_parser (mkParser "strict" "-" HandlerError
                                            [help_action; debug_action]))
    = (Raise e, one_parser (mkParser "strict" "-" HandlerError
                                     [help_action; debug_action])).
Proof.
  apply (init_twice_strict 0%nat (one_parser (new_parser "strict" HandlerError)) _
                           (new_parser "strict" HandlerError));
    reflexivity.
Defined.

Lemma init_other_prefix_witness :
  init (Some 0%nat) (one_parser plus_parser)
  = (Raise (ValueError "dest supplied twice for positional argument"),
     one_parser plus_parser).
Proof.
  apply (init_other_prefix 0%nat (one_parser plus_parser) plus_parser);
    reflexivity.
Defined.

End InitWitnesses.
